(** * Redeem-Base: the gasless redemption server (server.js)

    A shallow embedding of [server.js]: the JSON values the handlers
    exchange, the secret decryption engine [decryptPrivateKey], the chain
    tables, and the three POST handlers, run against an explicit log of the
    calls they make to the registry and to the chain; and, of the script
    of the page, the listener that formats the card secret field.

    Node's [crypto], [Buffer] and [JSON], and the [ethers] library, are not
    part of the repository: they are the fields of the classes [NodeLib] and
    [EthersLib], and every theorem holds for all their implementations. *)

From Stdlib Require Import Sorted.
From Stdlib Require Import ZArith List String Ascii Bool Lia.
From Stdlib Require Import DecimalString DecimalZ.
From Stdlib Require Strings.Byte.
Import ListNotations.
Local Open Scope string_scope.
Local Open Scope Z_scope.

Set Implicit Arguments.
Set Warnings "-register-all".
Set Warnings "-notation-overridden".

(* ================================================================== *)
(** * JavaScript values and completions *)
(* ================================================================== *)

Module JS.

(** The values that travel through the handlers: request bodies, registry
    cards, receipts.

    A number is carried by its printing [String(n)], which identifies it
    (the two zeros both print as 0): 8453 is [VNum "8453"], one and a
    half is [VNum "1.5"], ten to the 21st is [VNum "1e+21"]. The program
    does no arithmetic on the numbers it receives: it prints them, uses
    them as keys of its tables and tests them for truthiness.

    The own properties of an object are data, as [JSON.parse] makes
    them. [VBuiltin] stands for a built-in function reached through the
    prototype chain of an object literal. *)
Inductive value : Type :=
| VUndefined
| VNull
| VBool (b : bool)
| VNum (printed : string)
| VStr (s : string)
| VArr (items : list value)
| VObj (fields : list (string * value))
| VBuiltin (name : string).

(** Induction on values, the elements of an array being smaller than
    the array. *)
Section ValueInduction.
Variable P : value -> Prop.
Hypothesis P_undefined : P VUndefined.
Hypothesis P_null : P VNull.
Hypothesis P_bool : forall b, P (VBool b).
Hypothesis P_num : forall printed, P (VNum printed).
Hypothesis P_str : forall s, P (VStr s).
Hypothesis P_arr : forall items, Forall P items -> P (VArr items).
Hypothesis P_obj : forall fields, P (VObj fields).
Hypothesis P_builtin : forall name, P (VBuiltin name).

Fixpoint value_items_ind (v : value) : P v :=
  match v with
  | VUndefined => P_undefined
  | VNull => P_null
  | VBool b => P_bool b
  | VNum printed => P_num printed
  | VStr s => P_str s
  | VArr items =>
      P_arr ((fix all (l : list value) : Forall P l :=
                match l with
                | [] => Forall_nil P
                | x :: r => Forall_cons x (value_items_ind x) (all r)
                end) items)
  | VObj fields => P_obj fields
  | VBuiltin name => P_builtin name
  end.

End ValueInduction.

(** An exception object: [error.name] and [error.message]. *)
Record exn : Type := mkExn { exn_name : string; exn_message : string }.

Definition Error (msg : string) : exn := mkExn "Error" msg.
Definition TypeError (msg : string) : exn := mkExn "TypeError" msg.

(** How an expression or an awaited promise ends. *)
Inductive completion (A : Type) : Type :=
| Normal (a : A)
| Throw (e : exn).
Arguments Normal {A} a.
Arguments Throw {A} e.

Definition is_normal {A} (c : completion A) : bool :=
  match c with Normal _ => true | Throw _ => false end.

(** [try { body } catch (error) { handler }] for pure code. *)
Definition try_catch {A} (body : completion A) (handler : exn -> completion A)
  : completion A :=
  match body with
  | Normal a => Normal a
  | Throw e => handler e
  end.

Definition cbind {A B} (c : completion A) (k : A -> completion B)
  : completion B :=
  match c with
  | Normal a => k a
  | Throw e => Throw e
  end.

Notation "'let?' x ':=' c 'in' k" := (cbind c (fun x => k))
  (at level 10, x name, c at level 100, k at level 200).

(** ** Truthiness, printing, property reads *)

(** [!v] is [negb (truthy v)]. *)
Definition truthy (v : value) : bool :=
  match v with
  | VUndefined | VNull => false
  | VBool b => b
  | VNum printed => negb ((printed =? "0") || (printed =? "NaN"))%string
  | VStr s => negb (s =? "")%string
  | VArr _ | VObj _ | VBuiltin _ => true
  end.

(** The decimal numeral of an integer. The keys of the chain tables are
    such numerals, and so is the printing of an integer number below
    10^21 in magnitude, an HTTP status among them. *)
Definition numeral (n : Z) : string :=
  NilZero.string_of_int (Z.to_int n).

Fixpoint assoc (key : string) (fields : list (string * value)) : option value :=
  match fields with
  | [] => None
  | (k, v) :: rest => if (k =? key)%string then Some v else assoc key rest
  end.

(** [String(v)], as a template literal [`${v}`] and a computed key
    [table[v]] compute it.

    An object is printed by its [toString] method. Without an own
    property of that name the method is the one of [Object.prototype];
    an own property [toString] is data, hence not callable, and the
    [valueOf] that is tried next gives no primitive value either: the
    conversion throws a TypeError. An array prints its elements,
    separated by commas, [undefined] and [null] as nothing. *)
Fixpoint to_string (v : value) : completion string :=
  match v with
  | VUndefined => Normal "undefined"
  | VNull => Normal "null"
  | VBool true => Normal "true"
  | VBool false => Normal "false"
  | VNum printed => Normal printed
  | VStr s => Normal s
  | VArr items =>
      (fix join (l : list value) : completion string :=
         match l with
         | [] => Normal ""
         | x :: r =>
             let? sx := match x with
                        | VUndefined | VNull => Normal ""
                        | _ => to_string x
                        end in
             match r with
             | [] => Normal sx
             | _ :: _ => let? sr := join r in Normal (sx ++ "," ++ sr)
             end
         end) items
  | VObj fields =>
      match assoc "toString" fields with
      | None => Normal "[object Object]"
      | Some _ =>
          Throw (TypeError "Cannot convert object to primitive value")
      end
  | VBuiltin name => Normal ("function " ++ name ++ "() { [native code] }")
  end.

(** What a key that is not an own property finds on [Object.prototype]. *)
Definition object_prototype (key : string) : value :=
  if (key =? "constructor")%string then VBuiltin "Object"
  else if (key =? "__proto__")%string then VObj []
  else if existsb (String.eqb key)
            ["hasOwnProperty"; "isPrototypeOf"; "propertyIsEnumerable";
             "toLocaleString"; "toString"; "valueOf"; "__defineGetter__";
             "__defineSetter__"; "__lookupGetter__"; "__lookupSetter__"]
       then VBuiltin key
  else VUndefined.

(** [o[key]] on an object: own properties first, then the prototype. *)
Definition lookup (fields : list (string * value)) (key : string) : value :=
  match assoc key fields with
  | Some v => v
  | None => object_prototype key
  end.

(** [v.key]. Reading a property of [undefined] or [null] throws. On
    values that are not plain objects, the keys this program reads
    ([cardId], [salt], [active], [rpc], ...) are never defined, except
    [name] on a function. *)
Definition get_prop (v : value) (key : string) : completion value :=
  match v with
  | VUndefined => Throw (TypeError "Cannot read properties of undefined")
  | VNull => Throw (TypeError "Cannot read properties of null")
  | VObj fields => Normal (lookup fields key)
  | VBuiltin name =>
      Normal (if (key =? "name")%string then VStr name else VUndefined)
  | _ => Normal VUndefined
  end.

(** [v === s] for a string literal [s]. *)
Definition strict_eq_string (v : value) (s : string) : bool :=
  match v with
  | VStr t => (t =? s)%string
  | _ => false
  end.

(** ** Strings *)

(** [s.replace(/-/g, '')]: every hyphen removed, nothing else touched.
    Strings are sequences of UTF-8 bytes; the byte 0x2D occurs in UTF-8
    only as the hyphen itself. *)
Fixpoint remove_hyphens (s : string) : string :=
  match s with
  | EmptyString => EmptyString
  | String c rest =>
      if (c =? "-")%char then remove_hyphens rest
      else String c (remove_hyphens rest)
  end.

(** [v.replace(/-/g, '')] on an arbitrary value: only strings have a
    [replace] method among JSON values. *)
Definition replace_hyphens (v : value) : completion string :=
  match v with
  | VStr s => Normal (remove_hyphens s)
  | VUndefined => Throw (TypeError "Cannot read properties of undefined")
  | VNull => Throw (TypeError "Cannot read properties of null")
  | _ => Throw (TypeError "cardSecret.replace is not a function")
  end.

(** [s.includes(needle)]. *)
Fixpoint includes (s needle : string) : bool :=
  String.prefix needle s ||
  match s with
  | EmptyString => false
  | String _ rest => includes rest needle
  end.

(** [s.replace(/\.?0+$/, '')]: the leftmost suffix made of an optional
    dot and one or more zeros is cut off. *)
Fixpoint all_zeros (s : string) : bool :=
  match s with
  | EmptyString => true
  | String c rest => (c =? "0")%char && all_zeros rest
  end.

Definition zeros1 (s : string) : bool :=
  match s with
  | EmptyString => false
  | String _ _ => all_zeros s
  end.

Definition trailing_zeros_here (s : string) : bool :=
  match s with
  | String c rest => if (c =? ".")%char then zeros1 rest else zeros1 s
  | EmptyString => false
  end.

Fixpoint trim_trailing_zeros (s : string) : string :=
  if trailing_zeros_here s then EmptyString
  else match s with
       | EmptyString => EmptyString
       | String c rest => String c (trim_trailing_zeros rest)
       end.

(** ** Buffers *)

Definition bytes : Type := list Byte.byte.

(** [buf.slice(start, end)], with negative indices counted from the end
    and both indices clamped to the buffer. *)
Definition Buffer_slice (buf : bytes) (start stop : Z) : bytes :=
  let len := Z.of_nat (List.length buf) in
  let clamp i := if i <? 0 then Z.max (len + i) 0 else Z.min i len in
  let s := clamp start in
  let e := clamp stop in
  firstn (Z.to_nat (e - s)) (skipn (Z.to_nat s) buf).

(** [buf.slice(start)]. *)
Definition Buffer_slice_from (buf : bytes) (start : Z) : bytes :=
  Buffer_slice buf start (Z.of_nat (List.length buf)).

Inductive encoding : Type := hex | base64.

End JS.
Import JS.

(* ================================================================== *)
(** * The libraries the server calls *)
(* ================================================================== *)

(** Node's [JSON], [Buffer], [crypto] and number formatting. A [decipher]
    is the object [crypto.createDecipheriv] returns; its methods are
    written in state-passing style. *)
Class NodeLib : Type := {
  decipher : Type;
  float : Type;
  (** [JSON.parse(v)] *)
  JSON_parse : value -> completion value;
  (** [Buffer.from(v, encoding)] *)
  Buffer_from : value -> encoding -> completion bytes;
  (** [buf.toString('utf8')] *)
  Buffer_toString_utf8 : bytes -> string;
  (** [crypto.pbkdf2Sync(password, salt, iterations, keylen, digest)] *)
  pbkdf2Sync : string -> bytes -> Z -> Z -> string -> bytes;
  (** the derived key has [keylen] bytes *)
  pbkdf2Sync_length : forall password salt iterations keylen digest,
      0 <= keylen ->
      Z.of_nat (List.length (pbkdf2Sync password salt iterations keylen digest))
      = keylen;
  (** [crypto.createDecipheriv(algorithm, key, iv)] *)
  createDecipheriv : string -> bytes -> bytes -> completion decipher;
  (** [decipher.setAuthTag(tag)] *)
  setAuthTag : decipher -> bytes -> completion decipher;
  (** [decipher.update(data)] *)
  decipher_update : decipher -> bytes -> completion (bytes * decipher);
  (** [decipher.final()] *)
  decipher_final : decipher -> completion bytes;
  (** [parseFloat(s)] *)
  parseFloat : string -> float;
  (** [x % 1 === 0] *)
  float_is_whole : float -> bool;
  (** [x.toString()] *)
  float_toString : float -> string;
  (** [x.toFixed(digits)] *)
  float_toFixed : float -> Z -> string
}.

(** An [ethers.Wallet]: the signing key it was made of. *)
Record wallet : Type := { wallet_privateKey : string }.

(** The parts of [ethers] the server uses. *)
Class EthersLib : Type := {
  (** [ethers.utils.isAddress(v)] *)
  isAddress : value -> bool;
  (** [ethers.utils.solidityKeccak256(types, values)] *)
  solidityKeccak256 : list string -> list value -> completion string;
  (** [ethers.utils.arrayify(hexString)] *)
  arrayify : string -> completion bytes;
  (** [new ethers.Wallet(privateKey)] *)
  Wallet_new : string -> completion wallet;
  (** [new ethers.Contract(address, abi, runner)]: throws when the
      address argument is rejected *)
  Contract_new : value -> completion unit;
  (** [wallet.signMessage(bytes)]: the personal-message signature, that
      is the signature of the hash of the message behind the prefix
      ["\x19Ethereum Signed Message:\n" + length]. *)
  Wallet_signMessage : wallet -> bytes -> completion string;
  (** [ethers.utils.formatUnits(amount, decimals)] *)
  formatUnits : value -> value -> completion string
}.

(* ================================================================== *)
(** * The secret decryption engine *)
(* ================================================================== *)

Section Decrypt.
Context {node : NodeLib}.

Definition authTagLength : Z := 16.

(** The body of the [try] block of [decryptPrivateKey]. *)
Definition decryptPrivateKey_try (encryptedData cardSecret : value)
  : completion string :=
  let? data := JSON_parse encryptedData in
  let? normalizedSecret := replace_hyphens cardSecret in
  let? salt := (let? v := get_prop data "salt" in Buffer_from v hex) in
  let? iv := (let? v := get_prop data "iv" in Buffer_from v hex) in
  let? ciphertext :=
    (let? v := get_prop data "ciphertext" in Buffer_from v base64) in
  let key := pbkdf2Sync normalizedSecret salt 310000 32 "sha256" in
  if Z.of_nat (List.length ciphertext) <? authTagLength
  then Throw (Error "Invalid ciphertext length")
  else
    let authTag := Buffer_slice_from ciphertext (- authTagLength) in
    let encryptedContent := Buffer_slice ciphertext 0 (- authTagLength) in
    let? decipher0 := createDecipheriv "aes-256-gcm" key iv in
    let? decipher1 := setAuthTag decipher0 authTag in
    let? upd := decipher_update decipher1 encryptedContent in
    let? last := decipher_final (snd upd) in
    let decrypted := (fst upd ++ last)%list in
    Normal (Buffer_toString_utf8 decrypted).

(** [async function decryptPrivateKey(encryptedData, cardSecret)] *)
Definition decryptPrivateKey (encryptedData cardSecret : value)
  : completion string :=
  try_catch (decryptPrivateKey_try encryptedData cardSecret)
            (fun _ => Throw (Error "Invalid card secret")).

End Decrypt.

(* ================================================================== *)
(** * Configuration and chain tables *)
(* ================================================================== *)

(** The environment variables read at start-up; the process exits unless
    all three are set. *)
Record config : Type := {
  ALCHEMY_KEY : string;
  PARTNER_ADDRESS : string;
  SERVICE_PRIVATE_KEY : string
}.

Definition UNIVOUCHER_ADDRESS : string :=
  "0x51553818203e38ce0E78e4dA05C07ac779ec5b58".

(** [ethers.constants.AddressZero] *)
Definition AddressZero : string :=
  "0x0000000000000000000000000000000000000000".

Definition chain (name rpc symbol : string) (decimals : Z) : value :=
  VObj [("name", VStr name); ("rpc", VStr rpc);
        ("symbol", VStr symbol); ("decimals", VNum (numeral decimals))].

Definition CHAINS : list (string * value) :=
  [("1", chain "Ethereum" "eth-mainnet" "ETH" 18);
   ("56", chain "BNB Chain" "bnb-mainnet" "BNB" 18);
   ("137", chain "Polygon" "polygon-mainnet" "POL" 18);
   ("10", chain "Optimism" "opt-mainnet" "ETH" 18);
   ("42161", chain "Arbitrum" "arb-mainnet" "ETH" 18);
   ("8453", chain "Base" "base-mainnet" "ETH" 18);
   ("43114", chain "Avalanche" "avax-mainnet" "AVAX" 18)].

Definition explorers : list (string * value) :=
  [("1", VStr "https://etherscan.io");
   ("56", VStr "https://bscscan.com");
   ("137", VStr "https://polygonscan.com");
   ("10", VStr "https://optimistic.etherscan.io");
   ("42161", VStr "https://arbiscan.io");
   ("8453", VStr "https://basescan.org");
   ("43114", VStr "https://snowtrace.io")].

(** [function getExplorerUrl(chainId)]: [explorers[chainId] || default].
    The chain id is converted to a key first. *)
Definition getExplorerUrl (chainId : value) : completion value :=
  let? key := to_string chainId in
  let found := lookup explorers key in
  Normal (if truthy found then found else VStr "https://etherscan.io").

(** A [JsonRpcProvider] is its endpoint. *)
Record provider : Type := { provider_url : string }.

(** [function getProvider(chainId)] *)
Definition getProvider (cfg : config) (chainId : value) : completion provider :=
  let? key := to_string chainId in
  let chain := lookup CHAINS key in
  if negb (truthy chain) then Throw (Error "Unsupported chain")
  else
    let? rpc := get_prop chain "rpc" in
    let? host := to_string rpc in
    let rpcUrl := "https://" ++ host ++ ".g.alchemy.com/v2/"
                  ++ ALCHEMY_KEY cfg in
    Normal {| provider_url := rpcUrl |}.

(** [function formatTokenAmount(amount, decimals)] *)
Definition formatTokenAmount {node : NodeLib} {eth : EthersLib}
  (amount decimals : value) : completion string :=
  let? units := formatUnits amount decimals in
  let formatted := parseFloat units in
  Normal (if float_is_whole formatted then float_toString formatted
          else trim_trailing_zeros (float_toFixed formatted 6)).

(* ================================================================== *)
(** * The outside world: registry and chain *)
(* ================================================================== *)

Section World.

(** What [fetch] resolves to: [response.ok], [response.status] and the
    outcome of [await response.json()]. *)
Record response : Type := {
  res_ok : bool;
  res_status : Z;
  res_json : completion value
}.

(** The UniVoucher contract object bound to the service wallet. *)
Record contract : Type := {
  contract_address : string;
  contract_signer : wallet;
  contract_provider : provider
}.

(** The arguments of [redeemCard(cardId, to, signature, partner)]. *)
Record redeem_args : Type := {
  arg_cardId : value;
  arg_to : value;
  arg_signature : string;
  arg_partner : string
}.

(** The transaction overrides [{ gasLimit, ...gasPriceData }]. *)
Record overrides : Type := { gasLimit : Z; gasPrice : Z }.

(** One entry of the log per call that leaves the process, with the
    answer it got. *)
Inductive event : Type :=
| Fetch (url : string) (answer : completion response)
| EstimateGas (c : contract) (args : redeem_args) (answer : completion Z)
| GetGasPrice (p : provider) (answer : completion Z)
| SendRedeemCard (c : contract) (args : redeem_args) (o : overrides)
    (answer : completion value)
| Wait (tx : value) (answer : completion value)
| TokenSymbol (p : provider) (token : value) (answer : completion value)
| TokenDecimals (p : provider) (token : value) (answer : completion value).

(** The registry and the chain answer as they please; an answer may
    depend on everything that happened before in the request. *)
Record network : Type := {
  net_fetch : list event -> string -> completion response;
  net_estimateGas : list event -> contract -> redeem_args -> completion Z;
  net_getGasPrice : list event -> provider -> completion Z;
  net_redeemCard :
    list event -> contract -> redeem_args -> overrides -> completion value;
  net_wait : list event -> value -> completion value;
  net_symbol : list event -> provider -> value -> completion value;
  net_decimals : list event -> provider -> value -> completion value
}.

(** ** Asynchronous code: a completion and the log so far *)

Definition M (A : Type) : Type := list event -> completion A * list event.

Definition ret {A} (a : A) : M A := fun log => (Normal a, log).

Definition lift {A} (c : completion A) : M A := fun log => (c, log).

Definition bind {A B} (m : M A) (k : A -> M B) : M B :=
  fun log =>
    match m log with
    | (Normal a, log') => k a log'
    | (Throw e, log') => (Throw e, log')
    end.

(** [try { body } catch (error) { handler }] around awaited code. *)
Definition try_catch_async {A} (body : M A) (handler : exn -> M A) : M A :=
  fun log =>
    match body log with
    | (Normal a, log') => (Normal a, log')
    | (Throw e, log') => handler e log'
    end.

(** A request starts with an empty log. *)
Definition run {A} (m : M A) : completion A * list event := m [].

End World.

Notation "'let*' x ':=' c 'in' k" := (bind c (fun x => k))
  (at level 10, x name, c at level 100, k at level 200).

(* ================================================================== *)
(** * The server *)
(* ================================================================== *)

(** What a handler sends back: [res.status(status).json(body)]. *)
Record http_response : Type := { status : Z; body : value }.

Definition respond (status : Z) (body : value) : http_response :=
  {| status := status; body := body |}.

Definition error_body (msg : string) : value := VObj [("error", VStr msg)].

(** [{ symbol, decimals }] *)
Record tokenInfo : Type := { symbol : value; decimals : value }.

Section Server.
Context {node : NodeLib} {eth : EthersLib}.
Variable cfg : config.
Variable net : network.

(** ** Calls that leave the process *)

Definition fetch (url : string) : M response :=
  fun log =>
    let answer := net_fetch net log url in
    (answer, (log ++ [Fetch url answer])%list).

Definition estimateGas_redeemCard (c : contract) (args : redeem_args) : M Z :=
  fun log =>
    let answer := net_estimateGas net log c args in
    (answer, (log ++ [EstimateGas c args answer])%list).

Definition getGasPrice (p : provider) : M Z :=
  fun log =>
    let answer := net_getGasPrice net log p in
    (answer, (log ++ [GetGasPrice p answer])%list).

Definition redeemCard (c : contract) (args : redeem_args) (o : overrides)
  : M value :=
  fun log =>
    let answer := net_redeemCard net log c args o in
    (answer, (log ++ [SendRedeemCard c args o answer])%list).

Definition wait (tx : value) : M value :=
  fun log =>
    let answer := net_wait net log tx in
    (answer, (log ++ [Wait tx answer])%list).

Definition token_symbol (p : provider) (token : value) : M value :=
  fun log =>
    let answer := net_symbol net log p token in
    (answer, (log ++ [TokenSymbol p token answer])%list).

Definition token_decimals (p : provider) (token : value) : M value :=
  fun log =>
    let answer := net_decimals net log p token in
    (answer, (log ++ [TokenDecimals p token answer])%list).

(** [await Promise.all([a, b])]: both calls are issued, then both
    answers are needed. *)
Definition promise_all2 {A B} (a : M A) (b : M B) : M (A * B) :=
  fun log =>
    let (ca, log1) := a log in
    let (cb, log2) := b log1 in
    (match ca, cb with
     | Normal x, Normal y => Normal (x, y)
     | Throw e, _ => Throw e
     | Normal _, Throw e => Throw e
     end, log2).

(** The registry URL of a card:
    [`https://api.univoucher.com/v1/cards/single?id=${cardId}`]. *)
Definition card_url (cardId : value) : completion string :=
  let? id := to_string cardId in
  Normal ("https://api.univoucher.com/v1/cards/single?id=" ++ id).

(** ** Helpers *)

(** [async function getTokenInfo(tokenAddress, chainId, provider)] *)
Definition getTokenInfo (tokenAddress chainId : value) (p : provider)
  : M tokenInfo :=
  if strict_eq_string tokenAddress AddressZero then
    let* key := lift (to_string chainId) in
    let chain := lookup CHAINS key in
    let* symbol := lift (get_prop chain "symbol") in
    let* decimals := lift (get_prop chain "decimals") in
    ret {| symbol := symbol; decimals := decimals |}
  else
    try_catch_async
      (let* _ := lift (Contract_new tokenAddress) in
       let* sd := promise_all2 (token_symbol p tokenAddress)
                               (token_decimals p tokenAddress) in
       ret {| symbol := fst sd; decimals := snd sd |})
      (fun _ => ret {| symbol := VStr "TOKEN"; decimals := VNum "18" |}).

(** [async function getOptimalGasPrice(chainId, provider)]; the value of
    the one field of the object it returns. *)
Definition getOptimalGasPrice (chainId : value) (p : provider) : M Z :=
  try_catch_async
    (let* gasPrice := getGasPrice p in ret gasPrice)
    (fun _ => let* gasPrice := getGasPrice p in ret gasPrice).

(** [`${formatTokenAmount(card.tokenAmount, tokenInfo.decimals)} ${tokenInfo.symbol}`] *)
Definition formatted_amount (card : value) (info : tokenInfo)
  : completion string :=
  let? tokenAmount := get_prop card "tokenAmount" in
  let? amount := formatTokenAmount tokenAmount (decimals info) in
  let? symbol := to_string (symbol info) in
  Normal (amount ++ " " ++ symbol).

(** ** [POST /api/card-info] *)

Definition card_info_try (req_body : value) : M http_response :=
  let* cardId := lift (get_prop req_body "cardId") in
  if negb (truthy cardId) then
    ret (respond 400 (error_body "Card ID required"))
  else
    let* url := lift (card_url cardId) in
    let* response := fetch url in
    if negb (res_ok response) then
      if res_status response =? 404 then
        ret (respond 404 (error_body "Card not found"))
      else
        lift (Throw (Error ("API error: " ++ numeral (res_status response))))
    else
      let* card := lift (res_json response) in
      let* chainId := lift (get_prop card "chainId") in
      let* provider := lift (getProvider cfg chainId) in
      let* tokenAddress := lift (get_prop card "tokenAddress") in
      let* info := getTokenInfo tokenAddress chainId provider in
      let* c_cardId := lift (get_prop card "cardId") in
      let* slotId := lift (get_prop card "slotId") in
      let* key := lift (to_string chainId) in
      let* chainName :=
        lift (match lookup CHAINS key with
              | VUndefined | VNull => Normal VUndefined
              | entry => get_prop entry "name"
              end) in
      let* active := lift (get_prop card "active") in
      let* c_status := lift (get_prop card "status") in
      let* tokenAmount := lift (get_prop card "tokenAmount") in
      let* formattedAmount := lift (formatted_amount card info) in
      let* creator := lift (get_prop card "creator") in
      let* message := lift (get_prop card "message") in
      let* encryptedPrivateKey := lift (get_prop card "encryptedPrivateKey") in
      let* createdAt := lift (get_prop card "createdAt") in
      ret (respond 200 (VObj
        [("cardId", c_cardId);
         ("slotId", slotId);
         ("chainId", chainId);
         ("chainName", if truthy chainName then chainName else VStr "Unknown");
         ("active", active);
         ("status", c_status);
         ("tokenAddress", tokenAddress);
         ("tokenAmount", tokenAmount);
         ("formattedAmount", VStr formattedAmount);
         ("creator", creator);
         ("message", if truthy message then message else VStr "");
         ("encryptedPrivateKey", encryptedPrivateKey);
         ("createdAt", createdAt)])).

Definition card_info (req_body : value) : M http_response :=
  try_catch_async (card_info_try req_body)
    (fun _ => ret (respond 500 (error_body "Failed to get card information"))).

(** ** [POST /api/verify-secret] *)

Definition verify_secret_try (req_body : value) : M http_response :=
  let* cardId := lift (get_prop req_body "cardId") in
  let* cardSecret := lift (get_prop req_body "cardSecret") in
  if negb (truthy cardId) || negb (truthy cardSecret) then
    ret (respond 400 (error_body "Card ID and secret required"))
  else
    let* url := lift (card_url cardId) in
    let* response := fetch url in
    if negb (res_ok response) then
      ret (respond 404 (error_body "Card not found"))
    else
      let* card := lift (res_json response) in
      let* active := lift (get_prop card "active") in
      if negb (truthy active) then
        ret (respond 400
               (error_body "This card has already been redeemed or cancelled"))
      else
        try_catch_async
          (let* encryptedPrivateKey := lift (get_prop card "encryptedPrivateKey") in
           let* _ := lift (decryptPrivateKey encryptedPrivateKey cardSecret) in
           ret (respond 200 (VObj [("valid", VBool true)])))
          (fun _ => ret (respond 400 (error_body "Invalid card secret"))).

Definition verify_secret (req_body : value) : M http_response :=
  try_catch_async (verify_secret_try req_body)
    (fun _ => ret (respond 500 (error_body "Failed to verify card secret"))).

(** ** [POST /api/redeem] *)

(** The authorization: lines "Create wallet from private key" to "Sign
    the message" of the handler. *)
Definition redeem_signature (privateKey : string) (cardId recipientAddress : value)
  : completion string :=
  let? cardWallet := Wallet_new privateKey in
  let? messageHash :=
    solidityKeccak256 ["string"; "string"; "string"; "address"]
      [VStr "Redeem card:"; cardId; VStr "to:"; recipientAddress] in
  let? arrayifiedHash := arrayify messageHash in
  Wallet_signMessage cardWallet arrayifiedHash.

Definition redeem_try (req_body : value) : M http_response :=
  let* cardId := lift (get_prop req_body "cardId") in
  let* cardSecret := lift (get_prop req_body "cardSecret") in
  let* recipientAddress := lift (get_prop req_body "recipientAddress") in
  if negb (truthy cardId) || negb (truthy cardSecret)
     || negb (truthy recipientAddress) then
    ret (respond 400
           (error_body "Card ID, secret, and recipient address required"))
  else if negb (isAddress recipientAddress) then
    ret (respond 400 (error_body "Invalid recipient address"))
  else
    let* url := lift (card_url cardId) in
    let* response := fetch url in
    if negb (res_ok response) then
      ret (respond 404 (error_body "Card not found"))
    else
      let* card := lift (res_json response) in
      let* active := lift (get_prop card "active") in
      if negb (truthy active) then
        ret (respond 400
               (error_body "This card has already been redeemed or cancelled"))
      else
        let* encryptedPrivateKey := lift (get_prop card "encryptedPrivateKey") in
        let* privateKey :=
          lift (decryptPrivateKey encryptedPrivateKey cardSecret) in
        let* signature :=
          lift (redeem_signature privateKey cardId recipientAddress) in
        let* chainId := lift (get_prop card "chainId") in
        let* provider := lift (getProvider cfg chainId) in
        let* serviceWallet := lift (Wallet_new (SERVICE_PRIVATE_KEY cfg)) in
        let* _ := lift (Contract_new (VStr UNIVOUCHER_ADDRESS)) in
        let contract :=
          {| contract_address := UNIVOUCHER_ADDRESS;
             contract_signer := serviceWallet;
             contract_provider := provider |} in
        let args :=
          {| arg_cardId := cardId; arg_to := recipientAddress;
             arg_signature := signature; arg_partner := AddressZero |} in
        let* gasEstimate := estimateGas_redeemCard contract args in
        let gasLimit := Z.quot (gasEstimate * 120) 100 in
        let* gasPriceData := getOptimalGasPrice chainId provider in
        let* tx :=
          redeemCard contract args
            {| gasLimit := gasLimit; gasPrice := gasPriceData |} in
        let* receipt := wait tx in
        let* tokenAddress := lift (get_prop card "tokenAddress") in
        let* info := getTokenInfo tokenAddress chainId provider in
        let* txHash := lift (get_prop receipt "transactionHash") in
        let* amount := lift (formatted_amount card info) in
        let* explorer := lift (getExplorerUrl chainId) in
        let* base := lift (to_string explorer) in
        let* hash := lift (to_string txHash) in
        ret (respond 200 (VObj
          [("success", VBool true);
           ("txHash", txHash);
           ("recipientAddress", recipientAddress);
           ("partnerAddress", VNull);
           ("amount", VStr amount);
           ("explorerUrl", VStr (base ++ "/tx/" ++ hash))])).

(** The [catch] clause of the redeem handler. *)
Definition redeem_catch (error : exn) : M http_response :=
  if includes (exn_message error)
       "This card has already been redeemed or cancelled" then
    ret (respond 400 (error_body "Card has already been redeemed or cancelled"))
  else if includes (exn_message error) "Invalid card secret" then
    ret (respond 400 (error_body "Invalid card secret"))
  else
    ret (respond 500 (error_body "Failed to redeem card")).

Definition redeem (req_body : value) : M http_response :=
  try_catch_async (redeem_try req_body) redeem_catch.

End Server.

(* ================================================================== *)
(** * The web form: the card secret field *)
(* ================================================================== *)

(** The [input] listener of the card secret field, in the script of the
    page. Characters are bytes here; every byte of a character outside
    ASCII is above 127, so the filter drops in both readings exactly
    what is not an ASCII letter or a hyphen, and what is left is ASCII. *)

Definition is_upper (c : ascii) : bool :=
  let n := N_of_ascii c in ((65 <=? n) && (n <=? 90))%N.

Definition is_lower (c : ascii) : bool :=
  let n := N_of_ascii c in ((97 <=? n) && (n <=? 122))%N.

(** [c] is not matched by [/[^A-Za-z-]/]. *)
Definition secret_char (c : ascii) : bool :=
  is_upper c || is_lower c || (c =? "-")%char.

(** [s.replace(/[^A-Za-z-]/g, '')] *)
Fixpoint keep_secret_chars (s : string) : string :=
  match s with
  | EmptyString => EmptyString
  | String c rest =>
      if secret_char c then String c (keep_secret_chars rest)
      else keep_secret_chars rest
  end.

Definition upper_char (c : ascii) : ascii :=
  if is_lower c then ascii_of_N (N_of_ascii c - 32) else c.

(** [s.toUpperCase()], for a string of ASCII characters. *)
Fixpoint toUpperCase (s : string) : string :=
  match s with
  | EmptyString => EmptyString
  | String c rest => String (upper_char c) (toUpperCase rest)
  end.

(** What the field may show: an upper-case letter or a hyphen. *)
Definition upper_or_hyphen (c : ascii) : bool :=
  is_upper c || (c =? "-")%char.

(** The loop that builds [formatted]: [i] is the index of the first
    character of [cleanValue] still to be appended. *)
Fixpoint hyphenate (i : nat) (cleanValue : string) : string :=
  match cleanValue with
  | EmptyString => EmptyString
  | String c rest =>
      (if (0 <? i)%nat && (i mod 5 =? 0)%nat then "-" else "")
      ++ String c (hyphenate (S i) rest)
  end.

(** The letters the field keeps: [cleanValue] when the loop starts. *)
Definition clean_secret_input (value : string) : string :=
  let value := toUpperCase (keep_secret_chars value) in
  let cleanValue := remove_hyphens value in
  if (20 <? String.length cleanValue)%nat
  then String.substring 0 20 cleanValue
  else cleanValue.

(** The new value of the field after the text [value] was typed. *)
Definition format_secret_input (value : string) : string :=
  hyphenate 0 (clean_secret_input value).

(* ================================================================== *)
(** * Vocabulary of the properties *)
(* ================================================================== *)

Section DecryptSpec.
Context {node : NodeLib}.

(** ** What a successful authenticated decryption is

    Written after the description of the engine: the envelope parses, the
    key is PBKDF2-SHA-256 of the hyphen-free secret over the hex-decoded
    salt with 310,000 iterations and 32 bytes, the base64-decoded
    ciphertext splits into content and a trailing 16-byte tag, and
    AES-256-GCM under that key and the envelope's iv accepts the tag. *)
Definition decrypts_to (encryptedData cardSecret : value) (plaintext : string)
  : Prop :=
  exists data secret saltv ivv ctv salt iv ciphertext d0 d1 out d2 last,
    JSON_parse encryptedData = Normal data /\
    cardSecret = VStr secret /\
    get_prop data "salt" = Normal saltv /\ Buffer_from saltv hex = Normal salt /\
    get_prop data "iv" = Normal ivv /\ Buffer_from ivv hex = Normal iv /\
    get_prop data "ciphertext" = Normal ctv /\
    Buffer_from ctv base64 = Normal ciphertext /\
    (16 <= List.length ciphertext)%nat /\
    let key := pbkdf2Sync (remove_hyphens secret) salt 310000 32 "sha256" in
    let encryptedContent := firstn (List.length ciphertext - 16) ciphertext in
    let authTag := skipn (List.length ciphertext - 16) ciphertext in
    List.length key = 32%nat /\
    List.length authTag = 16%nat /\
    (encryptedContent ++ authTag)%list = ciphertext /\
    createDecipheriv "aes-256-gcm" key iv = Normal d0 /\
    setAuthTag d0 authTag = Normal d1 /\
    decipher_update d1 encryptedContent = Normal (out, d2) /\
    decipher_final d2 = Normal last /\
    plaintext = Buffer_toString_utf8 (out ++ last)%list.

(** ** The ways the [try] block can be left by an exception *)
Inductive decryption_failure (encryptedData cardSecret : value) : Prop :=
| malformed_json e :
    JSON_parse encryptedData = Throw e ->
    decryption_failure encryptedData cardSecret
| secret_not_a_string e :
    replace_hyphens cardSecret = Throw e ->
    decryption_failure encryptedData cardSecret
| invalid_field data key enc e :
    JSON_parse encryptedData = Normal data ->
    In (key, enc) [("salt", hex); ("iv", hex); ("ciphertext", base64)] ->
    (let? v := get_prop data key in Buffer_from v enc) = Throw e ->
    decryption_failure encryptedData cardSecret
| short_ciphertext data ciphertext :
    JSON_parse encryptedData = Normal data ->
    (let? v := get_prop data "ciphertext" in Buffer_from v base64)
    = Normal ciphertext ->
    Z.of_nat (List.length ciphertext) < 16 ->
    decryption_failure encryptedData cardSecret
| cipher_rejected data secret salt iv ciphertext e :
    JSON_parse encryptedData = Normal data ->
    replace_hyphens cardSecret = Normal secret ->
    (let? v := get_prop data "salt" in Buffer_from v hex) = Normal salt ->
    (let? v := get_prop data "iv" in Buffer_from v hex) = Normal iv ->
    (let? v := get_prop data "ciphertext" in Buffer_from v base64)
    = Normal ciphertext ->
    (let key := pbkdf2Sync secret salt 310000 32 "sha256" in
     let? d0 := createDecipheriv "aes-256-gcm" key iv in
     let? d1 := setAuthTag d0 (Buffer_slice_from ciphertext (- authTagLength)) in
     let? upd := decipher_update d1
                   (Buffer_slice ciphertext 0 (- authTagLength)) in
     decipher_final (snd upd)) = Throw e ->
    decryption_failure encryptedData cardSecret.

Definition opaque_error : exn := Error "Invalid card secret".

(** Decryption of an envelope under a given password: the derivation of
    [decrypts_to], with the text handed to PBKDF2 named. *)
Definition opens_with_password (encryptedData : value) (password : string)
  (plaintext : string) : Prop :=
  exists data saltv ivv ctv salt iv ciphertext d0 d1 out d2 last,
    JSON_parse encryptedData = Normal data /\
    get_prop data "salt" = Normal saltv /\ Buffer_from saltv hex = Normal salt /\
    get_prop data "iv" = Normal ivv /\ Buffer_from ivv hex = Normal iv /\
    get_prop data "ciphertext" = Normal ctv /\
    Buffer_from ctv base64 = Normal ciphertext /\
    (16 <= List.length ciphertext)%nat /\
    let key := pbkdf2Sync password salt 310000 32 "sha256" in
    let encryptedContent := firstn (List.length ciphertext - 16) ciphertext in
    let authTag := skipn (List.length ciphertext - 16) ciphertext in
    createDecipheriv "aes-256-gcm" key iv = Normal d0 /\
    setAuthTag d0 authTag = Normal d1 /\
    decipher_update d1 encryptedContent = Normal (out, d2) /\
    decipher_final d2 = Normal last /\
    plaintext = Buffer_toString_utf8 (out ++ last)%list.

Definition not_hyphen (c : ascii) : bool := negb (c =? "-")%char.

End DecryptSpec.

Section ServerSpec.
Context {node : NodeLib} {eth : EthersLib}.

(** Gas estimation and transaction submission. *)
Definition onchain_call (ev : event) : bool :=
  match ev with
  | EstimateGas _ _ _ | SendRedeemCard _ _ _ _ => true
  | _ => false
  end.

(** The redemption authorization for the request [req_body] and the
    card the registry answered with: the arguments carry the request's
    card id and recipient, and their signature is the personal-message
    signature, by the wallet of the key decrypted from the card, of the
    solidity-keccak256 hash of ("Redeem card:", cardId, "to:",
    recipientAddress) packed as (string, string, string, address). *)
Definition authorization (req_body : value) (registry_answer : response)
  (args : redeem_args) : Prop :=
  exists cardSecret card encryptedPrivateKey privateKey cardWallet
         messageHash arrayifiedHash,
    get_prop req_body "cardId" = Normal (arg_cardId args)
    /\ get_prop req_body "recipientAddress" = Normal (arg_to args)
    /\ get_prop req_body "cardSecret" = Normal cardSecret
    /\ res_json registry_answer = Normal card
    /\ get_prop card "encryptedPrivateKey" = Normal encryptedPrivateKey
    /\ decryptPrivateKey encryptedPrivateKey cardSecret = Normal privateKey
    /\ Wallet_new privateKey = Normal cardWallet
    /\ solidityKeccak256 ["string"; "string"; "string"; "address"]
         [VStr "Redeem card:"; arg_cardId args; VStr "to:"; arg_to args]
       = Normal messageHash
    /\ arrayify messageHash = Normal arrayifiedHash
    /\ Wallet_signMessage cardWallet arrayifiedHash
       = Normal (arg_signature args).

(** What [getTokenInfo] answers when nothing is known of a token. *)
Definition token_default : tokenInfo :=
  {| symbol := VStr "TOKEN"; decimals := VNum "18" |}.

(** The metadata made of the two answers of a token's contract: the
    answers when both arrived, and the default otherwise. *)
Definition token_answer (a b : completion value) : tokenInfo :=
  match a, b with
  | Normal s, Normal d => {| symbol := s; decimals := d |}
  | _, _ => token_default
  end.

(** Where the token metadata used for [card] comes from, in a run with
    the calls [log]: for the native asset, from the entry of the card's
    chain in [CHAINS]; for a token, from the answers its contract gave in
    [log], or the default when no contract object could be made. *)
Definition token_info_from (card : value) (log : list event)
  (info : tokenInfo) : Prop :=
  exists tokenAddress chainId,
    get_prop card "tokenAddress" = Normal tokenAddress
    /\ get_prop card "chainId" = Normal chainId
    /\ if strict_eq_string tokenAddress AddressZero
       then exists key,
              to_string chainId = Normal key
              /\ get_prop (lookup CHAINS key) "symbol" = Normal (symbol info)
              /\ get_prop (lookup CHAINS key) "decimals"
                 = Normal (decimals info)
       else (exists e, Contract_new tokenAddress = Throw e
                       /\ info = token_default)
            \/ exists p a b,
                 In (TokenSymbol p tokenAddress a) log
                 /\ In (TokenDecimals p tokenAddress b) log
                 /\ info = token_answer a b.

(** What may follow the gas estimation [estimate] of the call
    [redeemCard args] on [c]: no other estimation and no fetch, and a
    transaction only for the same call, with the estimate plus 20% as
    its gas limit. *)
Definition after_estimate (c : contract) (args : redeem_args)
  (estimate : completion Z) (ev : event) : Prop :=
  match ev with
  | Fetch _ _ | EstimateGas _ _ _ => False
  | SendRedeemCard c' args' o _ =>
      c' = c /\ args' = args
      /\ exists g, estimate = Normal g /\ gasLimit o = Z.quot (g * 120) 100
  | _ => True
  end.

End ServerSpec.

(** Everything [POST /api/verify-secret] can answer. *)
Definition verify_secret_responses : list http_response :=
  [respond 200 (VObj [("valid", VBool true)]);
   respond 400 (error_body "Card ID and secret required");
   respond 404 (error_body "Card not found");
   respond 400 (error_body "This card has already been redeemed or cancelled");
   respond 400 (error_body "Invalid card secret");
   respond 500 (error_body "Failed to verify card secret")].

(** The error answers of [POST /api/redeem]. *)
Definition redeem_error_responses : list http_response :=
  [respond 400 (error_body "Card ID, secret, and recipient address required");
   respond 400 (error_body "Invalid recipient address");
   respond 404 (error_body "Card not found");
   respond 400 (error_body "This card has already been redeemed or cancelled");
   respond 400 (error_body "Card has already been redeemed or cancelled");
   respond 400 (error_body "Invalid card secret");
   respond 500 (error_body "Failed to redeem card")].

(** The success answer of [POST /api/redeem]. *)
Definition redeem_success (txHash recipientAddress : value)
  (amount explorerUrl : string) : http_response :=
  respond 200 (VObj [("success", VBool true);
                     ("txHash", txHash);
                     ("recipientAddress", recipientAddress);
                     ("partnerAddress", VNull);
                     ("amount", VStr amount);
                     ("explorerUrl", VStr explorerUrl)]).

(** The chain ids of the two tables, and the explorer of each. *)
Definition configured_explorers : list (Z * string) :=
  [(1, "https://etherscan.io");
   (56, "https://bscscan.com");
   (137, "https://polygonscan.com");
   (10, "https://optimistic.etherscan.io");
   (42161, "https://arbiscan.io");
   (8453, "https://basescan.org");
   (43114, "https://snowtrace.io")].

(** The same configuration with another partner address. *)
Definition with_partner (cfg : config) (partner : string) : config :=
  {| ALCHEMY_KEY := ALCHEMY_KEY cfg;
     PARTNER_ADDRESS := partner;
     SERVICE_PRIVATE_KEY := SERVICE_PRIVATE_KEY cfg |}.

(** Reading a decimal numeral back. *)
Definition parse_number (s : string) : option Z :=
  option_map Z.of_int (NilZero.int_of_string s).

(** The error answers of [POST /api/card-info]. *)
Definition card_info_error_responses : list http_response :=
  [respond 400 (error_body "Card ID required");
   respond 404 (error_body "Card not found");
   respond 500 (error_body "Failed to get card information")].

(** The fields of a card that card-info hands on as they are. *)
Definition card_info_passed_fields : list string :=
  ["cardId"; "slotId"; "chainId"; "active"; "status"; "tokenAddress";
   "tokenAmount"; "creator"; "encryptedPrivateKey"; "createdAt"].

(** The chains of [CHAINS]: name, endpoint and native symbol of each. *)
Definition configured_chains : list (Z * (string * string * string)) :=
  [(1, ("Ethereum", "eth-mainnet", "ETH"));
   (56, ("BNB Chain", "bnb-mainnet", "BNB"));
   (137, ("Polygon", "polygon-mainnet", "POL"));
   (10, ("Optimism", "opt-mainnet", "ETH"));
   (42161, ("Arbitrum", "arb-mainnet", "ETH"));
   (8453, ("Base", "base-mainnet", "ETH"));
   (43114, ("Avalanche", "avax-mainnet", "AVAX"))].

(** The stage of a redemption a call belongs to. *)
Definition phase (ev : event) : nat :=
  match ev with
  | Fetch _ _ => 0
  | EstimateGas _ _ _ => 1
  | GetGasPrice _ _ => 2
  | SendRedeemCard _ _ _ _ => 3
  | Wait _ _ => 4
  | TokenSymbol _ _ _ => 5
  | TokenDecimals _ _ _ => 6
  end.

(** How many calls of the log belong to stage [k]. *)
Definition count_phase (k : nat) (log : list event) : nat :=
  List.length (filter (fun ev => (phase ev =? k)%nat) log).

(** The exception a call was answered with, for the calls whose failure
    nothing in the handler catches before its own [catch] clause. *)
Definition fatal (ev : event) : option exn :=
  match ev with
  | Fetch _ (Throw e) => Some e
  | EstimateGas _ _ (Throw e) => Some e
  | SendRedeemCard _ _ _ (Throw e) => Some e
  | Wait _ (Throw e) => Some e
  | _ => None
  end.

(** The two queries to a token contract. *)
Definition token_call (ev : event) : bool :=
  match ev with
  | TokenSymbol _ _ _ | TokenDecimals _ _ _ => true
  | _ => false
  end.

(** The contract object an on-chain call goes through. *)
Definition event_contract (ev : event) : option contract :=
  match ev with
  | EstimateGas c _ _ | SendRedeemCard c _ _ _ => Some c
  | _ => None
  end.

(** The last call of a log. *)
Definition last_event (log : list event) : option event :=
  hd_error (rev log).

(* ================================================================== *)
(** * A small executable runtime

    Stand-ins for Node and ethers that compute, so that the handlers can
    be run on examples: a hex and a base64 decoder, a reader for envelope
    texts, a stream cipher with a 16-byte tag in the place of AES-GCM, and
    symbolic hashing and signing. *)
(* ================================================================== *)

Module Demo.
Import Strings.Byte.

Definition xor_byte (a b : byte) : byte :=
  match Byte.of_N (N.lxor (Byte.to_N a) (Byte.to_N b)) with
  | Some c => c
  | None => x00
  end.

Fixpoint bytes_eqb (a b : bytes) : bool :=
  match a, b with
  | [], [] => true
  | x :: a', y :: b' => Byte.eqb x y && bytes_eqb a' b'
  | _, _ => false
  end.

(** ** Decoders *)

Definition hex_digit (c : ascii) : option N :=
  let n := N_of_ascii c in
  if ((48 <=? n) && (n <=? 57))%N then Some (n - 48)%N
  else if ((97 <=? n) && (n <=? 102))%N then Some (n - 87)%N
  else if ((65 <=? n) && (n <=? 70))%N then Some (n - 55)%N
  else None.

(** Pairs of hex digits, up to the first character that is not one. *)
Fixpoint from_hex (s : string) : bytes :=
  match s with
  | String a (String b rest) =>
      match hex_digit a, hex_digit b with
      | Some x, Some y =>
          match Byte.of_N (16 * x + y) with
          | Some c => c :: from_hex rest
          | None => []
          end
      | _, _ => []
      end
  | _ => []
  end.

Definition base64_digit (c : ascii) : option N :=
  let n := N_of_ascii c in
  if ((65 <=? n) && (n <=? 90))%N then Some (n - 65)%N
  else if ((97 <=? n) && (n <=? 122))%N then Some (n - 71)%N
  else if ((48 <=? n) && (n <=? 57))%N then Some (n + 4)%N
  else if ((n =? 43) || (n =? 45))%N then Some 62%N
  else if ((n =? 47) || (n =? 95))%N then Some 63%N
  else None.

(** Six bits per digit; [pending] holds the [nbits] bits not yet put
    out. Characters outside the alphabet are skipped. *)
Fixpoint from_base64_loop (s : string) (pending : N) (nbits : N) : bytes :=
  match s with
  | EmptyString => []
  | String c rest =>
      match base64_digit c with
      | None => from_base64_loop rest pending nbits
      | Some d =>
          let pending := (pending * 64 + d)%N in
          let nbits := (nbits + 6)%N in
          if (8 <=? nbits)%N then
            let spare := (nbits - 8)%N in
            match Byte.of_N (pending / 2 ^ spare) with
            | Some b => b :: from_base64_loop rest (pending mod 2 ^ spare) spare
            | None => []
            end
          else from_base64_loop rest pending nbits
      end
  end.

Definition from_base64 (s : string) : bytes := from_base64_loop s 0 0.

Definition demo_Buffer_from (v : value) (enc : encoding) : completion bytes :=
  match v with
  | VStr s => Normal (match enc with
                      | hex => from_hex s
                      | base64 => from_base64 s
                      end)
  | _ => Throw (TypeError "The first argument must be of type string")
  end.

(** ** Envelope texts *)

Definition quote : ascii := ascii_of_nat 34.

(** The pieces of [s] between double quotes. *)
Fixpoint split_quotes (s : string) (piece : string) : list string :=
  match s with
  | EmptyString => [piece]
  | String c rest =>
      if (c =? quote)%char then piece :: split_quotes rest EmptyString
      else split_quotes rest (piece ++ String c EmptyString)
  end.

(** Reads [{"salt":"..","iv":"..","ciphertext":".."}]; anything else is
    a syntax error. *)
(** The printing of a value, empty where printing throws. *)
Definition text (v : value) : string :=
  match to_string v with
  | Normal s => s
  | Throw _ => EmptyString
  end.

Definition demo_JSON_parse (v : value) : completion value :=
  match split_quotes (text v) EmptyString with
  | ["{"; "salt"; ":"; salt; ","; "iv"; ":"; iv; ","; "ciphertext"; ":"; ct; "}"] =>
      Normal (VObj [("salt", VStr salt); ("iv", VStr iv);
                    ("ciphertext", VStr ct)])
  | _ => Throw (mkExn "SyntaxError" "Unexpected token in JSON")
  end.

Definition json_field (key text : string) : string :=
  String quote key ++ String quote ":" ++ String quote text
  ++ String quote EmptyString.

Definition envelope_text (salt iv ciphertext : string) : string :=
  "{" ++ json_field "salt" salt ++ "," ++ json_field "iv" iv ++ ","
  ++ json_field "ciphertext" ciphertext ++ "}".

(** ** Key derivation and cipher *)

(** The password and the salt, repeated up to [keylen] bytes. *)
Definition demo_pbkdf2 (password : string) (salt : bytes)
  (iterations keylen : Z) (digest : string) : bytes :=
  let material := (list_byte_of_string password ++ salt)%list in
  map (fun i => nth (i mod List.length material) material x00)
      (seq 0 (Z.to_nat keylen)).

Definition xor_stream (key data : bytes) : bytes :=
  map (fun ib => xor_byte (snd ib) (nth (fst ib mod List.length key) key x00))
      (combine (seq 0 (List.length data)) data).

(** Sixteen bytes that depend on the key, the iv and the content. *)
Definition demo_tag (key iv content : bytes) : bytes :=
  map (fun k => fold_left xor_byte (iv ++ content)%list k) (firstn 16 key).

Record demo_decipher : Type := {
  d_key : bytes;
  d_iv : bytes;
  d_tag : bytes;
  d_seen : bytes
}.

Definition demo_createDecipheriv (algorithm : string) (key iv : bytes)
  : completion demo_decipher :=
  if negb (algorithm =? "aes-256-gcm")%string then
    Throw (Error "Unknown cipher")
  else if negb (List.length key =? 32)%nat then
    Throw (mkExn "RangeError" "Invalid key length")
  else if (List.length iv =? 0)%nat then
    Throw (Error "Invalid initialization vector")
  else Normal {| d_key := key; d_iv := iv; d_tag := []; d_seen := [] |}.

Definition demo_setAuthTag (d : demo_decipher) (tag : bytes)
  : completion demo_decipher :=
  if (List.length tag =? 16)%nat then
    Normal {| d_key := d_key d; d_iv := d_iv d; d_tag := tag;
              d_seen := d_seen d |}
  else Throw (TypeError "Invalid authentication tag length").

Definition demo_update (d : demo_decipher) (data : bytes)
  : completion (bytes * demo_decipher) :=
  Normal (xor_stream (d_key d) data,
          {| d_key := d_key d; d_iv := d_iv d; d_tag := d_tag d;
             d_seen := (d_seen d ++ data)%list |}).

Definition demo_final (d : demo_decipher) : completion bytes :=
  if bytes_eqb (d_tag d) (demo_tag (d_key d) (d_iv d) (d_seen d)) then
    Normal []
  else Throw (Error "Unsupported state or unable to authenticate data").

#[local] Instance demo_node : NodeLib.
Proof.
  refine {|
    decipher := demo_decipher;
    float := string;
    JSON_parse := demo_JSON_parse;
    Buffer_from := demo_Buffer_from;
    Buffer_toString_utf8 := string_of_list_byte;
    pbkdf2Sync := demo_pbkdf2;
    createDecipheriv := demo_createDecipheriv;
    setAuthTag := demo_setAuthTag;
    decipher_update := demo_update;
    decipher_final := demo_final;
    parseFloat := fun s => s;
    float_is_whole := fun s => negb (includes s ".");
    float_toString := fun s => s;
    float_toFixed := fun s _ => s
  |}.
  intros password salt iterations keylen digest Hk.
  unfold demo_pbkdf2. rewrite length_map, length_seq. lia.
Defined.

(** ** Symbolic ethers *)

Definition is_hex_string (s : string) : bool :=
  forallb (fun c => match hex_digit c with Some _ => true | None => false end)
          (list_ascii_of_string s).

Definition demo_isAddress (v : value) : bool :=
  match v with
  | VStr (String "0" (String "x" digits)) =>
      (String.length digits =? 40)%nat && is_hex_string digits
  | _ => false
  end.

#[local] Instance demo_ethers : EthersLib := {|
  isAddress := demo_isAddress;
  solidityKeccak256 := fun types values =>
    if (List.length types =? List.length values)%nat
    then Normal ("keccak(" ++ String.concat "," (map text values) ++ ")")
    else Throw (Error "wrong number of values; expected more types");
  arrayify := fun h => Normal (list_byte_of_string h);
  Wallet_new := fun key =>
    if String.prefix "0x" key then Normal {| wallet_privateKey := key |}
    else Throw (Error "invalid hexlify value");
  Contract_new := fun address =>
    if demo_isAddress address then Normal tt
    else Throw (Error "invalid contract address or ENS name");
  Wallet_signMessage := fun w message =>
    Normal ("signed(" ++ wallet_privateKey w ++ ","
            ++ string_of_list_byte message ++ ")");
  formatUnits := fun amount _ => Normal (text amount)
|}.

(** ** A card, a registry and a chain *)

Definition card_key : string :=
  "0x4c0883a69102937d6231471b5dbb6204fe5129617082792ae468d01a3f362318".

(** [card_key] sealed under the secret ABCDE-FGHIJ-KLMNO-PQRST. *)
Definition envelope : string :=
  envelope_text "a1b2c3d4e5f60718" "000102030405060708090a0b"
    ("cTp3J3V+f3sofHJ9fXx2Y2Y2ZWaSg/fj1JQyfCMgdXZxdiUhcHd1cX97fHx1fHhp"
     ++ "YzM2YJeKp+TUlzR+cnRxd3B6BQYHAAECAwwNDg8ICQoLFA==").

(** An envelope whose ciphertext has six bytes. *)
Definition short_envelope : string :=
  envelope_text "a1b2c3d4e5f60718" "000102030405060708090a0b" "AAECAwQF".

Definition card (active : bool) : value :=
  VObj [("cardId", VStr "1234567");
        ("slotId", VStr "0x00000000000000000000000000000000000000aa");
        ("chainId", VNum "8453");
        ("active", VBool active);
        ("status", VStr (if active then "active" else "redeemed"));
        ("tokenAddress", VStr AddressZero);
        ("tokenAmount", VStr "1000000000000000000");
        ("creator", VStr "0x00000000000000000000000000000000000000bb");
        ("message", VStr "Happy Birthday!");
        ("encryptedPrivateKey", VStr envelope);
        ("createdAt", VStr "2025-01-01T00:00:00.000Z")].

Definition found (c : value) : response :=
  {| res_ok := true; res_status := 200; res_json := Normal c |}.

Definition failed (code : Z) : response :=
  {| res_ok := false; res_status := code;
     res_json := Throw (mkExn "SyntaxError" "Unexpected end of JSON input") |}.

(** The registry address of card 1234567. *)
Definition card_address : string :=
  "https://api.univoucher.com/v1/cards/single?id=1234567".

(** A registry that knows card 1234567 only. *)
Definition registry (c : value) (url : string) : completion response :=
  if (url =? card_address)%string
  then Normal (found c)
  else Normal (failed 404).

(** A registry that is down. *)
Definition registry_down (url : string) : completion response :=
  Normal (failed 500).

Definition tx_hash : string :=
  "0x88df016429689c079f3b2f6ad39fa052532c56795b733da78a91ebe6a713944b".

Definition chain_net (reg : string -> completion response) : network :=
  {| net_fetch := fun _ url => reg url;
     net_estimateGas := fun _ _ _ => Normal 100001;
     net_getGasPrice := fun _ _ => Normal 5;
     net_redeemCard := fun _ _ _ _ => Normal (VObj [("hash", VStr tx_hash)]);
     net_wait := fun _ _ =>
       Normal (VObj [("transactionHash", VStr tx_hash)]);
     net_symbol := fun _ _ _ => Throw (Error "call revert exception");
     net_decimals := fun _ _ _ => Throw (Error "call revert exception") |}.

Definition settings : config :=
  {| ALCHEMY_KEY := "demo-key";
     PARTNER_ADDRESS := "0x1111111111111111111111111111111111111111";
     SERVICE_PRIVATE_KEY :=
       "0x0123456789abcdef0123456789abcdef0123456789abcdef0123456789abcdef" |}.

Definition recipient : string := "0x2222222222222222222222222222222222222222".

Definition redeem_request (secret to : string) : value :=
  VObj [("cardId", VStr "1234567"); ("cardSecret", VStr secret);
        ("recipientAddress", VStr to)].

Definition verify_request (secret : string) : value :=
  VObj [("cardId", VStr "1234567"); ("cardSecret", VStr secret)].

(** ** The runs used as examples *)

Definition secret : string := "ABCDE-FGHIJ-KLMNO-PQRST".

Definition live_net : network := chain_net (registry (card true)).

Definition good_request : value := redeem_request secret recipient.

(** The redemption of card 1234567 with the right secret. *)
Definition good_run : completion http_response * list event :=
  Eval vm_compute in run (redeem settings live_net good_request).

Definition service_contract : contract :=
  {| contract_address := UNIVOUCHER_ADDRESS;
     contract_signer :=
       {| wallet_privateKey := SERVICE_PRIVATE_KEY settings |};
     contract_provider :=
       {| provider_url := "https://base-mainnet.g.alchemy.com/v2/demo-key" |} |}.

Definition redeem_call : redeem_args :=
  {| arg_cardId := VStr "1234567";
     arg_to := VStr recipient;
     arg_signature :=
       "signed(" ++ card_key ++ ",keccak(Redeem card:,1234567,to:,"
       ++ recipient ++ "))";
     arg_partner := AddressZero |}.

(** ** More fixtures *)

Definition base_provider : provider := contract_provider service_contract.

(** Card 1234567 on a chain that is not in [CHAINS]. *)
Definition testnet_card : value :=
  VObj [("cardId", VStr "1234567");
        ("slotId", VStr "0x00000000000000000000000000000000000000aa");
        ("chainId", VNum "11155111");
        ("active", VBool true);
        ("status", VStr "active");
        ("tokenAddress", VStr AddressZero);
        ("tokenAmount", VStr "1000000000000000000");
        ("creator", VStr "0x00000000000000000000000000000000000000bb");
        ("message", VStr "Happy Birthday!");
        ("encryptedPrivateKey", VStr envelope);
        ("createdAt", VStr "2025-01-01T00:00:00.000Z")].

Definition testnet_net : network := chain_net (registry testnet_card).


(** A token that is not the native asset. *)
Definition usdc : value := VStr "0x833589fCD6eDb6E08f4c7C32D4f71b54bdA02913".

(** A chain on which tokens answer. *)
Definition token_net : network :=
  {| net_fetch := net_fetch live_net;
     net_estimateGas := net_estimateGas live_net;
     net_getGasPrice := net_getGasPrice live_net;
     net_redeemCard := net_redeemCard live_net;
     net_wait := net_wait live_net;
     net_symbol := fun _ _ _ => Normal (VStr "USDC");
     net_decimals := fun _ _ _ => Normal (VNum "6") |}.

(** A card id that cannot be printed. *)
Definition unprintable_id : value := VObj [("toString", VNum "1")].

Definition card_request : value := VObj [("cardId", VStr "1234567")].

Definition wrong_request : value :=
  redeem_request "WRONG-WRONG-WRONG-WRONG" recipient.

(** What card-info answers for card 1234567. *)
Definition card_info_run : completion http_response * list event :=
  Eval vm_compute in run (card_info settings live_net card_request).

End Demo.

(* ================================================================== *)
(** * Properties of the secret decryption engine *)
(* ================================================================== *)

Section DecryptFacts.
Context {node : NodeLib}.

(** ** Slicing off the authentication tag *)

Lemma Buffer_slice_tag (buf : bytes) :
  16 <= Z.of_nat (List.length buf) ->
  Buffer_slice_from buf (- authTagLength)
  = skipn (List.length buf - 16) buf.
Proof.
  intros Hlen. unfold Buffer_slice_from, Buffer_slice, authTagLength.
  cbv zeta. change (- (16) <? 0) with true. cbv iota.
  destruct (Z.ltb_spec (Z.of_nat (List.length buf)) 0); [lia |].
  rewrite Z.max_l, Z.min_id by lia.
  replace (Z.to_nat (Z.of_nat (List.length buf) + - (16)))
    with (List.length buf - 16)%nat by lia.
  apply firstn_all2. rewrite length_skipn. lia.
Qed.

Lemma Buffer_slice_content (buf : bytes) :
  16 <= Z.of_nat (List.length buf) ->
  Buffer_slice buf 0 (- authTagLength)
  = firstn (List.length buf - 16) buf.
Proof.
  intros Hlen. unfold Buffer_slice, authTagLength. cbv zeta.
  change (0 <? 0) with false. change (- (16) <? 0) with true. cbv iota.
  rewrite Z.min_l, Z.max_l by lia.
  cbn [Z.to_nat skipn].
  f_equal. lia.
Qed.

Lemma decryptPrivateKey_catch (encryptedData cardSecret : value) :
  decryptPrivateKey encryptedData cardSecret
  = match decryptPrivateKey_try encryptedData cardSecret with
    | Normal p => Normal p
    | Throw _ => Throw opaque_error
    end.
Proof. reflexivity. Qed.

Lemma failure_throws (encryptedData cardSecret : value) :
  decryption_failure encryptedData cardSecret ->
  exists e, decryptPrivateKey_try encryptedData cardSecret = Throw e.
Proof.
  intros [e H | e H | data key enc e Hd Hin H | data ct Hd Hct Hlen
         | data secret salt iv ct e Hd Hs Hsalt Hiv Hct H];
    unfold decryptPrivateKey_try.
  - rewrite H. cbn. eauto.
  - destruct (JSON_parse encryptedData); cbn; eauto. rewrite H. cbn. eauto.
  - rewrite Hd. cbn [cbind].
    destruct (replace_hyphens cardSecret); cbn [cbind]; eauto.
    destruct Hin as [Hk | [Hk | [Hk | []]]]; inversion Hk; subst key enc;
      clear Hk.
    + rewrite H. cbn. eauto.
    + destruct (let? v := get_prop data "salt" in Buffer_from v hex);
        cbn [cbind]; eauto.
      rewrite H. cbn. eauto.
    + destruct (let? v := get_prop data "salt" in Buffer_from v hex);
        cbn [cbind]; eauto.
      destruct (let? v := get_prop data "iv" in Buffer_from v hex);
        cbn [cbind]; eauto.
      rewrite H. cbn. eauto.
  - rewrite Hd. cbn [cbind].
    destruct (replace_hyphens cardSecret); cbn [cbind]; eauto.
    destruct (let? v := get_prop data "salt" in Buffer_from v hex);
      cbn [cbind]; eauto.
    destruct (let? v := get_prop data "iv" in Buffer_from v hex);
      cbn [cbind]; eauto.
    rewrite Hct. cbn [cbind]. cbv zeta.
    replace (Z.of_nat (List.length ct) <? authTagLength) with true
      by (symmetry; apply Z.ltb_lt; unfold authTagLength; lia).
    eauto.
  - rewrite Hd. cbn [cbind]. rewrite Hs. cbn [cbind].
    rewrite Hsalt. cbn [cbind]. rewrite Hiv. cbn [cbind].
    rewrite Hct. cbn [cbind]. cbv zeta in H |- *.
    destruct (Z.of_nat (List.length ct) <? authTagLength); eauto.
    destruct (createDecipheriv _ _ _); cbn [cbind] in *; eauto.
    destruct (setAuthTag _ _); cbn [cbind] in *; eauto.
    destruct (decipher_update _ _); cbn [cbind] in *; eauto.
    rewrite H. cbn. eauto.
Qed.

End DecryptFacts.

Section DecryptTheorems.
Context {node : NodeLib}.

Lemma replace_hyphens_normal (v : value) (s : string) :
  replace_hyphens v = Normal s ->
  exists secret, v = VStr secret /\ s = remove_hyphens secret.
Proof.
  destruct v; cbn; intros H; inversion H; eauto.
Qed.

Lemma cbind_normal {A B} (c : completion A) (k : A -> completion B) (b : B) :
  cbind c k = Normal b -> exists a, c = Normal a /\ k a = Normal b.
Proof. destruct c; cbn; intros H; [eauto | discriminate]. Qed.

(** The [try] block completes exactly on a successful authenticated
    decryption. *)
Lemma try_normal_decrypts (encryptedData cardSecret : value) (p : string) :
  decryptPrivateKey_try encryptedData cardSecret = Normal p ->
  decrypts_to encryptedData cardSecret p.
Proof.
  unfold decryptPrivateKey_try. intros H.
  apply cbind_normal in H as (data & Hdata & H).
  apply cbind_normal in H as (ns & Hns & H).
  apply replace_hyphens_normal in Hns as (secret & -> & ->).
  apply cbind_normal in H as (salt & Hsalt & H).
  apply cbind_normal in Hsalt as (saltv & Hsaltv & Hsalt).
  apply cbind_normal in H as (iv & Hiv & H).
  apply cbind_normal in Hiv as (ivv & Hivv & Hiv).
  apply cbind_normal in H as (ct & Hct & H).
  apply cbind_normal in Hct as (ctv & Hctv & Hct).
  cbv zeta in H.
  destruct (Z.ltb_spec (Z.of_nat (List.length ct)) authTagLength) as [Hlt | Hge];
    [discriminate |].
  unfold authTagLength in Hge.
  rewrite Buffer_slice_tag, Buffer_slice_content in H by exact Hge.
  apply cbind_normal in H as (d0 & Hd0 & H).
  apply cbind_normal in H as (d1 & Hd1 & H).
  apply cbind_normal in H as ([out d2] & Hupd & H).
  apply cbind_normal in H as (last & Hlast & H).
  cbn [fst snd] in *. inversion H; subst p; clear H.
  exists data, secret, saltv, ivv, ctv, salt, iv, ct, d0, d1, out, d2, last.
  repeat (split; [first [eassumption | reflexivity | lia] |]).
  cbv zeta.
  split; [ apply Nat2Z.inj; rewrite pbkdf2Sync_length; [reflexivity | lia] |].
  split; [ rewrite length_skipn; lia |].
  split; [ apply firstn_skipn |].
  repeat (split; [eassumption |]). reflexivity.
Qed.

Lemma decrypts_try_normal (encryptedData cardSecret : value) (p : string) :
  decrypts_to encryptedData cardSecret p ->
  decryptPrivateKey_try encryptedData cardSecret = Normal p.
Proof.
  intros (data & secret & saltv & ivv & ctv & salt & iv & ct & d0 & d1 & out
          & d2 & last & Hdata & -> & Hsaltv & Hsalt & Hivv & Hiv & Hctv & Hct
          & Hlen & H).
  cbv zeta in H.
  destruct H as (_ & _ & _ & Hd0 & Hd1 & Hupd & Hlast & ->).
  unfold decryptPrivateKey_try.
  rewrite Hdata. cbn [cbind replace_hyphens].
  rewrite Hsaltv. cbn [cbind]. rewrite Hsalt. cbn [cbind].
  rewrite Hivv. cbn [cbind]. rewrite Hiv. cbn [cbind].
  rewrite Hctv. cbn [cbind]. rewrite Hct. cbn [cbind]. cbv zeta.
  destruct (Z.ltb_spec (Z.of_nat (List.length ct)) authTagLength) as [Hlt | Hge];
    [unfold authTagLength in Hlt; lia |].
  unfold authTagLength in Hge.
  rewrite Buffer_slice_tag, Buffer_slice_content by exact Hge.
  rewrite Hd0. cbn [cbind]. rewrite Hd1. cbn [cbind].
  rewrite Hupd. cbn [cbind fst snd]. rewrite Hlast. reflexivity.
Qed.

Lemma try_throw_failure (encryptedData cardSecret : value) (e : exn) :
  decryptPrivateKey_try encryptedData cardSecret = Throw e ->
  decryption_failure encryptedData cardSecret.
Proof.
  unfold decryptPrivateKey_try. intros H.
  destruct (JSON_parse encryptedData) as [data | e0] eqn:Hdata;
    [| eapply malformed_json; eassumption].
  cbn [cbind] in H.
  destruct (replace_hyphens cardSecret) as [ns | e0] eqn:Hns;
    [| eapply secret_not_a_string; eassumption].
  cbn [cbind] in H.
  destruct (let? v := get_prop data "salt" in Buffer_from v hex)
    as [salt | e0] eqn:Hsalt;
    [| eapply (@invalid_field _ _ _ data "salt" hex);
       [eassumption | cbn; tauto | eassumption]].
  cbn [cbind] in H.
  destruct (let? v := get_prop data "iv" in Buffer_from v hex)
    as [iv | e0] eqn:Hiv;
    [| eapply (@invalid_field _ _ _ data "iv" hex);
       [eassumption | cbn; tauto | eassumption]].
  cbn [cbind] in H.
  destruct (let? v := get_prop data "ciphertext" in Buffer_from v base64)
    as [ct | e0] eqn:Hct;
    [| eapply (@invalid_field _ _ _ data "ciphertext" base64);
       [eassumption | cbn; tauto | eassumption]].
  cbn [cbind] in H. cbv zeta in H.
  destruct (Z.ltb_spec (Z.of_nat (List.length ct)) authTagLength) as [Hlt | Hge].
  - eapply short_ciphertext; eauto.
  - eapply cipher_rejected with (e := e); try eassumption.
    cbv zeta.
    destruct (createDecipheriv _ _ _); cbn [cbind] in *; [| congruence].
    destruct (setAuthTag _ _); cbn [cbind] in *; [| congruence].
    destruct (decipher_update _ _); cbn [cbind] in *; [| congruence].
    destruct (decipher_final _); cbn [cbind] in *; [discriminate | congruence].
Qed.

(** C1. Whenever authenticated decryption does not succeed (malformed
    JSON, a secret that is not a string, a salt, iv or ciphertext field
    that does not decode, a ciphertext shorter than 16 bytes, a key the
    cipher rejects or a tag that does not verify), [decryptPrivateKey]
    throws the one error "Invalid card secret"; it throws no other error,
    it throws only when one of those steps failed, and it returns a
    plaintext only when the tag verified, never a partial one. *)
Theorem decryptPrivateKey_single_opaque_error (encryptedData cardSecret : value) :
  (decryption_failure encryptedData cardSecret ->
   decryptPrivateKey encryptedData cardSecret
   = Throw (Error "Invalid card secret"))
  /\ (forall e, decryptPrivateKey encryptedData cardSecret = Throw e ->
        e = Error "Invalid card secret"
        /\ decryption_failure encryptedData cardSecret)
  /\ (forall p, decryptPrivateKey encryptedData cardSecret = Normal p ->
        decrypts_to encryptedData cardSecret p
        /\ ~ decryption_failure encryptedData cardSecret).
Proof.
  rewrite decryptPrivateKey_catch. split; [| split].
  - intros Hf. apply failure_throws in Hf as [e He]. rewrite He. reflexivity.
  - intros e He.
    destruct (decryptPrivateKey_try encryptedData cardSecret) eqn:Htry;
      [discriminate |].
    inversion He. split; [reflexivity |].
    eapply try_throw_failure; eassumption.
  - intros p Hp.
    destruct (decryptPrivateKey_try encryptedData cardSecret) eqn:Htry;
      [| discriminate].
    inversion Hp; subst. split.
    + apply try_normal_decrypts; assumption.
    + intros Hf. apply failure_throws in Hf as [e He]. congruence.
Qed.

(** C2. [decryptPrivateKey] returns a plaintext exactly when: the key is
    the 32-byte PBKDF2-SHA-256 key of the hyphen-free secret and the
    hex-decoded salt after 310,000 iterations; the base64-decoded
    ciphertext is split into the content (all but the last 16 bytes) and
    the 16-byte tag; and AES-256-GCM under that key and the envelope's iv
    accepts them. The plaintext is then the decrypted bytes read as
    UTF-8. *)
Theorem decryptPrivateKey_derivation (encryptedData cardSecret : value)
  (plaintext : string) :
  decryptPrivateKey encryptedData cardSecret = Normal plaintext
  <-> decrypts_to encryptedData cardSecret plaintext.
Proof.
  rewrite decryptPrivateKey_catch. split.
  - intros H.
    destruct (decryptPrivateKey_try encryptedData cardSecret) eqn:Htry;
      [| discriminate].
    inversion H; subst. apply try_normal_decrypts; assumption.
  - intros H. apply decrypts_try_normal in H. rewrite H. reflexivity.
Qed.

(** ** Hyphens *)

Lemma remove_hyphens_filter (s : string) :
  remove_hyphens s
  = string_of_list_ascii (filter not_hyphen (list_ascii_of_string s)).
Proof.
  induction s as [| c s IH]; [reflexivity |].
  cbn [remove_hyphens list_ascii_of_string filter]. unfold not_hyphen at 1.
  destruct (c =? "-")%char; cbn [negb string_of_list_ascii];
    rewrite IH; reflexivity.
Qed.

Lemma remove_hyphens_id (s : string) :
  forallb not_hyphen (list_ascii_of_string s) = true ->
  remove_hyphens s = s.
Proof.
  induction s as [| c s IH]; [reflexivity |].
  cbn [list_ascii_of_string forallb remove_hyphens].
  intros H. apply andb_prop in H as [Hc Hs].
  unfold not_hyphen in Hc. destruct (c =? "-")%char; [discriminate |].
  rewrite IH by exact Hs. reflexivity.
Qed.

(** A successful decryption, read as a decryption under the password
    that is handed to PBKDF2: the secret without its hyphens. *)
Lemma decrypts_to_password (encryptedData : value) (s plaintext : string) :
  decrypts_to encryptedData (VStr s) plaintext
  <-> opens_with_password encryptedData (remove_hyphens s) plaintext.
Proof.
  unfold decrypts_to, opens_with_password. split.
  - intros (data & secret & saltv & ivv & ctv & salt & iv & ciphertext & d0
            & d1 & out & d2 & last & Hdata & Hsecret & Hsaltv & Hsalt & Hivv
            & Hiv & Hctv & Hct & Hlen & _ & _ & _ & H).
    inversion Hsecret; subst secret.
    exists data, saltv, ivv, ctv, salt, iv, ciphertext, d0, d1, out, d2, last.
    repeat (split; [assumption |]). exact H.
  - intros (data & saltv & ivv & ctv & salt & iv & ciphertext & d0 & d1 & out
            & d2 & last & Hdata & Hsaltv & Hsalt & Hivv & Hiv & Hctv & Hct
            & Hlen & H).
    exists data, s, saltv, ivv, ctv, salt, iv, ciphertext, d0, d1, out, d2,
      last.
    split; [assumption |]. split; [reflexivity |].
    repeat (split; [assumption |]).
    cbv zeta. split; [| split; [| split; [| exact H]]].
    + apply Nat2Z.inj. rewrite pbkdf2Sync_length by lia. reflexivity.
    + rewrite length_skipn. lia.
    + apply firstn_skipn.
Qed.

(** C3. Two secrets that are equal once their hyphens are removed give
    the same result on every envelope, the same plaintext or the same
    failure. Only hyphens are removed: the password handed to the key
    derivation is the secret's characters other than the hyphen, in
    order and unchanged, so a secret without hyphens is used as typed.
    Decryption succeeds exactly when the envelope opens under that
    password, whatever the libraries are; and letter case is not
    folded, since there are libraries under which an envelope opens with
    a secret and not with the same secret in lower case. *)
Theorem decryptPrivateKey_hyphen_insensitive (secret1 secret2 : string) :
  remove_hyphens secret1 = remove_hyphens secret2 ->
  (forall encryptedData,
      decryptPrivateKey encryptedData (VStr secret1)
      = decryptPrivateKey encryptedData (VStr secret2))
  /\ (forall s,
        replace_hyphens (VStr s)
        = Normal (string_of_list_ascii
                    (filter not_hyphen (list_ascii_of_string s))))
  /\ (forall s, forallb not_hyphen (list_ascii_of_string s) = true ->
        replace_hyphens (VStr s) = Normal s)
  /\ remove_hyphens "ABCDE-FGHIJ-KLMNO-PQRST" = "ABCDEFGHIJKLMNOPQRST"
  /\ remove_hyphens "abcde-fghij-klmno-pqrst" <> remove_hyphens "ABCDEFGHIJKLMNOPQRST"
  /\ (forall encryptedData s plaintext,
        decryptPrivateKey encryptedData (VStr s) = Normal plaintext
        <-> opens_with_password encryptedData
              (string_of_list_ascii
                 (filter not_hyphen (list_ascii_of_string s)))
              plaintext)
  /\ (exists (lib : NodeLib) encryptedData typed lowered plaintext,
        toUpperCase lowered = toUpperCase typed
        /\ @decryptPrivateKey lib encryptedData (VStr typed) = Normal plaintext
        /\ @decryptPrivateKey lib encryptedData (VStr lowered)
           = Throw (Error "Invalid card secret")).
Proof.
  intros Heq. split; [| split; [| split; [| split; [| split; [| split]]]]].
  - intros encryptedData.
    unfold decryptPrivateKey, decryptPrivateKey_try.
    destruct (JSON_parse encryptedData); cbn [cbind replace_hyphens try_catch];
      [| reflexivity].
    rewrite Heq. reflexivity.
  - intros s. cbn [replace_hyphens]. rewrite remove_hyphens_filter. reflexivity.
  - intros s Hs. cbn [replace_hyphens]. rewrite remove_hyphens_id by exact Hs.
    reflexivity.
  - reflexivity.
  - cbn. discriminate.
  - intros encryptedData s plaintext.
    rewrite <- remove_hyphens_filter, <- decrypts_to_password.
    rewrite decryptPrivateKey_catch. split.
    + intros H.
      destruct (decryptPrivateKey_try encryptedData (VStr s)) eqn:Htry;
        [| discriminate].
      inversion H; subst. apply try_normal_decrypts; assumption.
    + intros H. apply decrypts_try_normal in H. rewrite H. reflexivity.
  - exists Demo.demo_node, (VStr Demo.envelope), "ABCDE-FGHIJ-KLMNO-PQRST",
      "abcde-fghij-klmno-pqrst", Demo.card_key.
    split; [reflexivity |]. split; vm_compute; reflexivity.
Qed.

End DecryptTheorems.

(* ================================================================== *)
(** * Properties of the handlers *)
(* ================================================================== *)

(** ** Printing numbers *)

Lemma parse_numeral (z : Z) :
  parse_number (numeral z) = Some z.
Proof.
  unfold parse_number, numeral.
  rewrite NilZero.isi.
  - cbn. rewrite DecimalZ.of_to. reflexivity.
  - destruct z; cbn; intros H; inversion H.
    eapply DecimalPos.Unsigned.to_uint_nonnil; eassumption.
  - destruct z; cbn; intros H; inversion H.
    eapply DecimalPos.Unsigned.to_uint_nonnil; eassumption.
Qed.

(** A key that does not read as the number [z] is not the key [z]
    prints as. *)
Lemma key_mismatch (key : string) (z : Z) :
  parse_number key <> Some z -> (key =? numeral z)%string = false.
Proof.
  intros H. destruct (String.eqb_spec key (numeral z)) as [-> |];
    [| reflexivity].
  rewrite parse_numeral in H. congruence.
Qed.

Ltac skip_key H :=
  rewrite key_mismatch
    by (vm_compute; intros E; inversion E; subst; apply H; tauto).

Lemma lookup_explorers_unconfigured (z : Z) :
  ~ In z (map fst configured_explorers) ->
  lookup explorers (numeral z) = VUndefined.
Proof.
  cbn [map fst configured_explorers In]. intros H.
  unfold lookup, explorers. cbn [assoc].
  repeat skip_key H.
  unfold object_prototype.
  rewrite (String.eqb_sym (numeral z) "constructor").
  rewrite (String.eqb_sym (numeral z) "__proto__").
  cbn [existsb].
  repeat rewrite (String.eqb_sym (numeral z)).
  repeat skip_key H. reflexivity.
Qed.

Lemma lookup_CHAINS_unconfigured (z : Z) :
  ~ In z (map fst configured_explorers) ->
  lookup CHAINS (numeral z) = VUndefined.
Proof.
  cbn [map fst configured_explorers In]. intros H.
  unfold lookup, CHAINS. cbn [assoc].
  repeat skip_key H.
  unfold object_prototype.
  rewrite (String.eqb_sym (numeral z) "constructor").
  rewrite (String.eqb_sym (numeral z) "__proto__").
  cbn [existsb].
  repeat rewrite (String.eqb_sym (numeral z)).
  repeat skip_key H. reflexivity.
Qed.

Lemma configured_dec (z : Z) :
  {In z (map fst configured_explorers)} + {~ In z (map fst configured_explorers)}.
Proof. apply in_dec, Z.eq_dec. Qed.

(** A key found on the prototype of the table is not an explorer. *)
Example getExplorerUrl_inherited_key :
  getExplorerUrl (VStr "constructor") = Normal (VBuiltin "Object").
Proof. reflexivity. Qed.

(** Printing: numbers as they are written, an object without a
    [toString] of its own as [[object Object]], an array by its
    elements; an object with a [toString] property cannot be printed. *)
Example to_string_examples :
  to_string (VNum "1e+21") = Normal "1e+21"
  /\ to_string (VObj [("id", VNum "7")]) = Normal "[object Object]"
  /\ to_string (VArr [VNum "1"; VNull; VStr "a"]) = Normal "1,,a"
  /\ is_normal (to_string (VObj [("toString", VNum "1")])) = false
  /\ is_normal (to_string (VArr [VObj [("toString", VNull)]])) = false.
Proof. repeat split. Qed.

Example trim_trailing_zeros_examples :
  trim_trailing_zeros "1.500000" = "1.5"
  /\ trim_trailing_zeros "12.340000" = "12.34"
  /\ trim_trailing_zeros "0.000000" = "0"
  /\ trim_trailing_zeros "0.000001" = "0.000001".
Proof. repeat split. Qed.

(** ** Running a handler path by path *)

Ltac unfold_handlers :=
  cbv [run redeem redeem_try redeem_catch verify_secret verify_secret_try
       card_info card_info_try try_catch_async bind lift ret
       fetch estimateGas_redeemCard getGasPrice redeemCard wait
       token_symbol token_decimals promise_all2 getOptimalGasPrice
       getTokenInfo app].

(** Case analysis on the first test or call whose outcome decides the
    path. *)
Ltac split_match :=
  match goal with
  | |- context [match ?x with _ => _ end] =>
      lazymatch x with
      | context [match _ with _ => _ end] => fail
      | _ => destruct x eqn:?
      end
  end.

Ltac run_paths := repeat (split_match; cbv beta iota zeta).

(** The source of the token metadata, read off the equations of a path. *)
Ltac token_source :=
  unfold token_info_from; do 2 eexists;
  split; [eassumption |]; split; [eassumption |];
  match goal with
  | H : strict_eq_string _ _ = _ |- _ => rewrite H
  end;
  cbv beta iota;
  first
    [ eexists; cbn [symbol decimals];
      split; [eassumption |]; split; eassumption
    | left; eexists; split; [eassumption | reflexivity]
    | right; do 3 eexists; cbn [In];
      split; [eauto 12 |]; split; [eauto 12 | reflexivity] ].

Ltac split_In :=
  repeat match goal with
         | H : In _ (_ :: _) |- _ => cbn [In] in H
         | H : _ \/ _ |- _ => destruct H as [H | H]
         | H : In _ [] |- _ => contradiction H
         | H : False |- _ => contradiction H
         end.

Section ServerFacts.
Context {node : NodeLib} {eth : EthersLib}.
Variable cfg : config.
Variable net : network.

Lemma redeem_signature_normal (privateKey : string) (cardId to : value)
  (signature : string) :
  redeem_signature privateKey cardId to = Normal signature ->
  exists cardWallet messageHash arrayifiedHash,
    Wallet_new privateKey = Normal cardWallet
    /\ solidityKeccak256 ["string"; "string"; "string"; "address"]
         [VStr "Redeem card:"; cardId; VStr "to:"; to] = Normal messageHash
    /\ arrayify messageHash = Normal arrayifiedHash
    /\ Wallet_signMessage cardWallet arrayifiedHash = Normal signature.
Proof.
  unfold redeem_signature. intros H.
  apply cbind_normal in H as (w & Hw & H).
  apply cbind_normal in H as (h & Hh & H).
  apply cbind_normal in H as (m & Hm & H).
  eauto 8.
Qed.

Lemma negb_false_true (b : bool) : negb b = false -> b = true.
Proof. destruct b; [reflexivity | discriminate]. Qed.

(** The answer and the log of a redeem request. Either the request
    stopped before the chain, with one of the error answers and at most
    the fetch in the log; or the log starts with the fetch of an active
    card and the gas estimation of the authorized call. *)
Lemma redeem_run_inv (req_body : value) (r : completion http_response)
  (log : list event) :
  run (redeem cfg net req_body) = (r, log) ->
  exists res, r = Normal res /\
    ((In res redeem_error_responses
      /\ (log = []
          \/ exists url answer,
               log = [Fetch url answer]
               /\ forall response card,
                    answer = Normal response -> res_ok response = true ->
                    res_json response = Normal card ->
                    get_prop card "active" = Normal (VBool false) ->
                    res = respond 400
                            (error_body
                               "This card has already been redeemed or cancelled")))
     \/ exists url response c args estimate rest card chainId,
          log = Fetch url (Normal response)
                  :: EstimateGas c args estimate :: rest
          /\ card_url (arg_cardId args) = Normal url
          /\ authorization req_body response args
          /\ arg_partner args = AddressZero
          /\ res_ok response = true
          /\ res_json response = Normal card
          /\ (exists active, get_prop card "active" = Normal active
                             /\ truthy active = true)
          /\ get_prop card "chainId" = Normal chainId
          /\ is_normal (getProvider cfg chainId) = true
          /\ Forall (after_estimate c args estimate) rest
          /\ (In res redeem_error_responses
              \/ exists g price tx receipt txHash info amount explorer base
                        hash,
                   estimate = Normal g
                   /\ In (SendRedeemCard c args
                            {| gasLimit := Z.quot (g * 120) 100;
                               gasPrice := price |} (Normal tx)) rest
                   /\ In (Wait tx (Normal receipt)) rest
                   /\ get_prop receipt "transactionHash" = Normal txHash
                   /\ token_info_from card rest info
                   /\ formatted_amount card info = Normal amount
                   /\ getExplorerUrl chainId = Normal explorer
                   /\ to_string explorer = Normal base
                   /\ to_string txHash = Normal hash
                   /\ res = redeem_success txHash (arg_to args) amount
                              (base ++ "/tx/" ++ hash))).
Proof.
  unfold_handlers. run_paths.
  all: intros Hrun; inversion Hrun; subst r log; clear Hrun.
  all: eexists; split; [reflexivity |].
  all: repeat match goal with
              | H : negb _ = false |- _ => apply negb_false_true in H
              | H : negb _ = true |- _ => apply negb_true_iff in H
              end.
  (* paths that stop before the chain *)
  all: try solve
         [ left; split; [cbn [redeem_error_responses In]; auto 10 |];
           first
             [ left; reflexivity
             | right; do 2 eexists; split; [reflexivity |];
               intros response card E1 E2 E3 E4;
               first
                 [ congruence
                 | exfalso;
                   match goal with
                   | Ha : get_prop ?c "active" = Normal ?a,
                     Ht : truthy ?a = true |- _ =>
                       assert (a = VBool false) by congruence;
                       subst a; discriminate Ht
                   end ] ] ].
  (* paths that reach the gas estimation *)
  all: right.
  all: match goal with
       | H : redeem_signature _ _ _ = Normal _ |- _ =>
           apply redeem_signature_normal in H
             as (cardWallet & messageHash & arrayifiedHash & Hw & Hh & Hm & Hs)
       end.
  all: do 8 eexists.
  all: split; [reflexivity |].
  all: split; [cbn [arg_cardId]; eassumption |].
  all: split; [do 7 eexists; cbn [arg_cardId arg_to arg_signature];
               repeat (split; [eassumption |]); eassumption |].
  all: split; [reflexivity |].
  all: split; [assumption |].
  all: split; [eassumption |].
  all: split; [eexists; split; eassumption |].
  all: split; [eassumption |].
  all: split; [match goal with H : getProvider _ _ = _ |- _ => rewrite H end;
               reflexivity |].
  all: split;
    [ repeat (apply Forall_cons; [cbn; eauto 6 |]); apply Forall_nil |].
  all: first
         [ left; cbn [redeem_error_responses In]; solve [auto 10]
         | right;
           match goal with
           | H : formatted_amount _ ?info = Normal ?amount |- _ =>
               do 5 eexists; exists info, amount; do 3 eexists
           end;
           split; [reflexivity |];
           split; [cbn [In]; eauto 10 |];
           split; [cbn [In]; eauto 10 |];
           split; [eassumption |];
           split; [token_source |];
           split; [eassumption |];
           split; [eassumption |];
           split; [eassumption |];
           split; [eassumption | reflexivity] ].
Qed.

Lemma error_response_not_200 (res : http_response) :
  In res redeem_error_responses -> status res <> 200.
Proof.
  cbn [redeem_error_responses In]. intros H.
  repeat (destruct H as [<- | H]; [cbn; discriminate |]). contradiction.
Qed.

(** C6. A redeem request whose recipient is not a syntactically valid
    address is answered with status 400 before anything is asked of the
    registry or the chain; when card id, secret and recipient are all
    present, the answer is "Invalid recipient address". *)
Theorem redeem_invalid_recipient_no_network
  (req_body cardId cardSecret recipientAddress : value) :
  get_prop req_body "cardId" = Normal cardId ->
  get_prop req_body "cardSecret" = Normal cardSecret ->
  get_prop req_body "recipientAddress" = Normal recipientAddress ->
  isAddress recipientAddress = false ->
  (exists res, run (redeem cfg net req_body) = (Normal res, [])
               /\ status res = 400)
  /\ (truthy cardId = true -> truthy cardSecret = true ->
      truthy recipientAddress = true ->
      run (redeem cfg net req_body)
      = (Normal (respond 400 (error_body "Invalid recipient address")), [])).
Proof.
  intros Hid Hsecret Hto Haddr. unfold_handlers.
  rewrite Hid, Hsecret, Hto, Haddr. cbv beta iota zeta. split.
  - destruct (negb (truthy cardId) || negb (truthy cardSecret)
              || negb (truthy recipientAddress)); cbn; eauto.
  - intros -> -> ->. reflexivity.
Qed.

(** C5. When the card the redeem handler fetched has [active] false, the
    handler answers 400 "already redeemed or cancelled", and the fetch is
    the only call of the request: no gas estimation and no transaction. *)
Theorem redeem_inactive_card_no_onchain_call
  (req_body : value) (r : completion http_response) (log : list event)
  (url : string) (response : response) (card : value) :
  run (redeem cfg net req_body) = (r, log) ->
  In (Fetch url (Normal response)) log ->
  res_ok response = true ->
  res_json response = Normal card ->
  get_prop card "active" = Normal (VBool false) ->
  r = Normal (respond 400
                (error_body "This card has already been redeemed or cancelled"))
  /\ log = [Fetch url (Normal response)]
  /\ forall ev, In ev log -> onchain_call ev = false.
Proof.
  intros Hrun Hin Hok Hjson Hactive.
  apply redeem_run_inv in Hrun
    as (res & -> & [(_ & [-> | (url' & answer & -> & Hstop)]) | Hchain]).
  - contradiction Hin.
  - destruct Hin as [Hin | []]. inversion Hin; subst url' answer.
    rewrite (Hstop _ _ eq_refl Hok Hjson Hactive).
    split; [reflexivity | split; [reflexivity |]].
    intros ev [<- | []]. reflexivity.
  - exfalso.
    destruct Hchain as (url' & response' & c & args & estimate & rest & card'
                        & chainId & -> & _ & _ & _ & _ & Hjson'
                        & (active & Ha & Ht) & _ & _ & Hrest & _).
    destruct Hin as [Hin | [Hin | Hin]].
    + inversion Hin; subst url' response'.
      assert (card' = card) by congruence. subst card'.
      assert (active = VBool false) by congruence. subst active.
      discriminate Ht.
    + discriminate Hin.
    + rewrite Forall_forall in Hrest. exact (Hrest _ Hin).
Qed.

(** C8. In every run of the redeem handler, whatever the configured
    partner address, each gas estimation and each submitted transaction
    calls [redeemCard] with the zero address as partner; a submitted
    transaction carries as gas limit the estimate it follows, times 120
    and divided by 100 without remainder kept; a success answer has
    [partnerAddress] null; and the run does not depend on
    [PARTNER_ADDRESS] at all. A success answer is given only after such
    a redemption: the run then has estimated, submitted and awaited one
    [redeemCard] call for the card id and the recipient of the request,
    with the zero address as partner and the estimate times 120 divided
    by 100 as gas limit. *)
Theorem redeem_zero_partner_and_gas_margin
  (req_body : value) (r : completion http_response) (log : list event) :
  run (redeem cfg net req_body) = (r, log) ->
  (forall c args answer,
      In (EstimateGas c args answer) log -> arg_partner args = AddressZero)
  /\ (forall c args o answer,
        In (SendRedeemCard c args o answer) log ->
        arg_partner args = AddressZero
        /\ exists estimate,
             In (EstimateGas c args (Normal estimate)) log
             /\ gasLimit o = Z.quot (estimate * 120) 100)
  /\ (forall res, r = Normal res -> status res = 200 ->
        exists fields, body res = VObj fields
                       /\ lookup fields "partnerAddress" = VNull)
  /\ (forall partner,
        run (redeem (with_partner cfg partner) net req_body) = (r, log))
  /\ (forall res, r = Normal res -> status res = 200 ->
        exists c args g o tx receipt,
          In (EstimateGas c args (Normal g)) log
          /\ In (SendRedeemCard c args o (Normal tx)) log
          /\ In (Wait tx (Normal receipt)) log
          /\ arg_partner args = AddressZero
          /\ gasLimit o = Z.quot (g * 120) 100
          /\ get_prop req_body "cardId" = Normal (arg_cardId args)
          /\ get_prop req_body "recipientAddress" = Normal (arg_to args)).
Proof.
  intros Hrun.
  assert (Hpartner : forall partner,
             run (redeem (with_partner cfg partner) net req_body) = (r, log))
    by (intros partner; rewrite <- Hrun; reflexivity).
  apply redeem_run_inv in Hrun
    as (res & -> & [(Herr & Hlog) | Hchain]).
  - split; [| split; [| split; [| split; [exact Hpartner |]]]].
    + intros c args answer Hin.
      destruct Hlog as [-> | (url & fetched & -> & _)];
        [contradiction Hin | destruct Hin as [Hin | []]; discriminate Hin].
    + intros c args o answer Hin.
      destruct Hlog as [-> | (url & fetched & -> & _)];
        [contradiction Hin | destruct Hin as [Hin | []]; discriminate Hin].
    + intros res' Hres Hstatus. inversion Hres; subst res'.
      apply error_response_not_200 in Herr. contradiction.
    + intros res' Hres Hstatus. inversion Hres; subst res'.
      apply error_response_not_200 in Herr. contradiction.
  - destruct Hchain as (url & response & c0 & args0 & estimate & rest & card
                        & chainId & -> & _ & Hauth & Hzero & _ & _ & _ & _ & _
                        & Hrest & Hres).
    rewrite Forall_forall in Hrest.
    split; [| split; [| split; [| split; [exact Hpartner |]]]].
    + intros c args answer [Hin | [Hin | Hin]].
      * discriminate Hin.
      * inversion Hin; subst. exact Hzero.
      * contradiction (Hrest _ Hin).
    + intros c args o answer [Hin | [Hin | Hin]]; try discriminate Hin.
      destruct (Hrest _ Hin) as (-> & -> & g & -> & Hlimit).
      split; [exact Hzero |].
      exists g. split; [right; left; reflexivity | exact Hlimit].
    + intros res' Heq Hstatus. inversion Heq; subst res'.
      destruct Hres
        as [Herr | (g & price & tx & receipt & txHash & info & amount
                    & explorer & base & hash & _ & _ & _ & _ & _ & _ & _ & _
                    & _ & ->)].
      * apply error_response_not_200 in Herr. contradiction.
      * eexists. split; reflexivity.
    + intros res' Heq Hstatus. inversion Heq; subst res'.
      destruct Hres
        as [Herr | (g & price & tx & receipt & txHash & info & amount
                    & explorer & base & hash & -> & Hsend & Hwait & _)].
      * apply error_response_not_200 in Herr. contradiction.
      * destruct Hauth as (cardSecret & card0 & enc & key & w & h & ah & Hid
                           & Hto & _).
        exists c0, args0, g,
          {| gasLimit := Z.quot (g * 120) 100; gasPrice := price |}, tx,
          receipt.
        split; [right; left; reflexivity |].
        split; [right; right; exact Hsend |].
        split; [right; right; exact Hwait |].
        split; [exact Hzero |].
        split; [reflexivity |].
        split; assumption.
Qed.

(** C4. Whenever the redeem handler calls the contract, for a gas
    estimation or for the transaction, the signature among the arguments
    is the redemption authorization: the personal-message signature, by
    the wallet of the key decrypted from the fetched card, of the
    solidity-keccak256 hash of ("Redeem card:", cardId, "to:",
    recipientAddress) with the types (string, string, string, address),
    for the card id and the recipient of the request. *)
Theorem redeem_signature_is_authorization
  (req_body : value) (r : completion http_response) (log : list event)
  (c : contract) (args : redeem_args) :
  run (redeem cfg net req_body) = (r, log) ->
  (exists answer, In (EstimateGas c args answer) log)
  \/ (exists o answer, In (SendRedeemCard c args o answer) log) ->
  exists url response,
    card_url (arg_cardId args) = Normal url
    /\ In (Fetch url (Normal response)) log
    /\ authorization req_body response args.
Proof.
  intros Hrun Hcall.
  apply redeem_run_inv in Hrun
    as (res & -> & [(_ & Hlog) | Hchain]).
  - exfalso.
    destruct Hlog as [-> | (url & fetched & -> & _)];
      destruct Hcall as [(answer & Hin) | (o & answer & Hin)];
      try contradiction Hin; destruct Hin as [Hin | []]; discriminate Hin.
  - destruct Hchain as (url & response & c0 & args0 & estimate & rest & card
                        & chainId & -> & Hurl & Hauth & _ & _ & _ & _ & _ & _
                        & Hrest & _).
    rewrite Forall_forall in Hrest.
    assert (Hargs : args = args0).
    { destruct Hcall as [(answer & Hin) | (o & answer & Hin)];
        destruct Hin as [Hin | [Hin | Hin]]; try discriminate Hin.
      - inversion Hin. reflexivity.
      - contradiction (Hrest _ Hin).
      - destruct (Hrest _ Hin) as (_ & Heq & _). exact Heq. }
    subst args0. exists url, response.
    split; [exact Hurl | split; [left; reflexivity | exact Hauth]].
Qed.

(** ** The registry answers with an error status *)

(** Whatever the status of a registry answer that is not a success,
    verify-secret and redeem answer 404 "Card not found"; card-info
    answers 404 only for status 404 and 500 otherwise. The three
    handlers read the card id the same way, so one request body serves
    for all. *)

(** ** The calls of a redemption, one by one *)

Ltac same_event :=
  repeat match goal with
         | H : In _ (_ :: _) |- _ => cbn [In] in H
         | H : In _ [] |- _ => contradiction H
         | H : False |- _ => contradiction H
         | H : _ \/ _ |- _ => destruct H as [H | H]
         | H : @eq event ?a ?b |- _ =>
             first [discriminate H | subst a | subst b
                   | inversion H; subst; clear H]
         end.

(** The log of a redeem request, call by call. *)
Lemma redeem_chain_inv (req_body : value) (r : completion http_response)
  (log : list event) :
  run (redeem cfg net req_body) = (r, log) ->
  Sorted le (map phase log)
  /\ (forall k, (count_phase k log <= if (k =? 2)%nat then 2 else 1)%nat)
  /\ (forall url answer,
        In (Fetch url answer) log ->
        exists cardId cardSecret,
          get_prop req_body "cardId" = Normal cardId
          /\ get_prop req_body "cardSecret" = Normal cardSecret
          /\ truthy cardId = true /\ truthy cardSecret = true
          /\ card_url cardId = Normal url
          /\ net_fetch net [] url = answer
          /\ hd_error log = Some (Fetch url answer))
  /\ (forall ev c,
        In ev log -> event_contract ev = Some c ->
        contract_address c = UNIVOUCHER_ADDRESS
        /\ Wallet_new (SERVICE_PRIVATE_KEY cfg) = Normal (contract_signer c)
        /\ exists url response card chainId,
             In (Fetch url (Normal response)) log
             /\ res_json response = Normal card
             /\ get_prop card "chainId" = Normal chainId
             /\ getProvider cfg chainId = Normal (contract_provider c))
  /\ (forall p answer,
        In (GetGasPrice p answer) log ->
        exists c args estimate,
          In (EstimateGas c args (Normal estimate)) log
          /\ p = contract_provider c)
  /\ (forall c args o answer,
        In (SendRedeemCard c args o answer) log ->
        In (GetGasPrice (contract_provider c) (Normal (gasPrice o))) log)
  /\ (forall tx answer,
        In (Wait tx answer) log ->
        exists c args o, In (SendRedeemCard c args o (Normal tx)) log)
  /\ (forall ev,
        In ev log -> token_call ev = true ->
        exists tx receipt, In (Wait tx (Normal receipt)) log)
  /\ (forall ev, In ev (removelast log) -> fatal ev = None)
  /\ (forall ev e,
        last_event log = Some ev -> fatal ev = Some e ->
        r = fst (redeem_catch e log)).
Proof.
  unfold_handlers. run_paths.
  all: intros Hrun; inversion Hrun; subst r log; clear Hrun.
  all: repeat match goal with
              | H : _ || _ = false |- _ => apply orb_false_elim in H as [? ?]
              | H : negb _ = false |- _ => apply negb_false_true in H
              end.
  all: split; [cbn [map phase]; repeat constructor |].
  all: split;
    [ intros k; do 7 (destruct k as [| k]; [cbn; lia |]); cbn; lia |].
  all: split;
    [ intros url answer Hin; same_event; do 2 eexists;
      repeat (split; [first [eassumption | reflexivity] |]);
      first [eassumption | reflexivity] |].
  all: split;
    [ intros ev c Hin Hc; same_event; try discriminate Hc;
      inversion Hc; subst c; clear Hc;
      cbn [contract_address contract_signer contract_provider];
      (split; [reflexivity |
        split; [first [reflexivity | assumption] |
          do 4 eexists; cbn [In];
          split; [left; reflexivity |
            split; [eassumption | split; eassumption]]]]) |].
  all: split;
    [ intros p answer Hin; same_event; do 3 eexists; cbn [In];
      (split; [right; left; reflexivity | reflexivity]) |].
  all: split;
    [ intros c args o answer Hin; same_event;
      cbn [In contract_provider gasPrice]; auto 10 |].
  all: split;
    [ intros tx answer Hin; same_event; do 3 eexists; cbn [In]; auto 10 |].
  all: split;
    [ intros ev Hin Ht; same_event; try discriminate Ht;
      do 2 eexists; cbn [In]; auto 10 |].
  all: split;
    [ cbn [removelast]; intros ev Hin; same_event; reflexivity |].
  all: intros ev err Hlast Hfatal; cbv [last_event rev app hd_error] in Hlast;
    try discriminate Hlast; inversion Hlast; subst ev; clear Hlast;
    cbn [fatal] in Hfatal; try discriminate Hfatal;
    inversion Hfatal; subst; clear Hfatal;
    unfold redeem_catch, ret;
    repeat match goal with
           | H : includes _ _ = _ |- _ => rewrite H
           end; reflexivity.
Qed.


Lemma registry_error_status
  (req_body cardId cardSecret recipientAddress : value) (url : string)
  (response : response) :
  get_prop req_body "cardId" = Normal cardId ->
  get_prop req_body "cardSecret" = Normal cardSecret ->
  get_prop req_body "recipientAddress" = Normal recipientAddress ->
  truthy cardId = true -> truthy cardSecret = true ->
  truthy recipientAddress = true -> isAddress recipientAddress = true ->
  card_url cardId = Normal url ->
  net_fetch net [] url = Normal response ->
  res_ok response = false ->
  fst (run (verify_secret net req_body))
  = Normal (respond 404 (error_body "Card not found"))
  /\ fst (run (redeem cfg net req_body))
     = Normal (respond 404 (error_body "Card not found"))
  /\ fst (run (card_info cfg net req_body))
     = Normal (if res_status response =? 404
               then respond 404 (error_body "Card not found")
               else respond 500 (error_body "Failed to get card information")).
Proof.
  intros Hid Hsecret Hto Tid Tsecret Tto Haddr Hurl Hfetch Hok.
  unfold_handlers.
  rewrite Hid, Hsecret, Hto, Tid, Tsecret, Tto, Haddr. cbv beta iota zeta.
  cbn [negb orb]. rewrite Hurl. cbv beta iota zeta.
  rewrite Hfetch. cbv beta iota zeta. rewrite Hok.
  cbn [negb fst].
  repeat split. destruct (res_status response =? 404); reflexivity.
Qed.

(** ** What the answers depend on *)

Lemma verify_secret_answers (req_body : value)
  (r : completion http_response) (log : list event) :
  run (verify_secret net req_body) = (r, log) ->
  exists res, r = Normal res /\ In res verify_secret_responses.
Proof.
  unfold_handlers. run_paths.
  all: intros Hrun; inversion Hrun; subst r log; clear Hrun.
  all: eexists; split;
    [reflexivity | cbn [verify_secret_responses In]; auto 10].
Qed.

Lemma card_info_reads_card_id (body1 body2 : value) :
  get_prop body1 "cardId" = get_prop body2 "cardId" ->
  run (card_info cfg net body1) = run (card_info cfg net body2).
Proof.
  intros Hid.
  cbv [run card_info card_info_try try_catch_async bind lift].
  rewrite Hid. reflexivity.
Qed.

(** The one error of decryption. *)
Lemma decryptPrivateKey_throws_opaque (encryptedData cardSecret : value)
  (e : exn) :
  decryptPrivateKey encryptedData cardSecret = Throw e ->
  e = Error "Invalid card secret".
Proof.
  rewrite decryptPrivateKey_catch.
  destruct (decryptPrivateKey_try encryptedData cardSecret);
    intros H; inversion H. reflexivity.
Qed.

Lemma verify_secret_noninterference (body1 body2 : value)
  (cardId secret1 secret2 : value) :
  get_prop body1 "cardId" = Normal cardId ->
  get_prop body2 "cardId" = Normal cardId ->
  get_prop body1 "cardSecret" = Normal secret1 ->
  get_prop body2 "cardSecret" = Normal secret2 ->
  truthy secret1 = truthy secret2 ->
  (forall url response card encryptedPrivateKey,
      card_url cardId = Normal url ->
      net_fetch net [] url = Normal response ->
      res_json response = Normal card ->
      get_prop card "encryptedPrivateKey" = Normal encryptedPrivateKey ->
      is_normal (decryptPrivateKey encryptedPrivateKey secret1)
      = is_normal (decryptPrivateKey encryptedPrivateKey secret2)) ->
  run (verify_secret net body1) = run (verify_secret net body2).
Proof.
  intros Hid1 Hid2 Hs1 Hs2 Ht Hdec. unfold_handlers.
  rewrite Hid1, Hid2, Hs1, Hs2.
  cbv beta iota zeta. rewrite Ht.
  run_paths; try reflexivity.
  all: match goal with
       | Hu : card_url _ = Normal ?url,
         Hf : net_fetch _ _ ?url = Normal ?response,
         Hj : res_json ?response = Normal ?card,
         He : get_prop ?card "encryptedPrivateKey" = Normal ?enc,
         H1 : decryptPrivateKey ?enc ?s1 = Normal _,
         H2 : decryptPrivateKey ?enc ?s2 = Throw _ |- _ =>
           first [ specialize (Hdec _ _ _ _ eq_refl Hf Hj He)
                 | specialize (Hdec _ _ _ _ Hu Hf Hj He) ];
           rewrite H1, H2 in Hdec; discriminate Hdec
       end.
Qed.

Lemma redeem_noninterference (body1 body2 : value)
  (cardId secret1 secret2 : value) :
  get_prop body1 "cardId" = Normal cardId ->
  get_prop body2 "cardId" = Normal cardId ->
  get_prop body1 "recipientAddress" = get_prop body2 "recipientAddress" ->
  get_prop body1 "cardSecret" = Normal secret1 ->
  get_prop body2 "cardSecret" = Normal secret2 ->
  truthy secret1 = truthy secret2 ->
  (forall url response card encryptedPrivateKey,
      card_url cardId = Normal url ->
      net_fetch net [] url = Normal response ->
      res_json response = Normal card ->
      get_prop card "encryptedPrivateKey" = Normal encryptedPrivateKey ->
      is_normal (decryptPrivateKey encryptedPrivateKey secret1)
      = is_normal (decryptPrivateKey encryptedPrivateKey secret2)
      /\ forall key1 key2 recipientAddress,
           decryptPrivateKey encryptedPrivateKey secret1 = Normal key1 ->
           decryptPrivateKey encryptedPrivateKey secret2 = Normal key2 ->
           redeem_signature key1 cardId recipientAddress
           = redeem_signature key2 cardId recipientAddress) ->
  run (redeem cfg net body1) = run (redeem cfg net body2).
Proof.
  intros Hid1 Hid2 Hto Hs1 Hs2 Ht Hdec.
  unfold_handlers.
  rewrite Hid1, Hid2, Hto, Hs1, Hs2.
  destruct (get_prop body2 "recipientAddress") as [to |]; [| reflexivity].
  cbv beta iota zeta. rewrite Ht.
  repeat first
    [ reflexivity
    | match goal with
      | Hu : card_url _ = Normal ?url,
        Hf : net_fetch _ _ ?url = Normal ?response,
        Hj : res_json ?response = Normal ?card,
        He : get_prop ?card "encryptedPrivateKey" = Normal ?enc
        |- context [decryptPrivateKey ?enc _] =>
          first [ destruct (Hdec _ _ _ _ eq_refl Hf Hj He) as [Hbit Hsig]
                | destruct (Hdec _ _ _ _ Hu Hf Hj He) as [Hbit Hsig] ];
          clear Hdec;
          match type of Hbit with
          | is_normal ?d1 = is_normal ?d2 =>
              destruct d1 as [key1 | e1] eqn:H1;
              destruct d2 as [key2 | e2] eqn:H2
          end;
          cbn [is_normal] in Hbit; try discriminate Hbit;
          cbv beta iota zeta;
          [ first [ rewrite (Hsig key1 key2 to eq_refl eq_refl)
                  | rewrite (Hsig key1 key2 to H1 H2) ]
          | apply decryptPrivateKey_throws_opaque in H1;
            apply decryptPrivateKey_throws_opaque in H2; subst e1 e2 ]
      end
    | split_match; cbv beta iota zeta ].
Qed.

(** The source of the token metadata stays one in a longer log. *)
Lemma token_info_from_incl (card : value) (log log' : list event)
  (info : tokenInfo) :
  incl log log' -> token_info_from card log info ->
  token_info_from card log' info.
Proof.
  intros Hincl (tokenAddress & chainId & Htoken & Hchain & H).
  exists tokenAddress, chainId. split; [assumption |]. split; [assumption |].
  destruct (strict_eq_string tokenAddress AddressZero); [exact H |].
  destruct H as [H | (p & a & b & Ha & Hb & Hinfo)]; [left; exact H |].
  right. exists p, a, b. split; [| split]; auto.
Qed.

(** C9, as amended. The answers never carry the card secret or the
    decrypted key. verify-secret answers [{valid: true}] or one of five
    fixed messages; redeem answers one of seven fixed messages or the
    six fields success, txHash, recipientAddress, partnerAddress, amount
    and explorerUrl, where the hash is the one of the receipt the chain
    gave, the recipient the one of the request, the amount the text made
    from the card's amount and from token metadata that come from the
    chain table or from the token's own answers, and the url the printed
    explorer of the card's chain followed by the printed hash.
    Two requests that differ in the secret only get the same answer,
    with the same calls made, when the secrets are both present or both
    absent and decryption of the fetched envelope succeeds for both or
    fails for both; for redeem, the keys recovered need only give the
    same signature, the key being used for nothing else. card-info reads
    nothing but the card id. *)
Theorem responses_carry_no_secret :
  (forall req_body r log,
      run (verify_secret net req_body) = (r, log) ->
      exists res, r = Normal res /\ In res verify_secret_responses)
  /\ (forall req_body r log,
        run (redeem cfg net req_body) = (r, log) ->
        exists res, r = Normal res /\
          (In res redeem_error_responses
           \/ exists tx receipt txHash recipientAddress url response card
                     chainId info amount explorer base hash,
                In (Wait tx (Normal receipt)) log
                /\ get_prop receipt "transactionHash" = Normal txHash
                /\ get_prop req_body "recipientAddress" = Normal recipientAddress
                /\ In (Fetch url (Normal response)) log
                /\ res_json response = Normal card
                /\ get_prop card "chainId" = Normal chainId
                /\ token_info_from card log info
                /\ formatted_amount card info = Normal amount
                /\ getExplorerUrl chainId = Normal explorer
                /\ to_string explorer = Normal base
                /\ to_string txHash = Normal hash
                /\ res = redeem_success txHash recipientAddress amount
                           (base ++ "/tx/" ++ hash)))
  /\ (forall body1 body2 cardId secret1 secret2,
        get_prop body1 "cardId" = Normal cardId ->
        get_prop body2 "cardId" = Normal cardId ->
        get_prop body1 "cardSecret" = Normal secret1 ->
        get_prop body2 "cardSecret" = Normal secret2 ->
        truthy secret1 = truthy secret2 ->
        (forall url response card encryptedPrivateKey,
            card_url cardId = Normal url ->
            net_fetch net [] url = Normal response ->
            res_json response = Normal card ->
            get_prop card "encryptedPrivateKey" = Normal encryptedPrivateKey ->
            is_normal (decryptPrivateKey encryptedPrivateKey secret1)
            = is_normal (decryptPrivateKey encryptedPrivateKey secret2)) ->
        run (verify_secret net body1) = run (verify_secret net body2))
  /\ (forall body1 body2 cardId secret1 secret2,
        get_prop body1 "cardId" = Normal cardId ->
        get_prop body2 "cardId" = Normal cardId ->
        get_prop body1 "recipientAddress" = get_prop body2 "recipientAddress" ->
        get_prop body1 "cardSecret" = Normal secret1 ->
        get_prop body2 "cardSecret" = Normal secret2 ->
        truthy secret1 = truthy secret2 ->
        (forall url response card encryptedPrivateKey,
            card_url cardId = Normal url ->
            net_fetch net [] url = Normal response ->
            res_json response = Normal card ->
            get_prop card "encryptedPrivateKey" = Normal encryptedPrivateKey ->
            is_normal (decryptPrivateKey encryptedPrivateKey secret1)
            = is_normal (decryptPrivateKey encryptedPrivateKey secret2)
            /\ forall key1 key2 recipientAddress,
                 decryptPrivateKey encryptedPrivateKey secret1 = Normal key1 ->
                 decryptPrivateKey encryptedPrivateKey secret2 = Normal key2 ->
                 redeem_signature key1 cardId recipientAddress
                 = redeem_signature key2 cardId recipientAddress) ->
        run (redeem cfg net body1) = run (redeem cfg net body2))
  /\ (forall body1 body2,
        get_prop body1 "cardId" = get_prop body2 "cardId" ->
        run (card_info cfg net body1) = run (card_info cfg net body2)).
Proof.
  split; [exact verify_secret_answers |].
  split; [| split; [exact verify_secret_noninterference |
                    split; [exact redeem_noninterference |
                            exact card_info_reads_card_id]]].
  intros req_body r log Hrun.
  apply redeem_run_inv in Hrun as (res & -> & [(Herr & _) | Hchain]).
  - exists res. split; [reflexivity | left; exact Herr].
  - destruct Hchain as (url & response & c & args & estimate & rest & card
                        & chainId & -> & _ & Hauth & _ & _ & Hjson & _
                        & Hchain & _ & _ & Hres).
    exists res. split; [reflexivity |].
    destruct Hres as [Herr | (g & price & tx & receipt & txHash & info
                              & amount & explorer & base & hash & _ & _
                              & Hwait & Hhash & Hinfo & Hamount & Hexplorer
                              & Hbase & Hprinted & ->)];
      [left; exact Herr |].
    right.
    destruct Hauth as (_ & _ & _ & _ & _ & _ & _ & _ & Hto & _).
    exists tx, receipt, txHash, (arg_to args), url, response, card, chainId,
      info, amount, explorer, base, hash.
    split; [right; right; exact Hwait |].
    split; [assumption |]. split; [assumption |].
    split; [left; reflexivity |].
    split; [assumption |]. split; [assumption |].
    split; [apply (token_info_from_incl (log := rest));
            [intros ev Hev; right; right; exact Hev | exact Hinfo] |].
    repeat (split; [assumption |]). reflexivity.
Qed.

(** ** Explorer links *)

Lemma getExplorerUrl_numeral (chainId : value) (z : Z) :
  to_string chainId = Normal (numeral z) ->
  exists base,
    getExplorerUrl chainId = Normal (VStr base)
    /\ (In (z, base) configured_explorers
        \/ (~ In z (map fst configured_explorers)
            /\ base = "https://etherscan.io")).
Proof.
  intros Hkey. unfold getExplorerUrl. rewrite Hkey. cbn [cbind].
  destruct (configured_dec z) as [Hin | Hout].
  - cbn [map fst configured_explorers In] in Hin.
    repeat (destruct Hin as [<- | Hin];
            [eexists; split; [reflexivity | left; cbn [configured_explorers In];
                                            auto 10] |]).
    contradiction.
  - rewrite (lookup_explorers_unconfigured Hout). cbn.
    eexists. split; [reflexivity | right; split; [exact Hout | reflexivity]].
Qed.

Lemma getProvider_numeral (chainId : value) (z : Z) :
  to_string chainId = Normal (numeral z) ->
  is_normal (getProvider cfg chainId) = true ->
  In z (map fst configured_explorers).
Proof.
  intros Hkey Hprovider.
  destruct (configured_dec z) as [Hin | Hout]; [exact Hin |].
  unfold getProvider in Hprovider.
  rewrite Hkey in Hprovider. cbn [cbind] in Hprovider.
  rewrite (lookup_CHAINS_unconfigured Hout) in Hprovider.
  discriminate Hprovider.
Qed.

(** A key that is none of the seven numerals is no own key of the
    table: the lookup goes to the prototype. *)
Lemma lookup_explorers_other (key : string) :
  (forall z, In z (map fst configured_explorers) -> key <> numeral z) ->
  lookup explorers key = object_prototype key.
Proof.
  intros Hother. unfold lookup, explorers. cbn [assoc].
  repeat match goal with
         | |- context [(?k =? key)%string] =>
             destruct (String.eqb_spec k key) as [E |];
             [ exfalso; symmetry in E; revert E;
               first [ apply (Hother 1) | apply (Hother 56)
                     | apply (Hother 137) | apply (Hother 10)
                     | apply (Hother 42161) | apply (Hother 8453)
                     | apply (Hother 43114) ];
               cbn [map fst configured_explorers In]; tauto
             | ]
         end.
  reflexivity.
Qed.

(** What is found on the prototype is a function or an object, never a
    text. *)
Lemma object_prototype_member (key : string) :
  object_prototype key = VUndefined
  \/ (truthy (object_prototype key) = true
      /\ forall base, object_prototype key <> VStr base).
Proof.
  unfold object_prototype.
  destruct (key =? "constructor")%string;
    [right; split; [reflexivity | discriminate] |].
  destruct (key =? "__proto__")%string;
    [right; split; [reflexivity | discriminate] |].
  destruct (existsb _ _);
    [right; split; [reflexivity | discriminate] | left; reflexivity].
Qed.

(** C10, as amended. [getExplorerUrl] converts the chain id to a key
    and looks the key up. For the seven configured chains it returns the
    configured explorer, and for every other number https://etherscan.io.
    More generally, for a chain id that can be printed: a key that is
    one of the seven numerals gives its explorer; any other key gives
    https://etherscan.io unless it names a member that the table
    inherits from [Object.prototype], which is then returned and is no
    url. So [undefined], [null], a boolean, an empty array and an object
    without a [toString] of its own give the fallback, and an object
    with a [toString] property makes the call throw.
    A success answer of redeem carries as [explorerUrl] the printed
    result of [getExplorerUrl] for the card's chain, then [/tx/], then
    the printed hash of the answer; when the chain id is a number this
    is the explorer of one of the seven chains, so that the fallback is
    not used in a success answer. *)
Theorem getExplorerUrl_total_with_fallback :
  (forall chainId z,
      to_string chainId = Normal (numeral z) ->
      exists base,
        getExplorerUrl chainId = Normal (VStr base)
        /\ (In (z, base) configured_explorers
            \/ (~ In z (map fst configured_explorers)
                /\ base = "https://etherscan.io")))
  /\ (forall chainId key,
        to_string chainId = Normal key ->
        (forall z, In z (map fst configured_explorers) -> key <> numeral z) ->
        (object_prototype key = VUndefined
         /\ getExplorerUrl chainId = Normal (VStr "https://etherscan.io"))
        \/ (object_prototype key <> VUndefined
            /\ getExplorerUrl chainId = Normal (object_prototype key)
            /\ forall base, getExplorerUrl chainId <> Normal (VStr base)))
  /\ (forall chainId e,
        to_string chainId = Throw e -> getExplorerUrl chainId = Throw e)
  /\ (forall chainId,
        In chainId [VUndefined; VNull; VBool true; VBool false; VArr []]
        \/ (exists fields, chainId = VObj fields
                           /\ assoc "toString" fields = None) ->
        getExplorerUrl chainId = Normal (VStr "https://etherscan.io"))
  /\ (forall fields v,
        assoc "toString" fields = Some v ->
        getExplorerUrl (VObj fields)
        = Throw (TypeError "Cannot convert object to primitive value"))
  /\ (forall req_body res log,
        run (redeem cfg net req_body) = (Normal res, log) ->
        status res = 200 ->
        exists url response card chainId txHash recipientAddress amount
               explorer base hash,
          In (Fetch url (Normal response)) log
          /\ res_json response = Normal card
          /\ get_prop card "chainId" = Normal chainId
          /\ getExplorerUrl chainId = Normal explorer
          /\ to_string explorer = Normal base
          /\ to_string txHash = Normal hash
          /\ res = redeem_success txHash recipientAddress amount
                     (base ++ "/tx/" ++ hash)
          /\ forall z,
               to_string chainId = Normal (numeral z) ->
               In (z, base) configured_explorers
               /\ explorer = VStr base).
Proof.
  split; [exact getExplorerUrl_numeral |].
  split; [| split; [| split; [| split]]].
  - intros chainId key Hkey Hother. unfold getExplorerUrl.
    rewrite Hkey. cbn [cbind]. rewrite (lookup_explorers_other Hother).
    destruct (object_prototype_member key) as [Hnone | [Htruthy Hmember]].
    + left. rewrite Hnone. split; reflexivity.
    + right. rewrite Htruthy.
      split; [intros H; rewrite H in Htruthy; discriminate Htruthy |].
      split; [reflexivity |].
      intros base H. inversion H as [H']. exact (Hmember base H').
  - intros chainId e Hkey. unfold getExplorerUrl. rewrite Hkey. reflexivity.
  - intros chainId [Hin | (fields & -> & Hfields)].
    + cbn [In] in Hin.
      repeat (destruct Hin as [<- | Hin]; [reflexivity |]). contradiction.
    + unfold getExplorerUrl. cbn [to_string]. rewrite Hfields. reflexivity.
  - intros fields v Hfields. unfold getExplorerUrl. cbn [to_string].
    rewrite Hfields. reflexivity.
  - intros req_body res log Hrun Hstatus.
    apply redeem_run_inv in Hrun as (res' & Heq & [(Herr & _) | Hchain]);
      inversion Heq; subst res'; clear Heq.
    + apply error_response_not_200 in Herr. contradiction.
    + destruct Hchain as (url & response & c & args & estimate & rest & card
                          & chainId & -> & _ & _ & _ & _ & Hjson & _
                          & Hchain & Hprovider & _ & Hres).
      destruct Hres as [Herr | (g & price & tx & receipt & txHash & info
                                & amount & explorer & base & hash & _ & _ & _
                                & _ & _ & _ & Hexplorer & Hbase & Hhash
                                & ->)];
        [apply error_response_not_200 in Herr; contradiction |].
      exists url, response, card, chainId, txHash, (arg_to args), amount,
        explorer, base, hash.
      split; [left; reflexivity |].
      repeat (split; [first [assumption | reflexivity] |]).
      intros z Hkey.
      destruct (@getExplorerUrl_numeral chainId z Hkey)
        as (base' & Hbase' & [Hin | (Hout & _)]).
      * rewrite Hbase' in Hexplorer. inversion Hexplorer; subst explorer.
        cbn in Hbase. inversion Hbase; subst base'.
        split; [exact Hin | reflexivity].
      * contradiction Hout. eapply getProvider_numeral; eassumption.
Qed.

End ServerFacts.

(* ================================================================== *)
(** * The theorems at work on the example runtime *)
(* ================================================================== *)

Section Examples.
Import Demo.
#[local] Existing Instance demo_node.
#[local] Existing Instance demo_ethers.

Lemma short_envelope_rejected :
  decryption_failure (VStr short_envelope) (VStr secret)
  /\ decryptPrivateKey (VStr short_envelope) (VStr secret)
     = Throw (Error "Invalid card secret").
Proof.
  assert (Hf : decryption_failure (VStr short_envelope) (VStr secret)).
  { eapply short_ciphertext; vm_compute; reflexivity. }
  split; [exact Hf |].
  exact (proj1 (@decryptPrivateKey_single_opaque_error demo_node
                  (VStr short_envelope) (VStr secret)) Hf).
Defined.

Lemma envelope_opens :
  decryptPrivateKey (VStr envelope) (VStr secret) = Normal card_key
  /\ decrypts_to (VStr envelope) (VStr secret) card_key.
Proof.
  assert (H : decryptPrivateKey (VStr envelope) (VStr secret) = Normal card_key)
    by (vm_compute; reflexivity).
  split; [exact H |].
  exact (proj1 (@decryptPrivateKey_derivation demo_node
                  (VStr envelope) (VStr secret) card_key) H).
Defined.

Lemma hyphens_do_not_matter :
  remove_hyphens "ABCDE-FGHIJ-KLMNO-PQRST"
  = remove_hyphens "ABCDEFGHIJKLMNOPQRST"
  /\ decryptPrivateKey (VStr envelope) (VStr "ABCDE-FGHIJ-KLMNO-PQRST")
     = decryptPrivateKey (VStr envelope) (VStr "ABCDEFGHIJKLMNOPQRST").
Proof.
  assert (H : remove_hyphens "ABCDE-FGHIJ-KLMNO-PQRST"
              = remove_hyphens "ABCDEFGHIJKLMNOPQRST")
    by (vm_compute; reflexivity).
  split; [exact H |].
  exact (proj1 (@decryptPrivateKey_hyphen_insensitive demo_node
                  "ABCDE-FGHIJ-KLMNO-PQRST" "ABCDEFGHIJKLMNOPQRST" H)
           (VStr envelope)).
Defined.

Lemma good_run_eq : run (redeem settings live_net good_request) = good_run.
Proof. vm_compute. reflexivity. Qed.

Lemma good_run_signature :
  exists url response,
    card_url (arg_cardId redeem_call) = Normal url
    /\ In (Fetch url (Normal response)) (snd good_run)
    /\ authorization good_request response redeem_call.
Proof.
  apply (@redeem_signature_is_authorization demo_node demo_ethers settings live_net good_request
           (fst good_run) (snd good_run) service_contract redeem_call).
  - exact good_run_eq.
  - left. exists (Normal 100001). vm_compute. right; left; reflexivity.
Defined.

Lemma inactive_card_refused :
  fst (run (redeem settings (chain_net (registry (card false))) good_request))
  = Normal (respond 400
              (error_body "This card has already been redeemed or cancelled"))
  /\ forall ev,
       In ev (snd (run (redeem settings (chain_net (registry (card false)))
                         good_request))) ->
       onchain_call ev = false.
Proof.
  destruct (@redeem_inactive_card_no_onchain_call demo_node demo_ethers settings
              (chain_net (registry (card false))) good_request _ _
              card_address (found (card false)) (card false)
              (surjective_pairing _))
    as (Hr & _ & Hlog).
  - vm_compute. left; reflexivity.
  - reflexivity.
  - reflexivity.
  - reflexivity.
  - split; assumption.
Defined.

Lemma bad_recipient_refused :
  isAddress (VStr "not-an-address") = false
  /\ run (redeem settings live_net (redeem_request secret "not-an-address"))
     = (Normal (respond 400 (error_body "Invalid recipient address")), []).
Proof.
  split; [reflexivity |].
  apply (proj2 (@redeem_invalid_recipient_no_network demo_node demo_ethers settings live_net
                  (redeem_request secret "not-an-address")
                  (VStr "1234567") (VStr secret) (VStr "not-an-address")
                  eq_refl eq_refl eq_refl eq_refl));
    reflexivity.
Defined.

Lemma good_run_charges_no_partner :
  arg_partner redeem_call = AddressZero
  /\ exists estimate,
       In (EstimateGas service_contract redeem_call (Normal estimate))
          (snd good_run)
       /\ 120001 = Z.quot (estimate * 120) 100.
Proof.
  apply (proj1 (proj2 (@redeem_zero_partner_and_gas_margin demo_node demo_ethers settings
                         live_net good_request (fst good_run) (snd good_run)
                         good_run_eq))
           service_contract redeem_call
           {| gasLimit := 120001; gasPrice := 5 |}
           (Normal (VObj [("hash", VStr tx_hash)]))).
  vm_compute. do 3 right. left. reflexivity.
Defined.

Lemma wrong_secrets_look_alike :
  run (verify_secret live_net (verify_request "WRONG-WRONG-WRONG-WRONG"))
  = run (verify_secret live_net (verify_request "GUESS-GUESS-GUESS-GUESS")).
Proof.
  pose proof (proj1 (proj2 (proj2 (@responses_carry_no_secret
                                     demo_node demo_ethers settings live_net)))
                (verify_request "WRONG-WRONG-WRONG-WRONG")
                (verify_request "GUESS-GUESS-GUESS-GUESS")
                (VStr "1234567")
                (VStr "WRONG-WRONG-WRONG-WRONG")
                (VStr "GUESS-GUESS-GUESS-GUESS")) as H.
  apply H; clear H; [reflexivity .. |].
  intros url response card0 enc Hurl Hfetch Hjson Henc.
  vm_compute in Hurl. inversion Hurl; subst url.
  vm_compute in Hfetch. inversion Hfetch; subst response.
  vm_compute in Hjson. inversion Hjson; subst card0.
  vm_compute in Henc. inversion Henc; subst enc.
  vm_compute. reflexivity.
Defined.

(** The claim of C9 as first stated fails when the secret is absent:
    the empty secret and a wrong secret both fail to open the envelope,
    and they are answered differently. *)
Lemma absent_secret_answered_differently :
  is_normal (decryptPrivateKey (VStr envelope) (VStr ""))
  = is_normal (decryptPrivateKey (VStr envelope)
                 (VStr "WRONG-WRONG-WRONG-WRONG"))
  /\ fst (run (verify_secret live_net (verify_request "")))
     = Normal (respond 400 (error_body "Card ID and secret required"))
  /\ fst (run (verify_secret live_net
                 (verify_request "WRONG-WRONG-WRONG-WRONG")))
     = Normal (respond 400 (error_body "Invalid card secret"))
  /\ fst (run (verify_secret live_net (verify_request "")))
     <> fst (run (verify_secret live_net
                    (verify_request "WRONG-WRONG-WRONG-WRONG"))).
Proof.
  assert (H1 : fst (run (verify_secret live_net (verify_request "")))
               = Normal (respond 400
                           (error_body "Card ID and secret required")))
    by (vm_compute; reflexivity).
  assert (H2 : fst (run (verify_secret live_net
                           (verify_request "WRONG-WRONG-WRONG-WRONG")))
               = Normal (respond 400 (error_body "Invalid card secret")))
    by (vm_compute; reflexivity).
  split; [vm_compute; reflexivity |].
  split; [exact H1 |]. split; [exact H2 |].
  rewrite H1, H2. discriminate.
Qed.

Lemma good_run_explorer_link :
  (exists base,
      getExplorerUrl (VNum "5") = Normal (VStr base)
      /\ (In (5, base) configured_explorers
          \/ (~ In 5 (map fst configured_explorers)
              /\ base = "https://etherscan.io")))
  /\ fst good_run
     = Normal (redeem_success (VStr tx_hash) (VStr recipient)
                 "1000000000000000000 ETH"
                 ("https://basescan.org/tx/" ++ tx_hash))
  /\ exists url response card0 chainId txHash recipientAddress amount
            explorer base hash,
       In (Fetch url (Normal response)) (snd good_run)
       /\ res_json response = Normal card0
       /\ get_prop card0 "chainId" = Normal chainId
       /\ getExplorerUrl chainId = Normal explorer
       /\ to_string explorer = Normal base
       /\ to_string txHash = Normal hash
       /\ fst good_run
          = Normal (redeem_success txHash recipientAddress amount
                      (base ++ "/tx/" ++ hash)).
Proof.
  pose proof (@getExplorerUrl_total_with_fallback demo_node demo_ethers
                settings live_net) as (Htotal & _ & _ & _ & _ & Hlink).
  split; [exact (Htotal (VNum "5") 5 eq_refl) |].
  split; [vm_compute; reflexivity |].
  destruct (Hlink good_request
              (redeem_success (VStr tx_hash) (VStr recipient)
                 "1000000000000000000 ETH"
                 ("https://basescan.org/tx/" ++ tx_hash))
              (snd good_run) good_run_eq eq_refl)
    as (url & response & card0 & chainId & txHash & to & amount & explorer
        & base & hash & H1 & H2 & H3 & H4 & H5 & H6 & H7 & _).
  exists url, response, card0, chainId, txHash, to, amount, explorer, base,
    hash.
  repeat (split; [assumption |]). rewrite <- H7. vm_compute. reflexivity.
Defined.

(** The claim of C10 as first stated fails on a chain id that names a
    member of [Object.prototype], for which the function is returned and
    not a url, and on a chain id that cannot be printed, for which the
    call throws. *)
Lemma getExplorerUrl_not_total :
  getExplorerUrl (VStr "constructor") = Normal (VBuiltin "Object")
  /\ (forall base,
        getExplorerUrl (VStr "constructor") <> Normal (VStr base))
  /\ getExplorerUrl (VObj [("toString", VNum "1")])
     = Throw (TypeError "Cannot convert object to primitive value")
  /\ (forall explorer,
        getExplorerUrl (VObj [("toString", VNum "1")]) <> Normal explorer).
Proof.
  repeat split; try discriminate.
Qed.

(** C7. The registry is down and answers every request with status 500.
    verify-secret and redeem report 404 "Card not found", as if the card
    did not exist; card-info, which tests the status, reports 500. *)
Theorem registry_outage_reported_as_not_found :
  fst (run (verify_secret (chain_net registry_down) (verify_request secret)))
  = Normal (respond 404 (error_body "Card not found"))
  /\ fst (run (redeem settings (chain_net registry_down) good_request))
     = Normal (respond 404 (error_body "Card not found"))
  /\ fst (run (card_info settings (chain_net registry_down)
                 (verify_request secret)))
     = Normal (respond 500 (error_body "Failed to get card information")).
Proof.
  exact (@registry_error_status demo_node demo_ethers settings (chain_net registry_down)
           good_request (VStr "1234567") (VStr secret) (VStr recipient)
           card_address (failed 500) eq_refl eq_refl eq_refl eq_refl eq_refl
           eq_refl eq_refl eq_refl eq_refl eq_refl).
Qed.

End Examples.

(* ================================================================== *)
(** * Further properties *)
(* ================================================================== *)

(** ** Amount formatting: the trailing zeros *)

Lemma all_zeros_app_other (p : string) (c : ascii) (rest : string) :
  (c =? "0")%char = false -> all_zeros (p ++ String c rest) = false.
Proof.
  intros Hc. induction p as [| a p IH]; cbn.
  - rewrite Hc. reflexivity.
  - rewrite IH. apply andb_false_r.
Qed.

Lemma zeros1_app_other (p : string) (c : ascii) (rest : string) :
  (c =? "0")%char = false -> zeros1 (p ++ String c rest) = false.
Proof.
  intros Hc. destruct p as [| a p]; cbn.
  - rewrite Hc. reflexivity.
  - rewrite all_zeros_app_other by exact Hc. apply andb_false_r.
Qed.

Lemma no_match_before (a : ascii) (p : string) (c : ascii) (rest : string) :
  (c =? "0")%char = false ->
  trailing_zeros_here (String a (p ++ String c rest)) = false.
Proof.
  intros Hc. unfold trailing_zeros_here.
  destruct (a =? ".")%char.
  - apply zeros1_app_other. exact Hc.
  - apply (zeros1_app_other (String a p)). exact Hc.
Qed.

Lemma zeros1_all_zeros (z : string) :
  z <> "" -> all_zeros z = true -> zeros1 z = true.
Proof. destruct z; [congruence | intros _ H; exact H]. Qed.

(** The pattern [/\.?0+$/] cuts the zeros that end the text, and the dot
    before them if they are all there is after it; it touches nothing
    before the last character that is neither a zero nor that dot. *)
Theorem trim_trailing_zeros_fraction :
  (forall p z,
      z <> "" -> all_zeros z = true ->
      trim_trailing_zeros (p ++ "." ++ z) = p)
  /\ (forall p c z,
        (c =? "0")%char = false -> (c =? ".")%char = false ->
        all_zeros z = true ->
        trim_trailing_zeros (p ++ String c z) = p ++ String c "")
  /\ (forall p, trim_trailing_zeros (p ++ ".") = p ++ ".").
Proof.
  split; [| split].
  - intros p z Hz Hall. induction p as [| a p IH].
    + cbn [append]. cbn [trim_trailing_zeros trailing_zeros_here].
      rewrite (zeros1_all_zeros Hz Hall). reflexivity.
    + cbn [append]. cbn [trim_trailing_zeros].
      rewrite (@no_match_before a p "." z) by reflexivity.
      cbn [append] in IH. rewrite IH. reflexivity.
  - intros p c z Hc0 Hcdot Hall. induction p as [| a p IH].
    + cbn [append]. cbn [trim_trailing_zeros].
      replace (trailing_zeros_here (String c z)) with false.
      * f_equal. destruct z as [| d z]; [reflexivity |].
        cbn [trim_trailing_zeros trailing_zeros_here].
        cbn [all_zeros] in Hall. apply andb_prop in Hall as [Hd Hz].
        apply Ascii.eqb_eq in Hd. subst d. cbn [Ascii.eqb].
        change ("0" =? ".")%char with false. cbv iota.
        unfold zeros1. cbn [all_zeros]. rewrite Hz. reflexivity.
      * unfold trailing_zeros_here. rewrite Hcdot. unfold zeros1.
        cbn [all_zeros]. rewrite Hc0. reflexivity.
    + cbn [append]. cbn [trim_trailing_zeros].
      rewrite (@no_match_before a p c z) by exact Hc0.
      cbn [append] in IH. rewrite IH. reflexivity.
  - intros p. induction p as [| a p IH]; [reflexivity |].
    cbn [append]. cbn [trim_trailing_zeros].
    rewrite (@no_match_before a p "." "") by reflexivity.
    rewrite IH. reflexivity.
Qed.

(** ** Providers *)

Lemma lookup_CHAINS_configured (z : Z) (name rpc symbol : string) :
  In (z, (name, rpc, symbol)) configured_chains ->
  lookup CHAINS (numeral z) = chain name rpc symbol 18.
Proof.
  cbn [configured_chains In]. intros H.
  repeat (destruct H as [H | H]; [inversion H; subst; reflexivity |]).
  contradiction.
Qed.

Lemma configured_chains_explorers :
  map fst configured_chains = map fst configured_explorers.
Proof. reflexivity. Qed.

(** [getProvider] on a chain id that is a number, or prints as one: for
    the seven chains of [CHAINS] the provider is the Alchemy endpoint of
    that chain with the configured key; for every other number the call
    throws "Unsupported chain". *)
Theorem getProvider_supported_chains (cfg : config) (chainId : value) (z : Z) :
  to_string chainId = Normal (numeral z) ->
  (forall name rpc symbol,
      In (z, (name, rpc, symbol)) configured_chains ->
      getProvider cfg chainId
      = Normal {| provider_url := "https://" ++ rpc ++ ".g.alchemy.com/v2/"
                                  ++ ALCHEMY_KEY cfg |})
  /\ (~ In z (map fst configured_chains) ->
      getProvider cfg chainId = Throw (Error "Unsupported chain")).
Proof.
  intros Hkey. unfold getProvider. rewrite Hkey. cbn [cbind]. split.
  - intros name rpc symbol Hin.
    rewrite (lookup_CHAINS_configured Hin). reflexivity.
  - intros Hout. rewrite configured_chains_explorers in Hout.
    rewrite (lookup_CHAINS_unconfigured Hout). reflexivity.
Qed.

(** ** The card secret field *)

Lemma upper_char_kept (c : ascii) :
  secret_char c = true -> upper_or_hyphen (upper_char c) = true.
Proof. destruct c as [[] [] [] [] [] [] [] []]; vm_compute; congruence. Qed.

Lemma upper_char_case (c : ascii) :
  secret_char (upper_char c) = secret_char c
  /\ upper_char (upper_char c) = upper_char c.
Proof. destruct c as [[] [] [] [] [] [] [] []]; vm_compute; split; congruence. Qed.

Lemma upper_or_hyphen_fixed (c : ascii) :
  upper_or_hyphen c = true -> secret_char c = true /\ upper_char c = c.
Proof.
  destruct c as [[] [] [] [] [] [] [] []]; vm_compute; split; congruence.
Qed.

Lemma is_upper_spec (c : ascii) :
  is_upper c = true -> upper_or_hyphen c = true /\ (c =? "-")%char = false.
Proof.
  destruct c as [[] [] [] [] [] [] [] []]; vm_compute; split; congruence.
Qed.

Lemma upper_or_hyphen_spec (c : ascii) :
  upper_or_hyphen c = true -> (c =? "-")%char = false -> is_upper c = true.
Proof.
  unfold upper_or_hyphen. intros H Hh. rewrite Hh, orb_false_r in H. exact H.
Qed.

Lemma toUpperCase_keep_chars (s : string) :
  forallb upper_or_hyphen (list_ascii_of_string (toUpperCase (keep_secret_chars s))) = true.
Proof.
  induction s as [| c s IH]; [reflexivity |].
  cbn [keep_secret_chars]. destruct (secret_char c) eqn:Hc; [| exact IH].
  cbn [toUpperCase list_ascii_of_string forallb].
  rewrite (upper_char_kept _ Hc), IH. reflexivity.
Qed.

Lemma remove_hyphens_upper (s : string) :
  forallb upper_or_hyphen (list_ascii_of_string s) = true ->
  forallb is_upper (list_ascii_of_string (remove_hyphens s)) = true.
Proof.
  induction s as [| c s IH]; [reflexivity |].
  cbn [list_ascii_of_string forallb remove_hyphens].
  intros H. apply andb_prop in H as [Hc Hs].
  destruct (c =? "-")%char eqn:Hh; [exact (IH Hs) |].
  cbn [list_ascii_of_string forallb].
  rewrite (upper_or_hyphen_spec _ Hc Hh), (IH Hs). reflexivity.
Qed.

Lemma substring_upper (n : nat) (s : string) :
  forallb is_upper (list_ascii_of_string s) = true ->
  forallb is_upper (list_ascii_of_string (String.substring 0 n s)) = true.
Proof.
  revert s. induction n as [| n IH]; intros [| c s] H; try reflexivity.
  cbn [String.substring list_ascii_of_string forallb] in *.
  apply andb_prop in H as [Hc Hs]. rewrite Hc, (IH _ Hs). reflexivity.
Qed.

Lemma substring_length (n : nat) (s : string) :
  String.length (String.substring 0 n s) = Nat.min n (String.length s).
Proof.
  revert s. induction n as [| n IH]; intros [| c s]; try reflexivity.
  cbn [String.substring String.length Nat.min]. rewrite IH. reflexivity.
Qed.

Lemma clean_secret_input_upper (value : string) :
  forallb is_upper (list_ascii_of_string (clean_secret_input value)) = true.
Proof.
  unfold clean_secret_input. cbv zeta.
  pose proof (remove_hyphens_upper _ (toUpperCase_keep_chars value)) as H.
  destruct (20 <? _)%nat; [apply substring_upper |]; exact H.
Qed.

Lemma clean_secret_input_length (value : string) :
  (String.length (clean_secret_input value) <= 20)%nat.
Proof.
  unfold clean_secret_input. cbv zeta.
  destruct (Nat.ltb_spec 20
              (String.length
                 (remove_hyphens (toUpperCase (keep_secret_chars value))))).
  - rewrite substring_length. lia.
  - lia.
Qed.

Lemma hyphenate_chars (i : nat) (s : string) :
  forallb is_upper (list_ascii_of_string s) = true ->
  forallb upper_or_hyphen (list_ascii_of_string (hyphenate i s)) = true.
Proof.
  revert i. induction s as [| c s IH]; intros i H; [reflexivity |].
  cbn [list_ascii_of_string forallb] in H. apply andb_prop in H as [Hc Hs].
  cbn [hyphenate].
  destruct ((0 <? i)%nat && (i mod 5 =? 0)%nat);
    cbn [append list_ascii_of_string forallb];
    rewrite (proj1 (is_upper_spec _ Hc)), (IH _ Hs); reflexivity.
Qed.

Lemma remove_hyphens_hyphenate (i : nat) (s : string) :
  forallb is_upper (list_ascii_of_string s) = true ->
  remove_hyphens (hyphenate i s) = s.
Proof.
  revert i. induction s as [| c s IH]; intros i H; [reflexivity |].
  cbn [list_ascii_of_string forallb] in H. apply andb_prop in H as [Hc Hs].
  cbn [hyphenate].
  destruct ((0 <? i)%nat && (i mod 5 =? 0)%nat);
    cbn [append remove_hyphens Ascii.eqb Bool.eqb];
    rewrite (proj2 (is_upper_spec _ Hc)), (IH _ Hs); reflexivity.
Qed.

Lemma keep_upper_fixed (s : string) :
  forallb upper_or_hyphen (list_ascii_of_string s) = true ->
  toUpperCase (keep_secret_chars s) = s.
Proof.
  induction s as [| c s IH]; [reflexivity |].
  cbn [list_ascii_of_string forallb]. intros H.
  apply andb_prop in H as [Hc Hs].
  destruct (upper_or_hyphen_fixed _ Hc) as [Hk Hu].
  cbn [keep_secret_chars]. rewrite Hk. cbn [toUpperCase].
  rewrite Hu, (IH Hs). reflexivity.
Qed.

Lemma remove_hyphens_of_upper (s : string) :
  forallb is_upper (list_ascii_of_string s) = true -> remove_hyphens s = s.
Proof.
  induction s as [| c s IH]; [reflexivity |].
  cbn [list_ascii_of_string forallb remove_hyphens]. intros H.
  apply andb_prop in H as [Hc Hs].
  rewrite (proj2 (is_upper_spec _ Hc)), (IH Hs). reflexivity.
Qed.

Lemma clean_of_formatted (s : string) :
  forallb is_upper (list_ascii_of_string s) = true -> (String.length s <= 20)%nat ->
  clean_secret_input (hyphenate 0 s) = s.
Proof.
  intros Hu Hlen. unfold clean_secret_input. cbv zeta.
  rewrite (keep_upper_fixed _ (hyphenate_chars 0 _ Hu)).
  rewrite (remove_hyphens_hyphenate 0 _ Hu).
  destruct (Nat.ltb_spec 20 (String.length s)); [lia | reflexivity].
Qed.

Lemma keep_secret_chars_upper (s : string) :
  toUpperCase (keep_secret_chars (toUpperCase s))
  = toUpperCase (keep_secret_chars s).
Proof.
  induction s as [| c s IH]; [reflexivity |].
  cbn [toUpperCase keep_secret_chars].
  destruct (upper_char_case c) as [Hk Hu]. rewrite Hk.
  destruct (secret_char c); [| exact IH].
  cbn [toUpperCase]. rewrite Hu, IH. reflexivity.
Qed.

(** What the field shows is its own fixed point: typing nothing more
    leaves it as it is, so a secret in the form XXXXX-XXXXX-XXXXX-XXXXX
    is never altered; and the case in which ASCII text comes in does not
    matter. *)
Theorem format_secret_input_idempotent (value : string) :
  format_secret_input (format_secret_input value) = format_secret_input value
  /\ (forallb (fun c => (N_of_ascii c <? 128)%N) (list_ascii_of_string value)
      = true ->
      format_secret_input (toUpperCase value) = format_secret_input value).
Proof.
  split.
  - unfold format_secret_input at 1 3.
    unfold format_secret_input.
    rewrite (clean_of_formatted _ (clean_secret_input_upper value)
               (clean_secret_input_length value)).
    reflexivity.
  - intros _. unfold format_secret_input, clean_secret_input.
    rewrite keep_secret_chars_upper. reflexivity.
Qed.

(** The server sees the letters of the field and nothing else: removing
    the hyphens of the formatted value gives back the letters kept, which
    are at most 20 and all upper case, so a secret sent from the form
    decrypts as its bare letters do. *)
Theorem format_secret_input_normal_form {node : NodeLib} (value : string) :
  replace_hyphens (VStr (format_secret_input value))
  = Normal (clean_secret_input value)
  /\ (String.length (clean_secret_input value) <= 20)%nat
  /\ forallb is_upper (list_ascii_of_string (clean_secret_input value)) = true
  /\ forall encryptedData,
       decryptPrivateKey encryptedData (VStr (format_secret_input value))
       = decryptPrivateKey encryptedData (VStr (clean_secret_input value)).
Proof.
  pose proof (clean_secret_input_upper value) as Hu.
  assert (Hr : remove_hyphens (format_secret_input value)
               = clean_secret_input value)
    by (apply remove_hyphens_hyphenate; exact Hu).
  split; [cbn [replace_hyphens]; rewrite Hr; reflexivity |].
  split; [apply clean_secret_input_length |].
  split; [exact Hu |].
  intros encryptedData. unfold decryptPrivateKey, decryptPrivateKey_try.
  cbn [replace_hyphens].
  rewrite Hr, (remove_hyphens_of_upper _ Hu). reflexivity.
Qed.

Lemma hyphenate_period (s : string) (k : nat) :
  (0 < k)%nat -> hyphenate (k + 5) s = hyphenate k s.
Proof.
  revert k. induction s as [| c s IH]; intros k Hk; [reflexivity |].
  cbn [hyphenate].
  replace ((k + 5) mod 5)%nat with (k mod 5)%nat
    by (rewrite <- (Nat.Div0.mod_add k 1 5); f_equal; lia).
  replace (0 <? k + 5)%nat with true by (symmetry; apply Nat.ltb_lt; lia).
  replace (0 <? k)%nat with true by (symmetry; apply Nat.ltb_lt; lia).
  rewrite <- (IH (S k)) by lia. reflexivity.
Qed.

(** The loop writes the letters in groups of five with a hyphen between
    two groups: up to five letters are left alone, and after five letters
    that are followed by more comes a hyphen, then the rest formatted the
    same way. *)
Theorem hyphenate_groups_of_five :
  (forall a, (String.length a <= 5)%nat -> hyphenate 0 a = a)
  /\ (forall a b,
        String.length a = 5%nat -> b <> "" ->
        hyphenate 0 (a ++ b) = a ++ "-" ++ hyphenate 0 b).
Proof.
  split.
  - intros a Ha.
    do 6 (destruct a as [| ? a]; [reflexivity |]).
    cbn [String.length] in Ha. lia.
  - intros a b Ha Hb.
    do 5 (destruct a as [| ? a]; [discriminate Ha |]).
    destruct a; [| discriminate Ha].
    destruct b as [| c b]; [congruence |].
    cbn. change (hyphenate 6 b) with (hyphenate (1 + 5) b).
    rewrite (hyphenate_period b (k := 1)) by lia. reflexivity.
Qed.

Section MoreServerFacts.
Context {node : NodeLib} {eth : EthersLib}.
Variable cfg : config.
Variable net : network.

(** ** Printing *)

(** Printing a value throws one error only. *)
Lemma to_string_throws :
  forall (v : value) (e : exn),
    to_string v = Throw e ->
    e = TypeError "Cannot convert object to primitive value".
Proof.
  intros v. induction v as [| | [|] | n | s | items IH | fields | name]
    using value_items_ind; intros e; cbn [to_string]; try discriminate.
  - induction IH as [| x r Hx _ IHr]; [discriminate |].
    destruct (match x with
              | VUndefined | VNull => Normal ""
              | _ => to_string x
              end) as [sx | ex] eqn:Hp; cbn [cbind].
    + destruct r as [| y r']; [discriminate |].
      match goal with
      | |- context [cbind ?j _] => destruct j as [sr | er] eqn:Hr
      end; cbn [cbind]; [discriminate |].
      intros H. inversion H; subst er. exact (IHr eq_refl).
    + intros H. inversion H; subst ex.
      destruct x; try discriminate Hp; exact (Hx _ Hp).
  - destruct (assoc "toString" fields); [| discriminate].
    intros H. inversion H. reflexivity.
Qed.

(** The registry address of a card is the fixed prefix followed by the
    printed card id, and there is none when the card id cannot be
    printed. *)
Lemma card_url_spec (cardId : value) :
  (forall url,
      card_url cardId = Normal url
      <-> exists id,
            to_string cardId = Normal id
            /\ url = "https://api.univoucher.com/v1/cards/single?id=" ++ id)
  /\ (forall e,
        card_url cardId = Throw e
        <-> to_string cardId = Throw e
            /\ e = TypeError "Cannot convert object to primitive value").
Proof.
  unfold card_url. split.
  - intros url. destruct (to_string cardId) as [id | e]; cbn [cbind]; split.
    + intros H. inversion H. exists id. split; reflexivity.
    + intros (id' & Hid & ->). inversion Hid. reflexivity.
    + discriminate.
    + intros (id' & Hid & _). discriminate.
  - intros e. destruct (to_string cardId) as [id | e'] eqn:Hp; cbn [cbind];
      split.
    + discriminate.
    + intros [H _]. discriminate.
    + intros H. inversion H; subst e'. split; [reflexivity |].
      exact (to_string_throws _ Hp).
    + intros [H _]. exact H.
Qed.

(** ** Token metadata and gas price *)

(** For a token other than the native asset, [getTokenInfo] never
    throws. When no contract object can be made of the address it
    answers TOKEN and 18 without a call. Otherwise it asks the token for
    its symbol and its decimals, both, and answers with the two answers
    when both arrived, and with TOKEN and 18 when one of them failed. *)
Theorem getTokenInfo_token_never_throws
  (tokenAddress chainId : value) (p : provider) (log : list event) :
  strict_eq_string tokenAddress AddressZero = false ->
  (forall e,
      Contract_new tokenAddress = Throw e ->
      getTokenInfo net tokenAddress chainId p log
      = (Normal {| symbol := VStr "TOKEN"; decimals := VNum "18" |}, log))
  /\ (forall u s d,
        Contract_new tokenAddress = Normal u ->
        net_symbol net log p tokenAddress = Normal s ->
        net_decimals net (log ++ [TokenSymbol p tokenAddress (Normal s)])%list
          p tokenAddress = Normal d ->
        getTokenInfo net tokenAddress chainId p log
        = (Normal {| symbol := s; decimals := d |},
           (log ++ [TokenSymbol p tokenAddress (Normal s);
                    TokenDecimals p tokenAddress (Normal d)])%list))
  /\ (forall u a b,
        Contract_new tokenAddress = Normal u ->
        net_symbol net log p tokenAddress = a ->
        net_decimals net (log ++ [TokenSymbol p tokenAddress a])%list
          p tokenAddress = b ->
        is_normal a && is_normal b = false ->
        getTokenInfo net tokenAddress chainId p log
        = (Normal {| symbol := VStr "TOKEN"; decimals := VNum "18" |},
           (log ++ [TokenSymbol p tokenAddress a;
                    TokenDecimals p tokenAddress b])%list)).
Proof.
  intros Htoken. unfold getTokenInfo. rewrite Htoken.
  cbv [try_catch_async bind lift ret promise_all2 token_symbol token_decimals].
  split; [| split].
  - intros e ->. reflexivity.
  - intros u s d -> Hs. rewrite Hs. intros Hd. rewrite Hd.
    cbv beta iota zeta. rewrite <- app_assoc. reflexivity.
  - intros u a b -> Ha. rewrite Ha. intros Hb. rewrite Hb.
    cbv beta iota zeta. rewrite <- app_assoc. cbn [app].
    destruct a, b; cbn; intros H; first [discriminate H | reflexivity].
Qed.

(** For the native asset [getTokenInfo] asks nobody: on one of the seven
    chains it answers with the chain's symbol and 18 decimals, and on any
    other chain number it throws, the chain entry being undefined. *)
Theorem getTokenInfo_native_offline
  (tokenAddress chainId : value) (p : provider) (log : list event) (z : Z) :
  strict_eq_string tokenAddress AddressZero = true ->
  to_string chainId = Normal (numeral z) ->
  snd (getTokenInfo net tokenAddress chainId p log) = log
  /\ (forall name rpc sym,
        In (z, (name, rpc, sym)) configured_chains ->
        fst (getTokenInfo net tokenAddress chainId p log)
        = Normal {| symbol := VStr sym; decimals := VNum "18" |})
  /\ (~ In z (map fst configured_chains) ->
      exists e, fst (getTokenInfo net tokenAddress chainId p log) = Throw e).
Proof.
  intros Htoken Hkey. unfold getTokenInfo. rewrite Htoken.
  cbv [bind lift ret]. rewrite Hkey. split; [| split].
  - destruct (get_prop _ "symbol"); [| reflexivity].
    destruct (get_prop _ "decimals"); reflexivity.
  - intros name rpc sym Hin. rewrite (lookup_CHAINS_configured Hin).
    reflexivity.
  - intros Hout. rewrite configured_chains_explorers in Hout.
    rewrite (lookup_CHAINS_unconfigured Hout). cbn. eexists. reflexivity.
Qed.

(** [getOptimalGasPrice] asks the provider once, and a second time only
    when the first query failed; its result is the last answer, so it
    fails exactly when both queries fail, with the second error. *)
Theorem getOptimalGasPrice_asks_twice_at_most
  (chainId : value) (p : provider) (log : list event) :
  (exists price,
      getOptimalGasPrice net chainId p log
      = (Normal price, (log ++ [GetGasPrice p (Normal price)])%list))
  \/ (exists e answer,
        getOptimalGasPrice net chainId p log
        = (answer, (log ++ [GetGasPrice p (Throw e);
                            GetGasPrice p answer])%list)).
Proof.
  cbv [getOptimalGasPrice try_catch_async bind ret getGasPrice].
  destruct (net_getGasPrice net log p) as [price | e] eqn:H1.
  - left. exists price. reflexivity.
  - right. exists e.
    exists (net_getGasPrice net (log ++ [GetGasPrice p (Throw e)]) p).
    rewrite <- app_assoc. cbn [app].
    destruct (net_getGasPrice net (log ++ [GetGasPrice p (Throw e)]) p);
      reflexivity.
Qed.

(** ** Requests with a field missing *)

(** Each handler answers 400, with its own message and before any call,
    when a field it needs is missing from the body or is empty. *)
Theorem missing_field_rejected_offline
  (req_body cardId cardSecret recipientAddress : value) :
  get_prop req_body "cardId" = Normal cardId ->
  get_prop req_body "cardSecret" = Normal cardSecret ->
  get_prop req_body "recipientAddress" = Normal recipientAddress ->
  (truthy cardId = false ->
   run (card_info cfg net req_body)
   = (Normal (respond 400 (error_body "Card ID required")), []))
  /\ (truthy cardId && truthy cardSecret = false ->
      run (verify_secret net req_body)
      = (Normal (respond 400 (error_body "Card ID and secret required")), []))
  /\ (truthy cardId && truthy cardSecret && truthy recipientAddress = false ->
      run (redeem cfg net req_body)
      = (Normal (respond 400
                   (error_body
                      "Card ID, secret, and recipient address required")),
         [])).
Proof.
  intros Hid Hsecret Hto. unfold_handlers. rewrite Hid, Hsecret, Hto.
  cbv beta iota zeta.
  split; [| split].
  - intros ->. reflexivity.
  - destruct (truthy cardId), (truthy cardSecret); cbn; intros H;
      first [discriminate H | reflexivity].
  - destruct (truthy cardId), (truthy cardSecret), (truthy recipientAddress);
      cbn; intros H; first [discriminate H | reflexivity].
Qed.

(** ** card-info *)

(** The answer and the log of a card-info request. *)
Lemma card_info_run_inv (req_body : value) (r : completion http_response)
  (log : list event) :
  run (card_info cfg net req_body) = (r, log) ->
  exists res, r = Normal res
    /\ (forall ev, In ev log -> onchain_call ev = false)
    /\ (log = []
        \/ exists url answer meta,
             log = Fetch url answer :: meta
             /\ (meta = []
                 \/ exists p token s d,
                      meta = [TokenSymbol p token s; TokenDecimals p token d]))
    /\ (forall url answer,
          In (Fetch url answer) log ->
          exists cardId,
            get_prop req_body "cardId" = Normal cardId
            /\ truthy cardId = true
            /\ card_url cardId = Normal url
            /\ net_fetch net [] url = answer)
    /\ ((In res card_info_error_responses
         /\ (status res = 404 ->
             exists url response,
               log = [Fetch url (Normal response)]
               /\ res_ok response = false /\ res_status response = 404))
        \/ exists url response meta card fields chainId key chainName message,
             status res = 200
             /\ log = Fetch url (Normal response) :: meta
             /\ res_ok response = true
             /\ res_json response = Normal card
             /\ body res = VObj fields
             /\ Forall (fun key => get_prop card key = Normal (lookup fields key))
                  card_info_passed_fields
             /\ get_prop card "chainId" = Normal chainId
             /\ is_normal (getProvider cfg chainId) = true
             /\ to_string chainId = Normal key
             /\ match lookup CHAINS key with
                | VUndefined | VNull => Normal VUndefined
                | entry => get_prop entry "name"
                end = Normal chainName
             /\ lookup fields "chainName"
                = (if truthy chainName then chainName else VStr "Unknown")
             /\ get_prop card "message" = Normal message
             /\ lookup fields "message"
                = (if truthy message then message else VStr "")).
Proof.
  unfold_handlers.
  repeat (match goal with
          | |- context [match ?x with _ => _ end] =>
              lazymatch x with
              | lookup CHAINS _ => fail
              | match lookup CHAINS _ with _ => _ end => destruct x eqn:?
              | context [match _ with _ => _ end] => fail
              | _ => destruct x eqn:?
              end
          end; cbv beta iota zeta).
  all: intros Hrun; inversion Hrun; subst r log; clear Hrun.
  all: eexists; split; [reflexivity |].
  all: split; [intros ev Hin; split_In; subst ev; reflexivity |].
  all: split;
    [ first [ left; reflexivity
            | right; do 3 eexists; split;
              [reflexivity
              | first [left; reflexivity
                      | right; do 4 eexists; reflexivity]] ] |].
  all: repeat match goal with
              | H : negb _ = false |- _ => apply negb_false_true in H
              | H : negb _ = true |- _ => apply negb_true_iff in H
              | H : (_ =? _) = true |- _ => apply Z.eqb_eq in H
              end.
  all: split;
    [ intros url answer Hin; split_In;
      try discriminate;
      (match goal with
       | H : @eq event _ _ |- _ => inversion H; subst
       end;
       eexists;
       (split; [first [reflexivity | eassumption] |
          split; [assumption |
            split; first [reflexivity | assumption]]])) |].
  all: first
         [ left; split; [cbn [card_info_error_responses In]; solve [auto 10] |];
           cbn [status respond]; intros Hs;
           first [discriminate Hs
                 | do 2 eexists; split; [reflexivity |];
                   split; assumption]
         | right; do 9 eexists;
           split; [reflexivity |];
           split; [reflexivity |];
           split; [assumption |];
           split; [eassumption |];
           split; [reflexivity |];
           split; [repeat (apply Forall_cons; [cbn; eassumption |]);
                   apply Forall_nil |];
           split; [eassumption |];
           split; [match goal with
                   | H : getProvider _ _ = _ |- _ => rewrite H
                   end; reflexivity |];
           split; [eassumption |];
           split; [eassumption |];
           split; [cbn; repeat match goal with
                               | H : truthy _ = _ |- _ => rewrite H
                               end; reflexivity |];
           split; [eassumption |];
           cbn; repeat match goal with
                       | H : truthy _ = _ |- _ => rewrite H
                       end; reflexivity ].
Qed.

(** card-info only reads: it never estimates gas and never sends a
    transaction. It always answers, with status 200, 400, 404 or 500, and
    its calls are at most the fetch of the card followed by the two
    queries to the token contract. *)
Theorem card_info_read_only (req_body : value)
  (r : completion http_response) (log : list event) :
  run (card_info cfg net req_body) = (r, log) ->
  exists res, r = Normal res
    /\ In (status res) [200; 400; 404; 500]
    /\ (forall ev, In ev log -> onchain_call ev = false)
    /\ (log = []
        \/ exists url answer meta,
             log = Fetch url answer :: meta
             /\ (meta = []
                 \/ exists p token s d,
                      meta = [TokenSymbol p token s; TokenDecimals p token d])).
Proof.
  intros Hrun.
  apply card_info_run_inv in Hrun
    as (res & -> & Hread & Hlog & _ & Hres).
  exists res. split; [reflexivity |]. split; [| split; assumption].
  destruct Hres as [(Herr & _) | (url & response & meta & card & fields
                                  & chainId & key & chainName & message & Hs
                                  & _)].
  - cbn [card_info_error_responses In] in Herr.
    repeat (destruct Herr as [<- | Herr]; [cbn; auto 10 |]). contradiction.
  - rewrite Hs. cbn. auto.
Qed.

(** How card-info reports the registry: a registry answer that is not a
    success gives 404 when its status is 404 and 500 for any other
    status; a fetch that fails gives 500; in each case the fetch is the
    only call. A card id that cannot be printed gives 500 without any
    call. And card-info answers 404 for no other reason than a 404 of
    the registry. *)
Theorem card_info_registry_errors (req_body cardId : value) :
  get_prop req_body "cardId" = Normal cardId ->
  truthy cardId = true ->
  (forall url response,
      card_url cardId = Normal url ->
      net_fetch net [] url = Normal response ->
      res_ok response = false ->
      run (card_info cfg net req_body)
      = (Normal (if res_status response =? 404
                 then respond 404 (error_body "Card not found")
                 else respond 500 (error_body "Failed to get card information")),
         [Fetch url (Normal response)]))
  /\ (forall url e,
        card_url cardId = Normal url ->
        net_fetch net [] url = Throw e ->
        run (card_info cfg net req_body)
        = (Normal (respond 500 (error_body "Failed to get card information")),
           [Fetch url (Throw e)]))
  /\ (forall e,
        card_url cardId = Throw e ->
        run (card_info cfg net req_body)
        = (Normal (respond 500 (error_body "Failed to get card information")),
           []))
  /\ (forall res log,
        run (card_info cfg net req_body) = (Normal res, log) ->
        status res = 404 ->
        exists url response,
          log = [Fetch url (Normal response)]
          /\ card_url cardId = Normal url
          /\ res_ok response = false /\ res_status response = 404).
Proof.
  intros Hid Htruthy. split; [| split; [| split]].
  - intros url response Hurl Hfetch Hok. unfold_handlers.
    rewrite Hid, Htruthy. cbv beta iota zeta. cbn [negb].
    rewrite Hurl. cbv beta iota zeta.
    rewrite Hfetch. cbv beta iota zeta. rewrite Hok. cbn [negb].
    destruct (res_status response =? 404); reflexivity.
  - intros url e Hurl Hfetch. unfold_handlers.
    rewrite Hid, Htruthy. cbv beta iota zeta. cbn [negb].
    rewrite Hurl. cbv beta iota zeta.
    rewrite Hfetch. reflexivity.
  - intros e Hurl. unfold_handlers.
    rewrite Hid, Htruthy. cbv beta iota zeta. cbn [negb].
    rewrite Hurl. reflexivity.
  - intros res log Hrun Hstatus.
    apply card_info_run_inv in Hrun as (res' & Heq & _ & _ & Hfetch & Hres).
    inversion Heq; subst res'; clear Heq.
    destruct Hres as [(_ & H404) | (url & response & meta & card & fields
                                    & chainId & key & chainName & message
                                    & Hs & _)];
      [| congruence].
    destruct (H404 Hstatus) as (url & response & -> & Hok & Hcode).
    exists url, response. split; [reflexivity |].
    destruct (Hfetch url (Normal response)) as (cardId' & Hid' & _ & Hurl & _);
      [left; reflexivity |].
    assert (cardId' = cardId) by congruence. subst cardId'.
    split; [exact Hurl | split; assumption].
Qed.

(** A card-info success answer hands the card on: the ten fields of the
    registry's card are in the answer unchanged, the message is the
    card's or the empty text when the card has none, and the chain name
    is the one of the card's chain in [CHAINS]. *)
Theorem card_info_passes_card_through (req_body : value)
  (res : http_response) (log : list event) :
  run (card_info cfg net req_body) = (Normal res, log) ->
  status res = 200 ->
  exists url response meta card fields chainId message,
    log = Fetch url (Normal response) :: meta
    /\ res_json response = Normal card
    /\ body res = VObj fields
    /\ Forall (fun key => get_prop card key = Normal (lookup fields key))
         card_info_passed_fields
    /\ get_prop card "message" = Normal message
    /\ lookup fields "message" = (if truthy message then message else VStr "")
    /\ get_prop card "chainId" = Normal chainId
    /\ forall z,
         to_string chainId = Normal (numeral z) ->
         exists name rpc sym,
           In (z, (name, rpc, sym)) configured_chains
           /\ lookup fields "chainName" = VStr name.
Proof.
  intros Hrun Hstatus.
  apply card_info_run_inv in Hrun as (res' & Heq & _ & _ & _ & Hres).
  inversion Heq; subst res'; clear Heq.
  destruct Hres as [(Herr & _) | (url & response & meta & card & fields
                                  & chainId & key & chainName & message & _
                                  & Hlog & _ & Hjson & Hbody & Hpass & Hchain
                                  & Hprovider & Hprinted & Hname & Hfield
                                  & Hmsg & Hmfield)].
  - exfalso. cbn [card_info_error_responses In] in Herr.
    repeat (destruct Herr as [<- | Herr]; [discriminate Hstatus |]).
    contradiction.
  - exists url, response, meta, card, fields, chainId, message.
    repeat (split; [assumption |]).
    intros z Hkey.
    pose proof (@getProvider_numeral cfg chainId z Hkey Hprovider) as Hin.
    rewrite <- configured_chains_explorers in Hin.
    assert (key = numeral z) by congruence. subst key.
    rewrite Hfield. clear - Hin Hname.
    cbn [configured_chains map fst In] in Hin.
    repeat (destruct Hin as [<- | Hin];
            [ cbn in Hname; inversion Hname; subst chainName;
              do 3 eexists; split; [| reflexivity];
              cbn [configured_chains In]; auto 10 |]).
    contradiction.
Qed.

(** ** verify-secret *)

(** verify-secret answers [{valid: true}] exactly when the card id and
    the secret are present, the card id can be printed into the
    registry address, the registry has the card, the card is active, and
    the secret decrypts the card's envelope. Whatever it answers, the
    fetch of the card is the only call it makes. *)
Theorem verify_secret_valid_iff (req_body : value) :
  (fst (run (verify_secret net req_body))
   = Normal (respond 200 (VObj [("valid", VBool true)]))
   <-> exists cardId cardSecret url response card active encryptedPrivateKey
              key,
         get_prop req_body "cardId" = Normal cardId
         /\ get_prop req_body "cardSecret" = Normal cardSecret
         /\ truthy cardId = true /\ truthy cardSecret = true
         /\ card_url cardId = Normal url
         /\ net_fetch net [] url = Normal response
         /\ res_ok response = true
         /\ res_json response = Normal card
         /\ get_prop card "active" = Normal active
         /\ truthy active = true
         /\ get_prop card "encryptedPrivateKey" = Normal encryptedPrivateKey
         /\ decryptPrivateKey encryptedPrivateKey cardSecret = Normal key)
  /\ (snd (run (verify_secret net req_body)) = []
      \/ exists url answer,
           snd (run (verify_secret net req_body)) = [Fetch url answer]).
Proof.
  split; [split |].
  - unfold_handlers. run_paths; cbn [fst]; intros H; try discriminate H.
    repeat match goal with
           | H : negb _ = false |- _ => apply negb_false_true in H
           | H : _ || _ = false |- _ => apply orb_false_elim in H as [? ?]
           end.
    do 8 eexists.
    repeat (split; [first [reflexivity | eassumption] |]). eassumption.
  - intros (cardId & cardSecret & url & response & card & active & enc & key
            & Hid & Hsecret & Tid & Tsecret & Hurl & Hfetch & Hok & Hjson
            & Hactive & Tactive & Henc & Hdec).
    unfold_handlers. rewrite Hid, Hsecret, Tid, Tsecret.
    cbv beta iota zeta. cbn [negb orb]. rewrite Hurl.
    cbv beta iota zeta. rewrite Hfetch.
    cbv beta iota zeta. rewrite Hok. cbn [negb]. rewrite Hjson.
    cbv beta iota zeta. rewrite Hactive. cbv beta iota zeta.
    rewrite Tactive. cbn [negb]. rewrite Henc. cbv beta iota zeta.
    rewrite Hdec. reflexivity.
  - unfold_handlers. run_paths; cbn [snd]; eauto.
Qed.

(** ** redeem *)

(** Whether a property read throws depends on the value read from, not
    on the key. *)
Lemma get_prop_reads_or_throws (v : value) (key1 key2 : string)
  (x : value) (e : exn) :
  get_prop v key1 = Normal x -> get_prop v key2 = Throw e -> False.
Proof. destruct v; cbn; intros H1 H2; discriminate. Qed.

(** A secret that does not decrypt the envelope of an active card makes
    redeem answer 400 "Invalid card secret", with the fetch of the card
    as the only call: nothing is signed and nothing reaches the chain.
    This holds for a secret that is not a text as well. *)
Theorem redeem_wrong_secret_refused
  (req_body cardId cardSecret recipientAddress : value) (url : string)
  (response : response) (card active encryptedPrivateKey : value) (e : exn) :
  get_prop req_body "cardId" = Normal cardId ->
  get_prop req_body "cardSecret" = Normal cardSecret ->
  get_prop req_body "recipientAddress" = Normal recipientAddress ->
  truthy cardId = true -> truthy cardSecret = true ->
  truthy recipientAddress = true -> isAddress recipientAddress = true ->
  card_url cardId = Normal url ->
  net_fetch net [] url = Normal response ->
  res_ok response = true ->
  res_json response = Normal card ->
  get_prop card "active" = Normal active -> truthy active = true ->
  get_prop card "encryptedPrivateKey" = Normal encryptedPrivateKey ->
  decryptPrivateKey encryptedPrivateKey cardSecret = Throw e ->
  run (redeem cfg net req_body)
  = (Normal (respond 400 (error_body "Invalid card secret")),
     [Fetch url (Normal response)]).
Proof.
  intros Hid Hsecret Hto Tid Tsecret Tto Haddr Hurl Hfetch Hok Hjson Hactive
         Tactive Henc Hdec.
  pose proof Hdec as Hopaque.
  apply decryptPrivateKey_throws_opaque in Hopaque. subst e.
  unfold_handlers.
  rewrite Hid, Hsecret, Hto, Tid, Tsecret, Tto, Haddr.
  cbv beta iota zeta. cbn [negb orb]. rewrite Hurl.
  cbv beta iota zeta. rewrite Hfetch.
  cbv beta iota zeta. rewrite Hok. cbn [negb]. rewrite Hjson.
  cbv beta iota zeta. rewrite Hactive. cbv beta iota zeta.
  rewrite Tactive. cbn [negb]. rewrite Henc. cbv beta iota zeta.
  rewrite Hdec. reflexivity.
Qed.

(** verify-secret and redeem refuse alike. When verify-secret answers
    that the card is not found, already redeemed, or that the secret is
    invalid, redeem with the same card id and secret and a valid
    recipient gives the same answer after the same single fetch. *)
Theorem redeem_refuses_as_verify_secret
  (req_body recipientAddress : value) (res : http_response)
  (log : list event) :
  run (verify_secret net req_body) = (Normal res, log) ->
  In res [respond 404 (error_body "Card not found");
          respond 400
            (error_body "This card has already been redeemed or cancelled");
          respond 400 (error_body "Invalid card secret")] ->
  get_prop req_body "recipientAddress" = Normal recipientAddress ->
  truthy recipientAddress = true -> isAddress recipientAddress = true ->
  run (redeem cfg net req_body) = (Normal res, log).
Proof.
  intros Hverify Hres Hto Tto Haddr. revert Hverify.
  cbv [run verify_secret verify_secret_try try_catch_async bind lift ret
       fetch app].
  run_paths.
  all: intros Hverify; inversion Hverify; subst res log; clear Hverify.
  all: cbn [In] in Hres.
  all: repeat (destruct Hres as [Hres | Hres]; try discriminate Hres).
  all: try contradiction.
  all: clear Hres.
  all: repeat match goal with
              | H : negb _ = false |- _ => apply negb_false_true in H
              | H : negb _ = true |- _ => apply negb_true_iff in H
              | H : _ || _ = false |- _ => apply orb_false_elim in H as [? ?]
              end.
  all: unfold_handlers.
  all: repeat match goal with
              | H : get_prop _ _ = _ |- _ => rewrite H
              end.
  all: cbv beta iota zeta.
  all: repeat match goal with
              | H : truthy _ = true |- _ => rewrite H
              end.
  all: rewrite Haddr; cbn [negb orb].
  all: repeat match goal with
              | H : ?x = _ |- context [?x] =>
                  rewrite H; cbv beta iota zeta; cbn [negb]
              end.
  all: try reflexivity.
  all: match goal with
       | H : decryptPrivateKey _ _ = Throw ?e |- _ =>
           apply decryptPrivateKey_throws_opaque in H; subst e; cbn;
           reflexivity
       | H1 : get_prop ?card "active" = Normal _,
         H2 : get_prop ?card "encryptedPrivateKey" = Throw _ |- _ =>
           destruct (@get_prop_reads_or_throws _ _ _ _ _ H1 H2)
       end.
Qed.

(** ** The calls of a redemption *)

(** A redeem request makes its calls in one order: the fetch of the
    card, the gas estimation, the gas price, the transaction, the wait
    for its receipt, and then the symbol and the decimals of the token.
    Each is made at most once, the gas price query at most twice. *)
Theorem redeem_calls_in_order (req_body : value) :
  Sorted le (map phase (snd (run (redeem cfg net req_body))))
  /\ forall k,
       (count_phase k (snd (run (redeem cfg net req_body)))
        <= if (k =? 2)%nat then 2 else 1)%nat.
Proof.
  pose proof (surjective_pairing (run (redeem cfg net req_body))) as Hrun.
  apply redeem_chain_inv in Hrun as (Hsorted & Hcount & _).
  split; assumption.
Qed.

(** What is fetched. The one fetch of a redeem request is made when the
    card id and the secret are present, before any other call, and its
    address is the registry's address for single cards followed by the
    card id of the request as it prints: a number as it is written
    (1e+21 for ten to the 21st), a text as it is. *)
Theorem redeem_fetches_the_card
  (req_body : value) (r : completion http_response) (log : list event)
  (url : string) (answer : completion response) :
  run (redeem cfg net req_body) = (r, log) ->
  In (Fetch url answer) log ->
  exists cardId cardSecret,
    get_prop req_body "cardId" = Normal cardId
    /\ get_prop req_body "cardSecret" = Normal cardSecret
    /\ truthy cardId = true /\ truthy cardSecret = true
    /\ (exists id,
          to_string cardId = Normal id
          /\ url = "https://api.univoucher.com/v1/cards/single?id=" ++ id)
    /\ net_fetch net [] url = answer
    /\ hd_error log = Some (Fetch url answer).
Proof.
  intros Hrun Hin.
  pose proof Hrun as Hcalls.
  apply redeem_chain_inv in Hcalls
    as (_ & _ & Hfetch & _).
  destruct (Hfetch url answer Hin)
    as (cardId & cardSecret & Hid & Hsecret & Tid & Tsecret & Hurl & Hnet
        & Hfirst).
  exists cardId, cardSecret.
  repeat (split; [assumption |]).
  split; [| split; assumption].
  unfold card_url in Hurl.
  destruct (to_string cardId) as [id |]; [| discriminate Hurl].
  inversion Hurl. exists id. split; reflexivity.
Qed.

(** Who redeems. Every gas estimation and every transaction of a redeem
    request goes to the UniVoucher contract address, is signed by the
    wallet of the service key of the configuration, and goes through the
    provider of the chain id of the card that the registry answered
    with. *)
Theorem redeem_onchain_calls_by_service_wallet
  (req_body : value) (r : completion http_response) (log : list event)
  (ev : event) (c : contract) :
  run (redeem cfg net req_body) = (r, log) ->
  In ev log -> event_contract ev = Some c ->
  contract_address c = UNIVOUCHER_ADDRESS
  /\ Wallet_new (SERVICE_PRIVATE_KEY cfg) = Normal (contract_signer c)
  /\ exists url response card chainId,
       In (Fetch url (Normal response)) log
       /\ res_json response = Normal card
       /\ get_prop card "chainId" = Normal chainId
       /\ getProvider cfg chainId = Normal (contract_provider c).
Proof.
  intros Hrun Hin Hc.
  pose proof Hrun as Hcalls.
  apply redeem_chain_inv in Hcalls
    as (_ & _ & _ & Hcontract & _).
  exact (Hcontract ev c Hin Hc).
Qed.

(** The gas price of the transaction is an answer of the provider: the
    price queries of a redeem request come after a gas estimation that
    succeeded and go to the provider of the contract, and a transaction
    is sent with a price that such a query answered. *)
Theorem redeem_transaction_gas_price
  (req_body : value) (r : completion http_response) (log : list event) :
  run (redeem cfg net req_body) = (r, log) ->
  (forall p answer,
      In (GetGasPrice p answer) log ->
      exists c args estimate,
        In (EstimateGas c args (Normal estimate)) log
        /\ p = contract_provider c)
  /\ (forall c args o answer,
        In (SendRedeemCard c args o answer) log ->
        In (GetGasPrice (contract_provider c) (Normal (gasPrice o))) log).
Proof.
  intros Hrun.
  pose proof Hrun as Hcalls.
  apply redeem_chain_inv in Hcalls
    as (_ & _ & _ & _ & Hprice & Hsend & _).
  split; assumption.
Qed.

(** The receipt awaited is the one of the transaction sent, and the
    token contract is asked for its symbol or decimals only once a
    receipt has arrived. *)
Theorem redeem_waits_for_sent_transaction
  (req_body : value) (r : completion http_response) (log : list event) :
  run (redeem cfg net req_body) = (r, log) ->
  (forall tx answer,
      In (Wait tx answer) log ->
      exists c args o, In (SendRedeemCard c args o (Normal tx)) log)
  /\ (forall ev,
        In ev log -> token_call ev = true ->
        exists tx receipt, In (Wait tx (Normal receipt)) log).
Proof.
  intros Hrun.
  pose proof Hrun as Hcalls.
  apply redeem_chain_inv in Hcalls
    as (_ & _ & _ & _ & _ & _ & Hwait & Htoken & _).
  split; assumption.
Qed.


(** A card on a chain that is not one of the seven is not redeemed: when
    the chain id of the card the registry answered with is a number
    outside [CHAINS], or prints as one, the request ends with one of the
    error answers and the fetch is the only call it made. *)
Theorem redeem_unsupported_chain_no_onchain_call
  (req_body : value) (r : completion http_response) (log : list event)
  (url : string) (response : response) (card chainId : value) (z : Z) :
  run (redeem cfg net req_body) = (r, log) ->
  In (Fetch url (Normal response)) log ->
  res_json response = Normal card ->
  get_prop card "chainId" = Normal chainId ->
  to_string chainId = Normal (numeral z) ->
  ~ In z (map fst configured_chains) ->
  (exists res, r = Normal res /\ In res redeem_error_responses)
  /\ log = [Fetch url (Normal response)].
Proof.
  intros Hrun Hin Hjson Hchain Hkey Hout.
  apply redeem_run_inv in Hrun
    as (res & -> & [(Herr & [-> | (url' & answer & -> & _)]) | Hreached]).
  - contradiction Hin.
  - destruct Hin as [Hin | []]. inversion Hin; subst url' answer.
    split; [exists res; split; [reflexivity | exact Herr] | reflexivity].
  - exfalso.
    destruct Hreached as (url' & response' & c & args & estimate & rest
                          & card' & chainId' & -> & _ & _ & _ & _ & Hjson'
                          & _ & Hchain' & Hprovider & Hrest & _).
    assert (Hsame : response' = response).
    { destruct Hin as [Hin | [Hin | Hin]].
      - inversion Hin. reflexivity.
      - discriminate Hin.
      - rewrite Forall_forall in Hrest. destruct (Hrest _ Hin). }
    subst response'.
    assert (card' = card) by congruence. subst card'.
    assert (chainId' = chainId) by congruence. subst chainId'.
    apply Hout. rewrite configured_chains_explorers.
    exact (@getProvider_numeral cfg chainId z Hkey Hprovider).
Qed.

(** card-info on such a card answers 500: the provider is looked up
    before the answer is put together, so the chain name Unknown of the
    answer is never sent for a chain id that is a number. *)
Theorem card_info_unsupported_chain
  (req_body cardId : value) (url : string) (response : response)
  (card chainId : value) (z : Z) :
  get_prop req_body "cardId" = Normal cardId ->
  truthy cardId = true ->
  card_url cardId = Normal url ->
  net_fetch net [] url = Normal response ->
  res_ok response = true ->
  res_json response = Normal card ->
  get_prop card "chainId" = Normal chainId ->
  to_string chainId = Normal (numeral z) ->
  ~ In z (map fst configured_chains) ->
  run (card_info cfg net req_body)
  = (Normal (respond 500 (error_body "Failed to get card information")),
     [Fetch url (Normal response)]).
Proof.
  intros Hid Tid Hurl Hfetch Hok Hjson Hchain Hkey Hout.
  assert (Hprovider : getProvider cfg chainId
                      = Throw (Error "Unsupported chain")).
  { unfold getProvider. rewrite Hkey. cbn [cbind].
    rewrite configured_chains_explorers in Hout.
    rewrite (lookup_CHAINS_unconfigured Hout). reflexivity. }
  unfold_handlers. rewrite Hid, Tid. cbv beta iota zeta. cbn [negb].
  rewrite Hurl. cbv beta iota zeta.
  rewrite Hfetch. cbv beta iota zeta. rewrite Hok. cbn [negb].
  rewrite Hjson. cbv beta iota zeta. rewrite Hchain. cbv beta iota zeta.
  rewrite Hprovider. reflexivity.
Qed.

(** ** Secrets that are not texts, and the two handlers that test a secret *)

(** A secret that is not a text has no [replace] method: whatever the
    envelope, decryption fails with the one error it ever throws. *)
Theorem decryptPrivateKey_non_text_secret (encryptedData cardSecret : value) :
  (forall s, cardSecret <> VStr s) ->
  decryptPrivateKey encryptedData cardSecret
  = Throw (Error "Invalid card secret").
Proof.
  intros Hsecret. rewrite decryptPrivateKey_catch.
  unfold decryptPrivateKey_try.
  destruct (JSON_parse encryptedData); [| reflexivity].
  destruct cardSecret; try reflexivity.
  contradiction (Hsecret s eq_refl).
Qed.

(** A redemption succeeds only with a secret that verify-secret accepts:
    when redeem answers 200, verify-secret on the same body answers that
    the secret is valid. *)
Theorem redeem_success_implies_verified
  (req_body : value) (res : http_response) (log : list event) :
  run (redeem cfg net req_body) = (Normal res, log) ->
  status res = 200 ->
  fst (run (verify_secret net req_body))
  = Normal (respond 200 (VObj [("valid", VBool true)])).
Proof.
  intros Hrun Hstatus.
  pose proof Hrun as Hcalls.
  apply redeem_chain_inv in Hcalls as (_ & _ & Hfetch & _).
  apply redeem_run_inv in Hrun as (res' & Heq & [(Herr & _) | Hreached]);
    inversion Heq; subst res'; clear Heq.
  - contradiction (error_response_not_200 Herr Hstatus).
  - destruct Hreached as (url & response & c & args & estimate & rest & card
                          & chainId & Hlog & _ & Hauth & _ & Hok & Hjson
                          & (active & Hactive & Tactive) & _).
    destruct Hauth as (cardSecret & card' & enc & key & w & h & ah & _ & _
                       & Hsecret & Hjson' & Henc & Hdec & _).
    assert (card' = card) by congruence. subst card'.
    destruct (Hfetch url (Normal response))
      as (cardId & cardSecret' & Hid & Hsecret' & Tid & Tsecret & Hurl
          & Hnet & _);
      [rewrite Hlog; left; reflexivity |].
    assert (cardSecret' = cardSecret) by congruence. subst cardSecret'.
    unfold_handlers. rewrite Hid, Hsecret, Tid, Tsecret.
    cbv beta iota zeta. cbn [negb orb]. rewrite Hurl.
    cbv beta iota zeta. rewrite Hnet.
    cbv beta iota zeta. rewrite Hok. cbn [negb]. rewrite Hjson.
    cbv beta iota zeta. rewrite Hactive. cbv beta iota zeta.
    rewrite Tactive. cbn [negb]. rewrite Henc. cbv beta iota zeta.
    rewrite Hdec. reflexivity.
Qed.


(** ** A card id that cannot be printed *)

(** The registry address holds the card id as it prints. A card id that
    cannot be printed, such as an object with a [toString] property,
    makes each handler fail where it builds the address: the answer is
    500, and nothing is fetched. *)
Theorem unprintable_card_id_fails
  (req_body cardId cardSecret recipientAddress : value) (e : exn) :
  get_prop req_body "cardId" = Normal cardId ->
  get_prop req_body "cardSecret" = Normal cardSecret ->
  get_prop req_body "recipientAddress" = Normal recipientAddress ->
  truthy cardId = true ->
  to_string cardId = Throw e ->
  run (card_info cfg net req_body)
  = (Normal (respond 500 (error_body "Failed to get card information")), [])
  /\ (truthy cardSecret = true ->
      run (verify_secret net req_body)
      = (Normal (respond 500 (error_body "Failed to verify card secret")),
         []))
  /\ (truthy cardSecret = true -> truthy recipientAddress = true ->
      isAddress recipientAddress = true ->
      run (redeem cfg net req_body)
      = (Normal (respond 500 (error_body "Failed to redeem card")), [])).
Proof.
  intros Hid Hsecret Hto Tid Hprint.
  assert (Hurl : card_url cardId
                 = Throw (TypeError
                            "Cannot convert object to primitive value")).
  { unfold card_url. rewrite Hprint. cbn [cbind].
    rewrite (to_string_throws _ Hprint). reflexivity. }
  unfold_handlers. rewrite Hid, Hsecret, Hto, Tid.
  cbv beta iota zeta. cbn [negb orb]. rewrite Hurl.
  split; [reflexivity | split].
  - intros ->. reflexivity.
  - intros -> -> ->. reflexivity.
Qed.

End MoreServerFacts.

Section MoreExamples.
Import Demo.
#[local] Existing Instance demo_node.
#[local] Existing Instance demo_ethers.

Lemma trailing_zeros_cut :
  trim_trailing_zeros "2.000000" = "2"
  /\ trim_trailing_zeros "1.500000" = "1.5".
Proof.
  destruct trim_trailing_zeros_fraction as (Hall & Hsome & _).
  split.
  - apply (Hall "2" "000000"); [discriminate | reflexivity].
  - apply (Hsome "1." "5"%char "00000"); reflexivity.
Defined.

Lemma base_provider_url :
  getProvider settings (VNum "8453") = Normal base_provider.
Proof.
  apply (proj1 (@getProvider_supported_chains settings (VNum "8453") 8453
                  eq_refl) "Base" "base-mainnet" "ETH").
  cbn [configured_chains In]. auto 10.
Defined.

Lemma secret_in_two_groups : hyphenate 0 "ABCDEFGH" = "ABCDE-FGH".
Proof.
  apply (proj2 hyphenate_groups_of_five "ABCDE" "FGH");
    [reflexivity | discriminate].
Defined.

Lemma token_answers_used :
  getTokenInfo token_net usdc (VNum "8453") base_provider []
  = (Normal {| symbol := VStr "USDC"; decimals := VNum "6" |},
     [TokenSymbol base_provider usdc (Normal (VStr "USDC"));
      TokenDecimals base_provider usdc (Normal (VNum "6"))]).
Proof.
  apply (proj1 (proj2 (@getTokenInfo_token_never_throws demo_ethers token_net
                         usdc (VNum "8453") base_provider [] eq_refl))
           tt (VStr "USDC") (VNum "6"));
    reflexivity.
Defined.

Lemma native_token_on_base :
  fst (getTokenInfo live_net (VStr AddressZero) (VNum "8453") base_provider [])
  = Normal {| symbol := VStr "ETH"; decimals := VNum "18" |}.
Proof.
  apply (proj1 (proj2 (@getTokenInfo_native_offline demo_ethers live_net
                         (VStr AddressZero) (VNum "8453") base_provider []
                         8453 eq_refl eq_refl))
           "Base" "base-mainnet" "ETH").
  cbn [configured_chains In]. auto 10.
Defined.

Lemma empty_body_rejected :
  run (redeem settings live_net (VObj []))
  = (Normal (respond 400
               (error_body
                  "Card ID, secret, and recipient address required")),
     []).
Proof.
  apply (proj2 (proj2 (@missing_field_rejected_offline demo_node demo_ethers
                         settings live_net (VObj [])
                         VUndefined VUndefined VUndefined
                         eq_refl eq_refl eq_refl))).
  reflexivity.
Defined.

Lemma card_info_run_eq :
  run (card_info settings live_net card_request) = card_info_run.
Proof. vm_compute. reflexivity. Qed.

Lemma card_info_run_reads :
  exists res,
    fst card_info_run = Normal res
    /\ In (status res) [200; 400; 404; 500]
    /\ (forall ev, In ev (snd card_info_run) -> onchain_call ev = false)
    /\ (snd card_info_run = []
        \/ exists url answer meta,
             snd card_info_run = Fetch url answer :: meta
             /\ (meta = []
                 \/ exists p token s d,
                      meta = [TokenSymbol p token s;
                              TokenDecimals p token d])).
Proof.
  apply (@card_info_read_only demo_node demo_ethers settings live_net
           card_request (fst card_info_run) (snd card_info_run)).
  exact card_info_run_eq.
Defined.

Lemma card_info_registry_down :
  run (card_info settings (chain_net registry_down) card_request)
  = (Normal (respond 500 (error_body "Failed to get card information")),
     [Fetch card_address (Normal (failed 500))]).
Proof.
  apply (proj1 (@card_info_registry_errors demo_node demo_ethers settings
                  (chain_net registry_down) card_request (VStr "1234567")
                  eq_refl eq_refl)
           card_address (failed 500));
    reflexivity.
Defined.

Lemma card_info_run_fields :
  exists url response meta card0 fields chainId message,
    snd card_info_run = Fetch url (Normal response) :: meta
    /\ res_json response = Normal card0
    /\ body (respond 200 (VObj fields)) = VObj fields
    /\ Forall (fun key => get_prop card0 key = Normal (lookup fields key))
         card_info_passed_fields
    /\ get_prop card0 "message" = Normal message
    /\ lookup fields "message" = (if truthy message then message else VStr "")
    /\ get_prop card0 "chainId" = Normal chainId
    /\ forall z,
         to_string chainId = Normal (numeral z) ->
         exists name rpc sym,
           In (z, (name, rpc, sym)) configured_chains
           /\ lookup fields "chainName" = VStr name.
Proof.
  destruct (@card_info_passes_card_through demo_node demo_ethers settings
              live_net card_request
              {| status := 200;
                 body := match fst card_info_run with
                         | Normal res => body res
                         | Throw _ => VUndefined
                         end |}
              (snd card_info_run) card_info_run_eq eq_refl)
    as (url & response & meta & card0 & fields & chainId & message & Hlog
        & Hjson & Hbody & Hpass & Hmsg & Hmfield & Hchain & Hname).
  exists url, response, meta, card0, fields, chainId, message.
  repeat (split; [first [assumption | reflexivity] |]). exact Hname.
Defined.

Lemma wrong_secret_refused :
  run (redeem settings live_net wrong_request)
  = (Normal (respond 400 (error_body "Invalid card secret")),
     [Fetch card_address (Normal (found (card true)))]).
Proof.
  apply (@redeem_wrong_secret_refused demo_node demo_ethers settings live_net
           wrong_request (VStr "1234567") (VStr "WRONG-WRONG-WRONG-WRONG")
           (VStr recipient) card_address (found (card true)) (card true)
           (VBool true)
           (VStr envelope) (Error "Invalid card secret"));
    reflexivity.
Defined.

Lemma wrong_secret_refused_alike :
  run (verify_secret live_net wrong_request)
  = (Normal (respond 400 (error_body "Invalid card secret")),
     [Fetch card_address (Normal (found (card true)))])
  /\ run (redeem settings live_net wrong_request)
     = (Normal (respond 400 (error_body "Invalid card secret")),
        [Fetch card_address (Normal (found (card true)))]).
Proof.
  assert (Hverify :
            run (verify_secret live_net wrong_request)
            = (Normal (respond 400 (error_body "Invalid card secret")),
               [Fetch card_address
                  (Normal (found (card true)))]))
    by (vm_compute; reflexivity).
  split; [exact Hverify |].
  exact (@redeem_refuses_as_verify_secret demo_node demo_ethers settings
           live_net wrong_request (VStr recipient)
           (respond 400 (error_body "Invalid card secret"))
           [Fetch card_address (Normal (found (card true)))]
           Hverify (or_intror (or_intror (or_introl eq_refl)))
           eq_refl eq_refl eq_refl).
Defined.

Lemma good_run_by_service_wallet :
  contract_address service_contract = UNIVOUCHER_ADDRESS
  /\ Wallet_new (SERVICE_PRIVATE_KEY settings)
     = Normal (contract_signer service_contract)
  /\ exists url response card0 chainId,
       In (Fetch url (Normal response)) (snd good_run)
       /\ res_json response = Normal card0
       /\ get_prop card0 "chainId" = Normal chainId
       /\ getProvider settings chainId
          = Normal (contract_provider service_contract).
Proof.
  apply (@redeem_onchain_calls_by_service_wallet demo_node demo_ethers
           settings live_net good_request (fst good_run) (snd good_run)
           (EstimateGas service_contract redeem_call (Normal 100001))
           service_contract good_run_eq).
  - vm_compute. right; left. reflexivity.
  - reflexivity.
Defined.

Lemma good_run_gas_price :
  In (GetGasPrice base_provider (Normal 5)) (snd good_run).
Proof.
  apply (proj2 (@redeem_transaction_gas_price demo_node demo_ethers settings
                  live_net good_request (fst good_run) (snd good_run)
                  good_run_eq)
           service_contract redeem_call
           {| gasLimit := 120001; gasPrice := 5 |}
           (Normal (VObj [("hash", VStr tx_hash)]))).
  vm_compute. do 3 right. left. reflexivity.
Defined.

Lemma good_run_receipt :
  exists c args o,
    In (SendRedeemCard c args o (Normal (VObj [("hash", VStr tx_hash)])))
       (snd good_run).
Proof.
  apply (proj1 (@redeem_waits_for_sent_transaction demo_node demo_ethers
                  settings live_net good_request (fst good_run)
                  (snd good_run) good_run_eq)
           (VObj [("hash", VStr tx_hash)])
           (Normal (VObj [("transactionHash", VStr tx_hash)]))).
  vm_compute. do 4 right. left. reflexivity.
Defined.


Lemma testnet_card_not_redeemed :
  (exists res,
      fst (run (redeem settings testnet_net good_request)) = Normal res
      /\ In res redeem_error_responses)
  /\ snd (run (redeem settings testnet_net good_request))
     = [Fetch card_address (Normal (found testnet_card))].
Proof.
  apply (@redeem_unsupported_chain_no_onchain_call demo_node demo_ethers
           settings testnet_net good_request _ _
           card_address (found testnet_card) testnet_card
           (VNum "11155111") 11155111 (surjective_pairing _)).
  - vm_compute. left. reflexivity.
  - reflexivity.
  - reflexivity.
  - reflexivity.
  - vm_compute. intuition discriminate.
Defined.

Lemma testnet_card_info_fails :
  run (card_info settings testnet_net card_request)
  = (Normal (respond 500 (error_body "Failed to get card information")),
     [Fetch card_address (Normal (found testnet_card))]).
Proof.
  apply (@card_info_unsupported_chain demo_node demo_ethers settings
           testnet_net card_request (VStr "1234567") card_address
           (found testnet_card) testnet_card (VNum "11155111") 11155111);
    try reflexivity.
  vm_compute. intuition discriminate.
Defined.

Lemma secret_case_ignored :
  format_secret_input "ABCDEFGH" = format_secret_input "abcdefgh".
Proof.
  exact (proj2 (format_secret_input_idempotent "abcdefgh") eq_refl).
Defined.

Lemma number_is_no_secret :
  decryptPrivateKey (VStr envelope) (VNum "12345")
  = Throw (Error "Invalid card secret").
Proof.
  apply (@decryptPrivateKey_non_text_secret demo_node (VStr envelope)
           (VNum "12345")).
  intros s. discriminate.
Defined.

Lemma good_run_fetch :
  exists cardId cardSecret,
    get_prop good_request "cardId" = Normal cardId
    /\ get_prop good_request "cardSecret" = Normal cardSecret
    /\ truthy cardId = true /\ truthy cardSecret = true
    /\ (exists id,
          to_string cardId = Normal id
          /\ card_address
             = "https://api.univoucher.com/v1/cards/single?id=" ++ id)
    /\ net_fetch live_net [] card_address = Normal (found (card true))
    /\ hd_error (snd good_run)
       = Some (Fetch card_address (Normal (found (card true)))).
Proof.
  apply (@redeem_fetches_the_card demo_node demo_ethers settings live_net
           good_request (fst good_run) (snd good_run)
           card_address (Normal (found (card true)))
           good_run_eq).
  vm_compute. left. reflexivity.
Defined.

Lemma good_run_secret_verifies :
  fst (run (verify_secret live_net good_request))
  = Normal (respond 200 (VObj [("valid", VBool true)])).
Proof.
  apply (@redeem_success_implies_verified demo_node demo_ethers settings
           live_net good_request
           (redeem_success (VStr tx_hash) (VStr recipient)
              "1000000000000000000 ETH"
              ("https://basescan.org/tx/" ++ tx_hash))
           (snd good_run)).
  - exact good_run_eq.
  - reflexivity.
Defined.

Lemma unprintable_id_rejected :
  run (redeem settings live_net
         (VObj [("cardId", unprintable_id); ("cardSecret", VStr secret);
                ("recipientAddress", VStr recipient)]))
  = (Normal (respond 500 (error_body "Failed to redeem card")), []).
Proof.
  apply (proj2 (proj2 (@unprintable_card_id_fails demo_node demo_ethers
                         settings live_net
                         (VObj [("cardId", unprintable_id);
                                ("cardSecret", VStr secret);
                                ("recipientAddress", VStr recipient)])
                         unprintable_id (VStr secret) (VStr recipient)
                         (TypeError "Cannot convert object to primitive value")
                         eq_refl eq_refl eq_refl eq_refl eq_refl)));
    reflexivity.
Defined.

End MoreExamples.
